(** * Coronado MySQL plugin: schema version tracking, migrations, fixtures

    A shallow embedding of [MySQLPlugin/__init__.py] (the pymysql based
    package) and of [MySQLPlugin.py] (the MySQLdb based module), together
    with the properties of the version-tracked migration commands and of
    the fixture loader.

    Layout:
    - [Py]      : Python values, exceptions, and the state-and-error monad
                  in which the commands run (connections, operator input,
                  log records, statements sent to the server);
    - [Pkg]     : [MySQLPlugin/__init__.py];
    - [Legacy]  : [MySQLPlugin.py];
    - [Toy]     : a small concrete server used to run the commands. *)

From Stdlib Require Import String Ascii List ZArith Lia Bool Arith DecimalString.
Import ListNotations.
Open Scope string_scope.
Set Warnings "-register-all".

(* ================================================================== *)
(** ** Python values, exceptions and the command monad *)
(* ================================================================== *)

Module Py.

(** JSON-shaped Python values.  A [dict] is kept as an association list in
    iteration order: [keys()], [values()] and [items()] walk it in the
    same order, as Python guarantees for a dict that is not modified in
    between. *)
Inductive pyval : Type :=
| PNone
| PBool (b : bool)
| PInt (z : Z)
| PStr (s : string)
| PList (xs : list pyval)
| PDict (items : list (string * pyval)).

(** Exceptions the commands raise or let through.  The three database
    classes carry the engine's numeric code ([e.args[0]]). *)
Inductive exn : Type :=
| CommandError (msg : string)
| NameError (name : string)
| KeyError (key : pyval)
| TypeError (msg : string)
| AttributeError (attr : string)
| IndexError
| ImportError (name : string)
| EOFError
| ProgrammingError (code : Z)
| IntegrityError (code : Z)
| OperationalError (code : Z).

Inductive result (A : Type) : Type :=
| Ok (a : A)
| Raise (e : exn).
Arguments Ok {A} a.
Arguments Raise {A} e.

(** A connection handle, and a row as a [DictCursor] delivers it: column
    name to text. *)
Definition conn := nat.
Definition row := list (string * string).

Inductive capability : Type := CapUpgrade | CapOverlay | CapTrim.

(** What a run leaves behind, in order. *)
Inductive event : Type :=
| EExecute (c : conn) (query : string) (args : list pyval)
    (* a statement sent to the server through connection [c] *)
| ELog (fmt : string) (args : list pyval)
    (* logger.info(fmt, *args) *)
| EPrompt (text : string)
    (* raw_input(text) *)
| ETempFile (name : string) (content : pyval)
    (* a NamedTemporaryFile(delete=False) holding json.dump(content) *)
| EInvoke (version : string) (cap : capability) (c : conn) (arg : string).
    (* a version module's procedure called with connection [c] *)

(** The double quote character, for messages that quote a word. *)
Definition dq : string := String (ascii_of_nat 34) EmptyString.

(* ------------------------------------------------------------------ *)
(** *** Strings *)

(** [sep.join(parts)] *)
Fixpoint join (sep : string) (parts : list string) : string :=
  match parts with
  | [] => ""
  | [p] => p
  | p :: rest => p ++ sep ++ join sep rest
  end.

Fixpoint repeat_str (s : string) (n : nat) : string :=
  match n with
  | O => ""
  | S k => s ++ repeat_str s k
  end.

(** [s * n]: the empty string for [n <= 0]. *)
Definition str_mul (s : string) (n : Z) : string := repeat_str s (Z.to_nat n).

(** Number of [%s] conversions in a format string. *)
Fixpoint count_placeholders (s : string) : nat :=
  match s with
  | EmptyString => 0
  | String a rest =>
      match rest with
      | String b rest' =>
          if (Ascii.eqb a "%" && Ascii.eqb b "s")%bool
          then S (count_placeholders rest')
          else count_placeholders rest
      | EmptyString => 0
      end
  end.

(** No [%] in a name: nothing in it that formatting would read. *)
Fixpoint no_percent (s : string) : bool :=
  match s with
  | EmptyString => true
  | String a rest => (negb (Ascii.eqb a "%") && no_percent rest)%bool
  end.

Fixpoint is_prefix (p s : string) : bool :=
  match p, s with
  | EmptyString, _ => true
  | String a p', String b s' => (Ascii.eqb a b && is_prefix p' s')%bool
  | String _ _, EmptyString => false
  end.

(** [p in s] for two strings. *)
Fixpoint is_substring (p s : string) : bool :=
  (is_prefix p s ||
   match s with
   | EmptyString => false
   | String _ s' => is_substring p s'
   end)%bool.

Fixpoint chars (s : string) : list string :=
  match s with
  | EmptyString => []
  | String a s' => String a EmptyString :: chars s'
  end.

(* ------------------------------------------------------------------ *)
(** *** Dictionaries *)

Fixpoint lookup {V : Type} (k : string) (d : list (string * V)) : option V :=
  match d with
  | [] => None
  | (k', v) :: rest => if String.eqb k k' then Some v else lookup k rest
  end.

Definition has_key {V : Type} (k : string) (d : list (string * V)) : bool :=
  match lookup k d with Some _ => true | None => false end.

Definition keys {V : Type} (d : list (string * V)) : list string := map fst d.
Definition values {V : Type} (d : list (string * V)) : list V := map snd d.

(** The text [msg] names [word]. *)
Definition mentions (msg word : string) : Prop :=
  exists before after, msg = before ++ word ++ after.

Definition is_str (k : string) (v : pyval) : bool :=
  match v with PStr s => String.eqb k s | _ => false end.

(* ------------------------------------------------------------------ *)
(** *** The server, the world and the monad *)

(** The database server is a collaborator: it is a parameter of the whole
    development.  [srv_login] says whether it accepts a new session on
    the current data; [srv_exec] runs one statement and either refuses it
    with a database error, leaving the data as they were (every session
    runs with autocommit on, one statement is one transaction), or
    answers with a result set and the data after the statement. *)
Record Server (DB : Type) : Type := mkServer {
  srv_login : DB -> option exn;
  srv_exec : DB -> string -> list pyval -> exn + (list row * DB)
}.
Arguments mkServer {DB}.
Arguments srv_login {DB} s db.
Arguments srv_exec {DB} s db query args.

(** Two things a server may be asked to guarantee about a statement:
    that it never refuses it, and that running it changes no data. *)
Definition accepts {DB : Type} (srv : Server DB) (query : string)
    (args : list pyval) : Prop :=
  forall data, exists rows data',
    srv_exec srv data query args = inr (rows, data').

Definition reads_only {DB : Type} (srv : Server DB) (query : string)
    (args : list pyval) : Prop :=
  forall data rows data',
    srv_exec srv data query args = inr (rows, data') -> data' = data.

Record World (DB : Type) : Type := mkWorld {
  engine : DB;                (* the data held by the server *)
  next_conn : conn;           (* handles are minted from a counter *)
  open_conns : list conn;     (* sessions opened and not yet closed *)
  stdin : list string;        (* lines the operator will type *)
  next_tmp : nat;             (* temporary files created so far *)
  trace : list event          (* what happened, oldest first *)
}.
Arguments mkWorld {DB}.
Arguments engine {DB} w.
Arguments next_conn {DB} w.
Arguments open_conns {DB} w.
Arguments stdin {DB} w.
Arguments next_tmp {DB} w.
Arguments trace {DB} w.

Section Monad.
Context {DB : Type}.

Definition M (A : Type) : Type := World DB -> result A * World DB.

Definition ret {A} (a : A) : M A := fun w => (Ok a, w).
Definition raise {A} (e : exn) : M A := fun w => (Raise e, w).

Definition bind {A B} (m : M A) (k : A -> M B) : M B :=
  fun w =>
    match m w with
    | (Ok a, w1) => k a w1
    | (Raise e, w1) => (Raise e, w1)
    end.

(** [try: m  except <classes handled by h> ...  else: k] *)
Definition try_except_else {A B} (m : M A) (h : exn -> option (M B))
    (k : A -> M B) : M B :=
  fun w =>
    match m w with
    | (Ok a, w1) => k a w1
    | (Raise e, w1) =>
        match h e with
        | Some handler => handler w1
        | None => (Raise e, w1)
        end
    end.

Definition add_event (e : event) (w : World DB) : World DB :=
  mkWorld (engine w) (next_conn w) (open_conns w) (stdin w) (next_tmp w)
          (trace w ++ [e]).

Definition set_engine (data : DB) (w : World DB) : World DB :=
  mkWorld data (next_conn w) (open_conns w) (stdin w) (next_tmp w) (trace w).

Definition set_stdin (lines : list string) (w : World DB) : World DB :=
  mkWorld (engine w) (next_conn w) (open_conns w) lines (next_tmp w)
          (trace w).

Definition emit (e : event) : M unit := fun w => (Ok tt, add_event e w).

(** [logger.info(fmt, *args)]: the record is handed to the logger with its
    arguments; formatting is the handler's business. *)
Definition logger_info (fmt : string) (args : list pyval) : M unit :=
  emit (ELog fmt args).

(** [raw_input(prompt)] *)
Definition raw_input (prompt : string) : M string :=
  fun w =>
    let w1 := add_event (EPrompt prompt) w in
    match stdin w1 with
    | [] => (Raise EOFError, w1)
    | line :: rest => (Ok line, set_stdin rest w1)
    end.

Fixpoint remove_first (c : conn) (l : list conn) : list conn :=
  match l with
  | [] => []
  | x :: rest => if Nat.eqb c x then rest else x :: remove_first c rest
  end.

(** [connection.close()] *)
Definition close (c : conn) (w : World DB) : World DB :=
  mkWorld (engine w) (next_conn w) (remove_first c (open_conns w)) (stdin w)
          (next_tmp w) (trace w).

(** [with closing(acquire) as c: body]: once [acquire] has returned a
    connection, it is closed when the block is left, whether [body]
    returns or raises. *)
Definition closing {A} (acquire : M conn) (body : conn -> M A) : M A :=
  fun w =>
    match acquire w with
    | (Ok c, w1) => let (r, w2) := body c w1 in (r, close c w2)
    | (Raise e, w1) => (Raise e, w1)
    end.

(** [with closing(db.cursor()) as cursor: body].  A cursor is the
    connection it was made from; making and closing it leaves no mark. *)
Definition closing_cursor {A} (db : conn) (body : conn -> M A) : M A :=
  body db.

(** [for x in xs: body x] *)
Fixpoint for_each {A} (xs : list A) (body : A -> M unit) : M unit :=
  match xs with
  | [] => ret tt
  | x :: rest => bind (body x) (fun _ => for_each rest body)
  end.

Variable srv : Server DB.

(** [MySQLdb.connect(...)] / [pymysql.connect(...)] *)
Definition connect : M conn :=
  fun w =>
    match srv_login srv (engine w) with
    | Some e => (Raise e, w)
    | None =>
        let c := next_conn w in
        (Ok c, mkWorld (engine w) (S c) (c :: open_conns w) (stdin w)
                       (next_tmp w) (trace w))
    end.

(** [cursor.execute(query, args)]: the driver first formats the statement,
    [query % args], which fails unless there is one argument per
    conversion; then the server runs it.  The result set is what
    [fetchone] will read. *)
Definition cursor_execute (cursor : conn) (query : string)
    (args : list pyval) : M (list row) :=
  fun w =>
    if negb (Nat.eqb (count_placeholders query) (length args))
    then (Raise (TypeError "format string and arguments do not match"), w)
    else
      let w1 := add_event (EExecute cursor query args) w in
      match srv_exec srv (engine w1) query args with
      | inl e => (Raise e, w1)
      | inr (rows, data) => (Ok rows, set_engine data w1)
      end.

(** A computation that leaves the open sessions as it found them,
    whatever it returns or raises. *)
Definition keeps_conns {A} (m : M A) : Prop :=
  forall w, open_conns (snd (m w)) = open_conns w.

(** [cursor.fetchone()] *)
Definition fetchone (rows : list row) : option row := hd_error rows.

End Monad.

(* ------------------------------------------------------------------ *)
(** *** Operations on dynamically typed values *)

(** [k in v] for a string [k] *)
Definition py_contains (k : string) (v : pyval) : result bool :=
  match v with
  | PDict d => Ok (has_key k d)
  | PList xs => Ok (existsb (is_str k) xs)
  | PStr s => Ok (is_substring k s)
  | _ => Raise (TypeError "argument is not iterable")
  end.

(** [container[key]] *)
Definition py_getitem (container key : pyval) : result pyval :=
  match container with
  | PDict d =>
      match key with
      | PStr k =>
          match lookup k d with
          | Some v => Ok v
          | None => Raise (KeyError key)
          end
      | PList _ | PDict _ => Raise (TypeError "unhashable type")
      | _ => Raise (KeyError key)
      end
  | PList _ | PStr _ =>
      match key with
      | PInt _ | PBool _ => Raise IndexError
      | _ => Raise (TypeError "indices must be integers")
      end
  | _ => Raise (TypeError "object is not subscriptable")
  end.

(** [for x in v] *)
Definition py_iter (v : pyval) : result (list pyval) :=
  match v with
  | PList xs => Ok xs
  | PDict d => Ok (map PStr (keys d))
  | PStr s => Ok (map PStr (chars s))
  | _ => Raise (TypeError "object is not iterable")
  end.

(** [v.items()], and with it [v.keys()], [v.values()] and [len(v)] where
    the code applies them to a row *)
Definition py_items (v : pyval) : result (list (string * pyval)) :=
  match v with
  | PDict d => Ok d
  | _ => Raise (AttributeError "object has no such method")
  end.

(** ['...' + v] *)
Definition py_str_operand (v : pyval) : result string :=
  match v with
  | PStr s => Ok s
  | _ => Raise (TypeError "can only concatenate str to str")
  end.

Definition lift {DB A} (r : result A) : @M DB A := fun w => (r, w).

(* ------------------------------------------------------------------ *)
(** *** The application's schema package *)

(** A version module's procedure is a collaborator: it is known by what
    it does to the data it is handed and by whether it raises.  It gets
    the connection and a version ([fromVersion] or [trimVersion]). *)
Definition procedure (DB : Type) : Type :=
  conn -> string -> DB -> option exn * DB.

(** The attributes of a version module the commands look at:
    [hasattr(m, 'upgrade')] is [mod_upgrade m <> None], and so on. *)
Record VersionModule (DB : Type) : Type := mkModule {
  mod_upgrade : option (procedure DB);
  mod_overlay : option (procedure DB);
  mod_trim : option (procedure DB);
  previousVersion : option string
}.
Arguments mkModule {DB}.
Arguments mod_upgrade {DB} _.
Arguments mod_overlay {DB} _.
Arguments mod_trim {DB} _.
Arguments previousVersion {DB} _.

(** The schema package: its [__name__], its [versions] list, and the
    modules [importlib.import_module] finds, by dotted name. *)
Record SchemaPackage (DB : Type) : Type := mkPackage {
  pkg_name : string;
  versions : list string;
  importable : list (string * VersionModule DB)
}.
Arguments mkPackage {DB}.
Arguments pkg_name {DB} _.
Arguments versions {DB} _.
Arguments importable {DB} _.

Section Package.
Context {DB : Type}.

(** [importlib.import_module(name)] *)
Definition import_module (pkg : SchemaPackage DB) (name : string)
  : @M DB (VersionModule DB) :=
  match lookup name (importable pkg) with
  | Some m => ret m
  | None => raise (ImportError name)
  end.

(** [versions[-1]] *)
Definition last_version (pkg : SchemaPackage DB) : @M DB string :=
  match rev (versions pkg) with
  | v :: _ => ret v
  | [] => raise IndexError
  end.

(** Calling a module's procedure with [context['database'] = db]. *)
Definition invoke (name : string) (cap : capability) (p : procedure DB)
    (db : conn) (arg : string) : @M DB unit :=
  fun w =>
    let w1 := add_event (EInvoke name cap db arg) w in
    let (r, data) := p db arg (engine w1) in
    (match r with None => Ok tt | Some e => Raise e end, set_engine data w1).

End Package.

(* ------------------------------------------------------------------ *)
(** *** What a trace says *)

Definition executed (tr : list event) : list (conn * string * list pyval) :=
  flat_map (fun e => match e with
                     | EExecute c q a => [(c, q, a)]
                     | _ => []
                     end) tr.

Definition logged (tr : list event) : list (string * list pyval) :=
  flat_map (fun e => match e with ELog f a => [(f, a)] | _ => [] end) tr.

Definition invoked (tr : list event)
  : list (string * capability * conn * string) :=
  flat_map (fun e => match e with
                     | EInvoke n cap c a => [(n, cap, c, a)]
                     | _ => []
                     end) tr.

Definition tempfiles (tr : list event) : list (string * pyval) :=
  flat_map (fun e => match e with ETempFile n v => [(n, v)] | _ => [] end) tr.

Definition prompts (tr : list event) : list string :=
  flat_map (fun e => match e with EPrompt t => [t] | _ => [] end) tr.

(** A computation that sends no statement and leaves the data as they
    are, whatever it returns or raises. *)
Definition sends_nothing {DB A : Type} (m : @M DB A) : Prop :=
  forall w,
    executed (trace (snd (m w))) = executed (trace w)
    /\ engine (snd (m w)) = engine w.

Declare Scope py_scope.
Delimit Scope py_scope with py.
Notation "x <- m ;; k" := (bind m (fun x => k))
  (at level 61, m at next level, right associativity) : py_scope.
Notation "m ;;; k" := (bind m (fun _ => k))
  (at level 61, right associativity) : py_scope.

End Py.

Import Py.
Local Open Scope py_scope.

(* ================================================================== *)
(** ** The insert statement of the loaders *)
(* ================================================================== *)

(** The statement text that [_installFixture] (MySQLPlugin.py) and
    [importData] (MySQLPlugin/__init__.py) build for a row, by the same
    expression:
    ['INSERT INTO ' + t + ' (' + ','.join(row.keys()) + ') VALUES (' +
     '%s' + ',%s' * (len(row) - 1) + ')'], and the tuple passed with it,
    [tuple(row.values())]. *)
Module Insert.

Definition placeholder_list (n : nat) : string :=
  "%s" ++ str_mul ",%s" (Z.of_nat n - 1).

Definition insert_query (tableName : string) (row : list (string * pyval))
  : string :=
  "INSERT INTO " ++ tableName ++ " (" ++ join "," (keys row)
  ++ ") VALUES (" ++ placeholder_list (length row) ++ ")".

Definition insert_args (row : list (string * pyval)) : list pyval :=
  values row.

End Insert.

(* ================================================================== *)
(** ** MySQLPlugin/__init__.py *)
(* ================================================================== *)

Module Pkg.
Import Insert.

(** Names bound at module level (imports, assignments, [def]s and
    [class]es), and the interpreter's builtins the module calls.
    [raw_input] is the builtin that reads one line from the operator. *)
Definition module_globals : list string :=
  [ "partial"; "os"; "json"; "logging"; "closing"; "importlib"; "tempfile";
    "time"; "subprocess"; "argh"; "CommandError"; "AppPluginBase";
    "CLPluginBase"; "pymysql"; "DictCursor"; "logger"; "config";
    "getMysqlConnection"; "SchemaVersionMismatch"; "AppPlugin";
    "CommandLinePlugin"; "askYesOrNoQuestion" ].

Definition builtins : list string :=
  [ "raw_input"; "open"; "getattr"; "hasattr"; "str"; "len"; "tuple" ].

Definition is_bound (name : string) : bool :=
  existsb (String.eqb name) (module_globals ++ builtins).

Section Commands.
Context {DB : Type}.
Variable srv : Server DB.
Variable pkg : SchemaPackage DB.   (* context['mysqlSchemaPackage'] *)

(** Evaluating a name that no scope binds. *)
Definition unbound {A} (name : string) (_ : is_bound name = false)
  : @M DB A :=
  raise (NameError name).

Definition session_settings : string := "SET wait_timeout=31536000".

(** l.31-46.  [database.autocommit(True)] is the server's statement
    discipline (see [Server]); [SET wait_timeout] goes through a cursor. *)
Definition getMysqlConnection : @M DB conn :=
  database <- connect srv ;;
  closing_cursor database (fun cursor =>
    cursor_execute srv cursor session_settings []) ;;;
  ret database.

Definition select_version (metadataTableName : string) : string :=
  "SELECT * FROM " ++ metadataTableName ++ " WHERE attribute = %s".

(** l.228-253, [CommandLinePlugin.getSchemaVersion]; [None] is Python's
    [None]. *)
Definition getSchemaVersion (metadataTableName : string)
  : @M DB (option string) :=
  closing getMysqlConnection (fun db =>
    closing_cursor db (fun cursor =>
      try_except_else
        (cursor_execute srv cursor (select_version metadataTableName)
                        [PStr "version"])
        (fun e =>
           match e with
           | ProgrammingError code =>
               (* 1146 == table does not exist *)
               Some (if (code =? 1146)%Z then ret None
                     else raise (ProgrammingError code))
           | _ => None
           end)
        (fun rows =>
           match fetchone rows with
           | None | Some [] =>
               (* not row *)
               raise (CommandError "Could not read current database version")
           | Some r =>
               match lookup "value" r with
               | Some currentVersion => ret (Some currentVersion)
               | None => raise (KeyError (PStr "value"))
               end
           end))).

Definition no_schema_install_hint : string :=
  "It seems there is no schema currently installed. "
  ++ "You can install a schema with the " ++ dq ++ "install" ++ dq
  ++ " command.".

(** l.263-308, [CommandLinePlugin.upgrade] *)
Definition upgrade (targetVersion : option string) : @M DB unit :=
  currentVersion <- getSchemaVersion "metadata" ;;
  match currentVersion with
  | None => raise (CommandError no_schema_install_hint)
  | Some currentVersion =>
      if match targetVersion with
         | Some t => String.eqb currentVersion t
         | None => false
         end
      then raise (CommandError ("Schema version " ++ currentVersion
                                ++ " is already installed"))
      else
        logger_info "Current schema version = %s" [PStr currentVersion] ;;;
        (* Default target version is the latest one available *)
        targetVersion <- match targetVersion with
                         | None => last_version pkg
                         | Some t => ret t
                         end ;;
        (* Get module for target version *)
        let name := pkg_name pkg ++ ".v" ++ targetVersion in
        targetVersMod <- import_module pkg name ;;
        (* Make sure it has an upgrade function *)
        match mod_upgrade targetVersMod with
        | None =>
            raise (CommandError
                     ("Version " ++ targetVersion ++ " does not support "
                      ++ "the upgrade operation (hint: overlay and trim "
                      ++ "may be supported)."))
        | Some upgrade_proc =>
            (* Delegate to appropriate upgrade function *)
            closing getMysqlConnection (fun db =>
              invoke name CapUpgrade upgrade_proc db currentVersion)
        end
  end.

(** l.318-365, [CommandLinePlugin.overlay] *)
Definition overlay (targetVersion : option string) : @M DB unit :=
  currentVersion <- getSchemaVersion "metadata" ;;
  match currentVersion with
  | None => raise (CommandError no_schema_install_hint)
  | Some currentVersion =>
      if match targetVersion with
         | Some t => String.eqb currentVersion t
         | None => false
         end
      then raise (CommandError ("Schema version " ++ currentVersion
                                ++ " is already installed"))
      else
        logger_info "Current schema version = %s" [PStr currentVersion] ;;;
        targetVersion <- match targetVersion with
                         | None => last_version pkg
                         | Some t => ret t
                         end ;;
        let name := pkg_name pkg ++ ".v" ++ targetVersion in
        targetVersMod <- import_module pkg name ;;
        (* Make sure it has an overlay function *)
        match mod_overlay targetVersMod with
        | None =>
            raise (CommandError
                     ("Version " ++ targetVersion
                      ++ " does support the overlay operation."))
        | Some overlay_proc =>
            closing getMysqlConnection (fun db =>
              invoke name CapOverlay overlay_proc db currentVersion)
        end
  end.

(** l.428-432, [askYesOrNoQuestion].  The [while] loop reads one line per
    turn, so the number of lines the operator still has to give bounds
    its turns: that number is the fuel, and it cannot run out before the
    input does. *)
Definition is_y_or_n (cfm : string) : bool :=
  (String.eqb cfm "y" || String.eqb cfm "n")%bool.

Fixpoint ask_again (fuel : nat) (cfm : string) : @M DB string :=
  if is_y_or_n cfm then ret cfm
  else
    match fuel with
    | O => raw_input "Please type y or n: "
    | S fuel' =>
        cfm' <- raw_input "Please type y or n: " ;;
        ask_again fuel' cfm'
    end.

Definition askYesOrNoQuestion (question : string) : @M DB string :=
  fun w =>
    (cfm <- raw_input (question ++ " (y/n): ") ;;
     ask_again (length (stdin w)) cfm) w.

Definition trim_question : string :=
  "Trim is a destructive and irreversible operation. "
  ++ "Are you sure you want to proceed?".

(** l.376-424, [CommandLinePlugin.trim].  [getConnection] (l.419) is bound
    neither in the method, nor at module level, nor as a builtin. *)
Definition trim (referenceVersion trimVersion : option string)
  : @M DB unit :=
  referenceVersion <- match referenceVersion with
                      | None => getSchemaVersion "metadata"
                      | Some v => ret (Some v)
                      end ;;
  match referenceVersion with
  | None =>
      raise (CommandError "It seems there is no schema currently installed.")
  | Some referenceVersion =>
      (* Get module for target version *)
      let name := pkg_name pkg ++ ".v" ++ referenceVersion in
      refVersMod <- import_module pkg name ;;
      (* Make sure it has a trim function *)
      match mod_trim refVersMod with
      | None =>
          raise (CommandError ("Version " ++ referenceVersion
                               ++ " does not support the trim operation."))
      | Some trim_proc =>
          (* Set default trim version *)
          trimVersion <- match trimVersion with
                         | Some t => ret t
                         | None =>
                             match previousVersion refVersMod with
                             | Some p => ret p
                             | None => raise (AttributeError "previousVersion")
                             end
                         end ;;
          (* Confirm with user *)
          response <- askYesOrNoQuestion trim_question ;;
          if String.eqb response "y" then
            (* Delegate to appropriate upgrade function *)
            closing (unbound "getConnection" eq_refl) (fun db =>
              invoke name CapTrim trim_proc db trimVersion)
          else
            logger_info "Trim not performed (whew!)" []
      end
  end.

(** l.75-99, [AppPlugin.getCurrDbSchemaVersion], on the shared
    connection [context['database']]; [DatabaseError] is bound nowhere in
    the module. *)
Definition getCurrDbSchemaVersion (database : conn)
  : @M DB (option string) :=
  closing_cursor database (fun cursor =>
    try_except_else
      (cursor_execute srv cursor
                      "SELECT * FROM metadata WHERE attribute = %s"
                      [PStr "version"])
      (fun e =>
         match e with
         | ProgrammingError code =>
             Some (if (code =? 1146)%Z then ret None
                   else raise (ProgrammingError code))
         | _ => None
         end)
      (fun rows =>
         match fetchone rows with
         | None | Some [] =>
             (* not row *)
             unbound "DatabaseError" eq_refl
         | Some r =>
             match lookup "value" r with
             | Some currentVersion => ret (Some currentVersion)
             | None => raise (KeyError (PStr "value"))
             end
         end)).

(** The three migration commands of [getConfig] (l.119-135), as the
    command line hands them their options. *)
Inductive command : Type :=
| Upgrade (targetVersion : option string)
| Overlay (targetVersion : option string)
| Trim (referenceVersion trimVersion : option string).

Definition run (c : command) : @M DB unit :=
  match c with
  | Upgrade t => upgrade t
  | Overlay t => overlay t
  | Trim r t => trim r t
  end.

Definition capability_of (c : command) : capability :=
  match c with
  | Upgrade _ => CapUpgrade
  | Overlay _ => CapOverlay
  | Trim _ _ => CapTrim
  end.

Definition capability_word (cap : capability) : string :=
  match cap with
  | CapUpgrade => "upgrade"
  | CapOverlay => "overlay"
  | CapTrim => "trim"
  end.

(** [hasattr(m, capability)] *)
Definition offers (m : VersionModule DB) (cap : capability) : bool :=
  match cap with
  | CapUpgrade => match mod_upgrade m with Some _ => true | None => false end
  | CapOverlay => match mod_overlay m with Some _ => true | None => false end
  | CapTrim => match mod_trim m with Some _ => true | None => false end
  end.

Definition module_name (version : string) : string :=
  pkg_name pkg ++ ".v" ++ version.

(** [resolves c w version w1]: started in [w], command [c] gets as far as
    looking for the module of [version], and [w1] is the world when the
    version inspection it needed is over.  Upgrade and overlay read the
    installed version, which must differ from the target asked for, and
    settle on that target or, when none was asked for, on the last of
    [versions]; trim settles on the reference asked for or, when none
    was, on the installed version. *)
Definition target_of (t : option string) (version : string) : Prop :=
  match t with
  | Some v => version = v
  | None => exists older, versions pkg = (older ++ [version])%list
  end.

Definition resolves (c : command) (w : World DB) (version : string)
    (w1 : World DB) : Prop :=
  match c with
  | Upgrade t | Overlay t =>
      exists current,
        getSchemaVersion "metadata" w = (Ok (Some current), w1)
        /\ t <> Some current
        /\ target_of t version
  | Trim (Some r) _ => version = r /\ w1 = w
  | Trim None _ => getSchemaVersion "metadata" w = (Ok (Some version), w1)
  end.

(** The version [trim] hands to the procedure: the one asked for, or the
    module's [previousVersion]. *)
Definition trim_version (t : option string) (m : VersionModule DB)
  : option string :=
  match t with
  | Some v => Some v
  | None => previousVersion m
  end.

(** The operator's lines up to the first [y] or [n]: [junk] holds
    neither, and [answer] is one of them. *)
Definition answers (lines junk : list string) (answer : string)
    (rest : list string) : Prop :=
  lines = (junk ++ answer :: rest)%list
  /\ forallb (fun l => negb (is_y_or_n l)) junk = true
  /\ is_y_or_n answer = true.

(** Whether a command starts by reading the installed version, the
    target it was asked for, and the procedure of a module it is about. *)
Definition inspects (c : command) : bool :=
  match c with
  | Trim (Some _) _ => false
  | _ => true
  end.

Definition asked_target (c : command) : option string :=
  match c with
  | Upgrade t | Overlay t => t
  | Trim _ _ => None
  end.

Definition procedure_of (m : VersionModule DB) (cap : capability)
  : option (procedure DB) :=
  match cap with
  | CapUpgrade => mod_upgrade m
  | CapOverlay => mod_overlay m
  | CapTrim => mod_trim m
  end.

(** l.197-225, [CommandLinePlugin.importData], from the loaded JSON
    document on.  The connection is bound to [db]; the loop asks for
    [database], which nothing binds. *)
Definition importData (tables : pyval) (ignoreConflicts : bool)
  : @M DB unit :=
  db <- getMysqlConnection ;;
  tables <- lift (py_iter tables) ;;
  for_each tables (fun table =>
    name <- lift (py_getitem table (PStr "name")) ;;
    logger_info "Installing table %s" [name] ;;;
    rows <- lift (py_getitem table (PStr "rows")) ;;
    rows <- lift (py_iter rows) ;;
    for_each rows (fun row =>
      name <- lift (py_getitem table (PStr "name")) ;;
      name <- lift (py_str_operand name) ;;
      fields <- lift (py_items row) ;;
      let query := insert_query name fields in
      database <- unbound "database" eq_refl ;;
      closing_cursor database (fun cursor =>
        try_except_else
          (cursor_execute srv cursor query (insert_args fields))
          (fun e =>
             match e with
             | IntegrityError _ =>
                 Some (if ignoreConflicts
                       then logger_info "Ignoring conflict in table %s" [PStr name]
                       else raise e)
             | _ => None
             end)
          (fun _ => ret tt)))).

End Commands.
End Pkg.

(* ================================================================== *)
(** ** MySQLPlugin.py *)
(* ================================================================== *)

Module Legacy.
Import Insert.

Definition module_globals : list string :=
  [ "partial"; "os"; "json"; "logging"; "closing"; "importlib"; "tempfile";
    "argh"; "CommandError"; "ConfigBase"; "AppPluginBase"; "CLPluginBase";
    "Coronado"; "MySQLdb"; "DictCursor"; "logger"; "Config";
    "getMysqlConnection"; "AppPlugin"; "CommandLinePlugin";
    "askYesOrNoQuestion"; "_installFixture"; "installAFixture";
    "FixtureMixin" ].

Definition builtins : list string :=
  [ "raw_input"; "open"; "getattr"; "hasattr"; "str"; "len"; "tuple";
    "isinstance"; "super" ].

Definition is_bound (name : string) : bool :=
  existsb (String.eqb name) (module_globals ++ builtins).

Section Commands.
Context {DB : Type}.
Variable srv : Server DB.
Variable pkg : SchemaPackage DB.   (* context['databasePkg'] *)

(** Evaluating a name that no scope binds. *)
Definition unbound {A} (name : string) (_ : is_bound name = false)
  : @M DB A :=
  raise (NameError name).

(** l.70-86 *)
Definition getMysqlConnection : @M DB conn :=
  database <- connect srv ;;
  closing_cursor database (fun cursor =>
    cursor_execute srv cursor "SET wait_timeout=31536000" []) ;;;
  ret database.

(** l.269-294, [CommandLinePlugin.getCurrentVersion] *)
Definition getCurrentVersion : @M DB (option string) :=
  closing getMysqlConnection (fun db =>
    closing_cursor db (fun cursor =>
      try_except_else
        (cursor_execute srv cursor
                        "SELECT * FROM metadata WHERE attribute = %s"
                        [PStr "version"])
        (fun e =>
           match e with
           | ProgrammingError code =>
               Some (if (code =? 1146)%Z then ret None
                     else raise (ProgrammingError code))
           | _ => None
           end)
        (fun rows =>
           match fetchone rows with
           | None | Some [] =>
               (* not row *)
               raise (CommandError "Could not read current database version")
           | Some r =>
               match lookup "value" r with
               | Some currentVersion => ret (Some currentVersion)
               | None => raise (KeyError (PStr "value"))
               end
           end))).

Definition no_schema_install_hint : string :=
  "It seems there is no schema currently installed. "
  ++ "You can install a schema with the " ++ dq ++ "install" ++ dq
  ++ " command.".

(** l.304-345, [CommandLinePlugin.upgrade].  l.316 calls
    [getCurrentVersion()] as a bare name; it is a method of the class,
    which no scope of the function binds. *)
Definition upgrade (targetVersion : option string) : @M DB unit :=
  currentVersion <- unbound "getCurrentVersion" eq_refl ;;
  match currentVersion with
  | None => raise (CommandError no_schema_install_hint)
  | Some currentVersion =>
      if match targetVersion with
         | Some t => String.eqb currentVersion t
         | None => false
         end
      then raise (CommandError ("Schema version " ++ currentVersion
                                ++ " is already installed"))
      else
        logger_info "Current schema version = %s" [PStr currentVersion] ;;;
        targetVersion <- match targetVersion with
                         | None => last_version pkg
                         | Some t => ret t
                         end ;;
        let name := pkg_name pkg ++ ".v" ++ targetVersion in
        targetVersMod <- import_module pkg name ;;
        match mod_upgrade targetVersMod with
        | None =>
            raise (CommandError
                     ("Version " ++ targetVersion ++ " does not support "
                      ++ "the upgrade operation (hint: overlay and trim "
                      ++ "may be supported)."))
        | Some upgrade_proc =>
            closing getMysqlConnection (fun db =>
              invoke name CapUpgrade upgrade_proc db currentVersion)
        end
  end.

(** l.355-399, [CommandLinePlugin.overlay] *)
Definition overlay (targetVersion : option string) : @M DB unit :=
  currentVersion <- unbound "getCurrentVersion" eq_refl ;;
  match currentVersion with
  | None => raise (CommandError no_schema_install_hint)
  | Some currentVersion =>
      if match targetVersion with
         | Some t => String.eqb currentVersion t
         | None => false
         end
      then raise (CommandError ("Schema version " ++ currentVersion
                                ++ " is already installed"))
      else
        logger_info "Current schema version = %s" [PStr currentVersion] ;;;
        targetVersion <- match targetVersion with
                         | None => last_version pkg
                         | Some t => ret t
                         end ;;
        let name := pkg_name pkg ++ ".v" ++ targetVersion in
        targetVersMod <- import_module pkg name ;;
        match mod_overlay targetVersMod with
        | None =>
            raise (CommandError
                     ("Version " ++ targetVersion
                      ++ " does support the overlay operation."))
        | Some overlay_proc =>
            closing getMysqlConnection (fun db =>
              invoke name CapOverlay overlay_proc db currentVersion)
        end
  end.

(** l.460-464, [askYesOrNoQuestion]; fuel as in the package. *)
Definition is_y_or_n (cfm : string) : bool :=
  (String.eqb cfm "y" || String.eqb cfm "n")%bool.

Fixpoint ask_again (fuel : nat) (cfm : string) : @M DB string :=
  if is_y_or_n cfm then ret cfm
  else
    match fuel with
    | O => raw_input "Please type y or n: "
    | S fuel' =>
        cfm' <- raw_input "Please type y or n: " ;;
        ask_again fuel' cfm'
    end.

Definition askYesOrNoQuestion (question : string) : @M DB string :=
  fun w =>
    (cfm <- raw_input (question ++ " (y/n): ") ;;
     ask_again (length (stdin w)) cfm) w.

Definition trim_question : string :=
  "Trim is a destructive and irreversible operation. "
  ++ "Are you sure you want to proceed?".

(** l.410-456, [CommandLinePlugin.trim] *)
Definition trim (referenceVersion trimVersion : option string)
  : @M DB unit :=
  referenceVersion <- match referenceVersion with
                      | None => unbound "getCurrentVersion" eq_refl
                      | Some v => ret (Some v)
                      end ;;
  match referenceVersion with
  | None =>
      raise (CommandError "It seems there is no schema currently installed.")
  | Some referenceVersion =>
      let name := pkg_name pkg ++ ".v" ++ referenceVersion in
      refVersMod <- import_module pkg name ;;
      match mod_trim refVersMod with
      | None =>
          raise (CommandError ("Version " ++ referenceVersion
                               ++ " does not support the trim operation."))
      | Some trim_proc =>
          trimVersion <- match trimVersion with
                         | Some t => ret t
                         | None =>
                             match previousVersion refVersMod with
                             | Some p => ret p
                             | None => raise (AttributeError "previousVersion")
                             end
                         end ;;
          response <- askYesOrNoQuestion trim_question ;;
          if String.eqb response "y" then
            closing (unbound "getConnection" eq_refl) (fun db =>
              invoke name CapTrim trim_proc db trimVersion)
          else
            logger_info "Trim not performed (whew!)" []
      end
  end.

(** l.468-487, [_installFixture]; the bodies of its two loops first:
    l.476-487 for one row, l.474-475 for one table. *)
Definition install_row (database : conn) (ignoreConflicts : bool)
    (tableName row : pyval) : @M DB unit :=
  t <- lift (py_str_operand tableName) ;;
  fields <- lift (py_items row) ;;
  let query := insert_query t fields in
  closing_cursor database (fun cursor =>
    try_except_else
      (cursor_execute srv cursor query (insert_args fields))
      (fun e =>
         match e with
         | IntegrityError _ =>
             Some (if ignoreConflicts
                   then logger_info "Ignoring conflict in table %s"
                                    [tableName]
                   else raise e)
         | _ => None
         end)
      (fun _ => ret tt)).

Definition install_table (database : conn) (fixture : pyval)
    (ignoreConflicts : bool) (tableName : pyval) : @M DB unit :=
  logger_info "Installing table %s" [tableName] ;;;
  rows <- lift (py_getitem fixture tableName) ;;
  rows <- lift (py_iter rows) ;;
  for_each rows (install_row database ignoreConflicts tableName).

Definition _installFixture (database : conn) (fixture : pyval)
    (ignoreConflicts : bool) : @M DB unit :=
  has_order <- lift (py_contains "tableOrder" fixture) ;;
  if negb has_order then ret tt
  else
    (* Install fixture into database *)
    order <- lift (py_getitem fixture (PStr "tableOrder")) ;;
    tableNames <- lift (py_iter order) ;;
    for_each tableNames (install_table database fixture ignoreConflicts).

(** [tempfile.NamedTemporaryFile(prefix=..., suffix=..., delete=False)]:
    a new file whose name carries the prefix, a part no other file has
    (here the number of files made so far), and the suffix. *)
Definition temp_name (prefix suffix : string) (n : nat) : string :=
  prefix ++ NilEmpty.string_of_uint (Nat.to_uint n) ++ suffix.

Definition named_temporary_file (prefix suffix : string) : @M DB string :=
  fun w =>
    (Ok (temp_name prefix suffix (next_tmp w)),
     mkWorld (engine w) (next_conn w) (open_conns w) (stdin w)
             (S (next_tmp w)) (trace w)).

(** [json.dump(content, f); f.flush()] *)
Definition json_dump (content : pyval) (f : string) : @M DB unit :=
  emit (ETempFile f content).

Definition load_request (f appName : string) : string :=
  "Please load the file " ++ dq ++ f ++ dq ++ " into a test instance of "
  ++ dq ++ appName ++ dq ++ ". Press ENTER to continue.".

(** l.490-510, [installAFixture]; the body of its loop (l.498-510)
    first. *)
Definition install_entry (database : conn) (ignoreConflicts : bool)
    (entry : string * pyval) : @M DB unit :=
  let (appName, fix_) := entry in
  if String.eqb appName "self" then
    _installFixture database fix_ ignoreConflicts
  else
    (* Output fixture into a JSON file and wait for confirmation
       from user that it has been loaded into the correct app *)
    f <- named_temporary_file (appName ++ "-") ".json" ;;
    json_dump fix_ f ;;;
    raw_input (load_request f appName) ;;;
    ret tt.

Definition installAFixture (database : conn) (fixture : pyval)
    (ignoreConflicts : bool) : @M DB unit :=
  (* If there is no "self" key in self.fixture, that means the
     entire fixture dict is the self fixture *)
  has_self <- lift (py_contains "self" fixture) ;;
  if negb has_self then _installFixture database fixture ignoreConflicts
  else
    (* Fixtures for multiple apps are given *)
    items <- lift (py_items fixture) ;;
    for_each items (install_entry database ignoreConflicts).

(** l.255-266, [CommandLinePlugin.mergeFixture], from the loaded JSON
    document on.  The session is bound to [db] and handed to the loader;
    the method ends there. *)
Definition mergeFixture (fixture : pyval) (ignoreConflicts : bool)
  : @M DB unit :=
  db <- getMysqlConnection ;;
  installAFixture db fixture ignoreConflicts.

(** l.112-136, [AppPlugin.getCurrDbSchemaVersion], on the shared
    connection [context['database']].  The [except] clause names
    [pymysql.ProgrammingError]: the name is looked up when an exception
    reaches the clause, and this file imports [MySQLdb], not [pymysql];
    [DatabaseError] is bound nowhere either. *)
Definition getCurrDbSchemaVersion (database : conn)
  : @M DB (option string) :=
  closing_cursor database (fun cursor =>
    try_except_else
      (cursor_execute srv cursor
                      "SELECT * FROM metadata WHERE attribute = %s"
                      [PStr "version"])
      (fun _ => Some (unbound "pymysql" eq_refl))
      (fun rows =>
         match fetchone rows with
         | None | Some [] =>
             (* not row *)
             unbound "DatabaseError" eq_refl
         | Some r =>
             match lookup "value" r with
             | Some currentVersion => ret (Some currentVersion)
             | None => raise (KeyError (PStr "value"))
             end
         end)).

(** l.139-149, [AppPlugin.checkDbSchemaVersion];
    [SchemaVersionMismatch] is bound nowhere in this file. *)
Definition checkDbSchemaVersion (database : conn) : @M DB unit :=
  currentVersion <- getCurrDbSchemaVersion database ;;
  (* Get most recent version from context *)
  expectedVersion <- last_version pkg ;;
  if match currentVersion with
     | Some v => negb (String.eqb v expectedVersion)
     | None => true
     end
  then unbound "SchemaVersionMismatch" eq_refl
  else ret tt.

(* ------------------------------------------------------------------ *)
(** *** What a fixture asks for

    The reading of a table-to-rows document against which the loader is
    checked: its tables in [tableOrder] order, each with its rows, and the
    statements this amounts to. *)

Definition fields : Type := list (string * pyval).
Definition statement : Type := string * list pyval.

Definition rows_of (d : list (string * pyval)) (t : string) : list fields :=
  match lookup t d with
  | Some (PList rows) =>
      flat_map (fun r => match r with PDict f => [f] | _ => [] end) rows
  | _ => []
  end.

Definition table_names (d : list (string * pyval)) : list string :=
  match lookup "tableOrder" d with
  | Some (PList names) =>
      flat_map (fun n => match n with PStr t => [t] | _ => [] end) names
  | _ => []
  end.

Definition statement_of (t : string) (r : fields) : statement :=
  (insert_query t r, insert_args r).

(** One statement per row of table [t], in row order; and the whole
    document: table after table in [tableOrder] order. *)
Definition table_statements (d : list (string * pyval)) (t : string)
  : list statement :=
  map (statement_of t) (rows_of d t).

Definition plan (d : list (string * pyval)) : list statement :=
  flat_map (table_statements d) (table_names d).

(** Every table that [tableOrder] names is there and holds a list of
    rows; a document without [tableOrder] asks for nothing. *)
Definition is_rows (v : pyval) : bool :=
  match v with
  | PList rows =>
      forallb (fun r => match r with PDict _ => true | _ => false end) rows
  | _ => false
  end.

Definition table_ok (d : list (string * pyval)) (n : pyval) : bool :=
  match n with
  | PStr t =>
      match lookup t d with
      | Some v => is_rows v
      | None => false
      end
  | _ => false
  end.

Definition well_formed (d : list (string * pyval)) : bool :=
  match lookup "tableOrder" d with
  | None => true
  | Some (PList names) => forallb (table_ok d) names
  | Some _ => false
  end.

(** The driver formats a statement only when it has one argument per
    conversion. *)
Definition sendable (s : statement) : bool :=
  Nat.eqb (count_placeholders (fst s)) (length (snd s)).

(** The server's data once the statements [ss] went through in turn,
    each one accepted -- or, when conflicts are ignored, refused for an
    integrity violation; [None] when a statement stops the run. *)
Fixpoint settle (ignoreConflicts : bool) (ss : list statement) (data : DB)
  : option DB :=
  match ss with
  | [] => Some data
  | s :: rest =>
      if sendable s then
        match srv_exec srv data (fst s) (snd s) with
        | inr (_, data') => settle ignoreConflicts rest data'
        | inl (IntegrityError _) =>
            if ignoreConflicts then settle ignoreConflicts rest data
            else None
        | inl _ => None
        end
      else None
  end.

(** The statements of [ss] that the server refuses for an integrity
    violation on the way. *)
Fixpoint conflicts (ss : list statement) (data : DB) : list statement :=
  match ss with
  | [] => []
  | s :: rest =>
      match srv_exec srv data (fst s) (snd s) with
      | inr (_, data') => conflicts rest data'
      | inl (IntegrityError _) => s :: conflicts rest data
      | inl _ => []
      end
  end.

Definition via (c : conn) (s : statement) : conn * string * list pyval :=
  (c, fst s, snd s).

(** The records of ignored conflicts among the log records. *)
Definition conflict_records (l : list (string * list pyval)) : nat :=
  length (filter (fun r => String.eqb (fst r) "Ignoring conflict in table %s")
                 l).

(** What the loader of one application's tables never touches: the
    sessions, the operator's input, the temporary files, the procedures
    of the version modules. *)
Definition beside_the_data (w w' : World DB) : Prop :=
  next_conn w' = next_conn w
  /\ open_conns w' = open_conns w
  /\ stdin w' = stdin w
  /\ next_tmp w' = next_tmp w
  /\ tempfiles (trace w') = tempfiles (trace w)
  /\ prompts (trace w') = prompts (trace w)
  /\ invoked (trace w') = invoked (trace w).

Definition stays_beside {A : Type} (m : @M DB A) : Prop :=
  forall w, beside_the_data w (snd (m w)).

(** The entries of a multi-application document that belong to other
    applications, and the files they are written to, numbered from [n]. *)
Definition foreign (d : list (string * pyval)) : list (string * pyval) :=
  filter (fun e => negb (String.eqb (fst e) "self")) d.

Fixpoint handoff_files (n : nat) (es : list (string * pyval))
  : list (string * pyval) :=
  match es with
  | [] => []
  | (appName, fix_) :: rest =>
      (temp_name (appName ++ "-") ".json" n, fix_) :: handoff_files (S n) rest
  end.

Fixpoint handoff_prompts (n : nat) (es : list (string * pyval))
  : list string :=
  match es with
  | [] => []
  | (appName, _) :: rest =>
      load_request (temp_name (appName ++ "-") ".json" n) appName
      :: handoff_prompts (S n) rest
  end.

End Commands.
End Legacy.

(* ================================================================== *)
(** ** MySQLPlugin.py: the commands that go through the shell *)
(* ================================================================== *)

Module Cli.

(** [context['mysql']] *)
Record MysqlArgs : Type := mkArgs {
  host : string;
  port : Z;
  user : string;
  password : string;
  dbName : string;
  schemaFilePath : string
}.

(** The machine the shell runs on, the command lines handed to
    [os.system] so far, and the records handed to the logger. *)
Record Host (S : Type) : Type := mkHost {
  machine : S;
  commands : list string;
  records : list (string * list pyval)
}.
Arguments mkHost {S}.
Arguments machine {S} _.
Arguments commands {S} _.
Arguments records {S} _.

Section Cli.
Context {S : Type}.

(** [os.system]: a collaborator; it answers with an exit status and
    leaves the machine in a new state. *)
Variable system : S -> string -> Z * S.
Variable mysql : MysqlArgs.

Definition Sh (A : Type) : Type := Host S -> result A * Host S.

Definition sh_bind {A B} (m : Sh A) (k : A -> Sh B) : Sh B :=
  fun h =>
    match m h with
    | (Ok a, h1) => k a h1
    | (Raise e, h1) => (Raise e, h1)
    end.

Definition sh_raise {A} (e : exn) : Sh A := fun h => (Raise e, h).

Definition os_system (cmd : string) : Sh Z :=
  fun h =>
    let (rc, m) := system (machine h) cmd in
    (Ok rc, mkHost m (commands h ++ [cmd]) (records h)).

Definition info (fmt : string) (args : list pyval) : Sh unit :=
  fun h => (Ok tt, mkHost (machine h) (commands h) (records h ++ [(fmt, args)])).

(** ['mysql --host=%s --user=%s --password="%s" ' % (...)] *)
Definition client : string :=
  "mysql --host=" ++ host mysql ++ " --user=" ++ user mysql
  ++ " --password=" ++ dq ++ password mysql ++ dq ++ " ".

(** What a backslash at the end of a line leaves inside the string
    literal: the indentation of the next line. *)
Definition continuation : string := "                ".

Definition load_command (sqlFilePath : string) : string :=
  client ++ dbName mysql ++ " < " ++ sqlFilePath.

Definition drop_command : string :=
  client ++ continuation ++ "--execute=" ++ dq
  ++ "DROP DATABASE IF EXISTS \`" ++ dbName mysql ++ "\`" ++ dq.

Definition create_command : string :=
  client ++ continuation ++ "--execute=" ++ dq
  ++ "CREATE DATABASE \`" ++ dbName mysql ++ "\`" ++ dq.

(** l.180-195, [CommandLinePlugin.execute] *)
Definition execute (sqlFilePath : string) : Sh unit :=
  sh_bind (info "Executing SQL from file %s..." [PList [PStr sqlFilePath]])
    (fun _ =>
  sh_bind (os_system (load_command sqlFilePath)) (fun rc =>
  if negb (rc =? 0)%Z
  then sh_raise (CommandError "Failed to execute SQL from file")
  else info ("Executed file " ++ sqlFilePath ++ " successfully.") [])).

(** l.202-232, [CommandLinePlugin.installSchema] *)
Definition installSchema : Sh unit :=
  (* Drop database if exists *)
  sh_bind (os_system drop_command) (fun rc =>
  if negb (rc =? 0)%Z
  then sh_raise (CommandError "Failed to drop previous database")
  else
    sh_bind (info "Creating database..." []) (fun _ =>
    (* Create database *)
    sh_bind (os_system create_command) (fun rc =>
    if negb (rc =? 0)%Z
    then sh_raise (CommandError "Failed to create database")
    else execute (schemaFilePath mysql)))).

End Cli.
End Cli.

(* ================================================================== *)
(** ** MySQLPlugin/Util.py *)
(* ================================================================== *)

Module Util.

(** l.1-7.  [keys] is what [','.join] accepts: strings. *)
Definition buildInsertQuery (table : string) (keys : list string) : string :=
  "INSERT INTO " ++ table ++ " (" ++ join "," keys
  ++ ") VALUES(%(" ++ join ")s,%(" keys ++ ")s)".

(** l.10-17; [coordinator] defaults to ['AND']. *)
Definition whereEquals (equalConditions : list string) (coordinator : string)
  : string :=
  let coordinator := coordinator ++ " " in
  join coordinator
       (map (fun key => key ++ " = %(" ++ key ++ ")s ") equalConditions).

(** l.20-21 *)
Definition makePlaceholderList {A : Type} (sourceList : list A) : string :=
  join "," (repeat "%s" (length sourceList)).

(** How [query % mapping] reads a format string: the names between [%(]
    and the next [)], in order.  A [%] followed by anything else than
    [(] opens no name. *)
Inductive reading : Type :=
| Outside
| AfterPercent
| Inside (name : string).

Fixpoint names_from (st : reading) (s : string) : list string :=
  match s with
  | EmptyString => []
  | String a rest =>
      match st with
      | Outside =>
          if Ascii.eqb a "%" then names_from AfterPercent rest
          else names_from Outside rest
      | AfterPercent =>
          if Ascii.eqb a "(" then names_from (Inside "") rest
          else names_from Outside rest
      | Inside name =>
          if Ascii.eqb a ")" then name :: names_from Outside rest
          else names_from (Inside (name ++ String a "")) rest
      end
  end.

Definition named_placeholders (s : string) : list string :=
  names_from Outside s.

(** A name that formatting reads as it is written: no [%] and no [)]. *)
Fixpoint plain (s : string) : bool :=
  match s with
  | EmptyString => true
  | String a rest =>
      (negb (Ascii.eqb a "%") && negb (Ascii.eqb a ")") && plain rest)%bool
  end.

End Util.

(* ================================================================== *)
(** ** A small server to run the commands on *)
(* ================================================================== *)

Module Toy.

Fixpoint pyval_eqb (a b : pyval) {struct a} : bool :=
  match a, b with
  | PNone, PNone => true
  | PBool x, PBool y => Bool.eqb x y
  | PInt x, PInt y => Z.eqb x y
  | PStr x, PStr y => String.eqb x y
  | PList xs, PList ys =>
      (fix all2 (l : list pyval) (r : list pyval) : bool :=
         match l, r with
         | [], [] => true
         | x :: l', y :: r' => (pyval_eqb x y && all2 l' r')%bool
         | _, _ => false
         end) xs ys
  | PDict xs, PDict ys =>
      (fix all2 (l : list (string * pyval)) (r : list (string * pyval))
         : bool :=
         match l, r with
         | [], [] => true
         | (k, x) :: l', (k', y) :: r' =>
             (String.eqb k k' && pyval_eqb x y && all2 l' r')%bool
         | _, _ => false
         end) xs ys
  | _, _ => false
  end.

Fixpoint args_eqb (l r : list pyval) : bool :=
  match l, r with
  | [], [] => true
  | x :: l', y :: r' => (pyval_eqb x y && args_eqb l' r')%bool
  | _, _ => false
  end.

(** The data: the rows of the metadata table when it exists, and the
    rows inserted so far, each kept as the statement that inserted it. *)
Record Data : Type := mkData {
  metadata : option (list row);
  stored : list (string * list pyval)
}.

Definition same_row (s1 s2 : string * list pyval) : bool :=
  (String.eqb (fst s1) (fst s2) && args_eqb (snd s1) (snd s2))%bool.

(** Session settings are accepted; a [SELECT] reads the metadata table or
    reports that it does not exist (1146); an [INSERT] is refused as a
    duplicate (1062) when the same row is already stored: every table has
    a unique key over all its columns. *)
Definition exec (d : Data) (query : string) (args : list pyval)
  : exn + (list row * Data) :=
  if String.eqb query "SET wait_timeout=31536000" then inr ([], d)
  else if is_prefix "SELECT " query then
    match metadata d with
    | None => inl (ProgrammingError 1146)
    | Some rows => inr (rows, d)
    end
  else if is_prefix "INSERT " query then
    if existsb (same_row (query, args)) (stored d)
    then inl (IntegrityError 1062)
    else inr ([], mkData (metadata d) (stored d ++ [(query, args)]))
  else inl (ProgrammingError 1064).

Definition server : Server Data := mkServer (fun _ => None) exec.

Definition version_row (v : string) : row :=
  [("attribute", "version"); ("value", v)].

Definition installed (v : string) : Data := mkData (Some [version_row v]) [].
Definition empty : Data := mkData None [].

(** Version modules: [v1] has no migration procedure, [v2] has all three
    and rewrites the version row, [v3] has an upgrade that fails. *)
Definition set_version (v : string) : procedure Data :=
  fun _ _ d => (None, mkData (Some [version_row v]) (stored d)).

Definition drop_rows : procedure Data :=
  fun _ _ d => (None, mkData (metadata d) []).

Definition broken : procedure Data :=
  fun _ _ d => (Some (OperationalError 2013), d).

Definition package (versions : list string) : SchemaPackage Data :=
  mkPackage "schema" versions
    [ ("schema.v1", mkModule None None None None);
      ("schema.v2", mkModule (Some (set_version "2")) (Some (set_version "2"))
                             (Some drop_rows) (Some "1"));
      ("schema.v3", mkModule (Some broken) None None None) ].

Definition world (d : Data) (lines : list string) : World Data :=
  mkWorld d 0 [] lines 0 [].

(** Documents for the fixture loader. *)
Definition one_row : pyval := PDict [("a", PInt 1); ("b", PInt 2)].

Definition twice_the_same_row : list (string * pyval) :=
  [("t", PList [one_row; one_row]); ("tableOrder", PList [PStr "t"])].

Definition two_tables : list (string * pyval) :=
  [("u", PList [PDict [("x", PInt 7)]]);
   ("t", PList [one_row; PDict [("a", PInt 3); ("b", PInt 4)]]);
   ("tableOrder", PList [PStr "t"; PStr "u"])].

(** The same server with table [u] locked: an insertion into it waits
    for the lock and times out (1205). *)
Definition locked_exec (d : Data) (query : string) (args : list pyval)
  : exn + (list row * Data) :=
  if is_prefix "INSERT INTO u " query then inl (OperationalError 1205)
  else exec d query args.

Definition locked_server : Server Data := mkServer (fun _ => None) locked_exec.

(** A document whose [tableOrder] names a table that it does not hold. *)
Definition missing_table : list (string * pyval) :=
  [("t", PList [one_row]); ("tableOrder", PList [PStr "t"; PStr "v"])].

Definition self_and_other : list (string * pyval) :=
  [("self", PDict [("t", PList [PDict [("a", PInt 1)]]);
                   ("tableOrder", PList [PStr "t"])]);
   ("otherApp", PDict [("u", PList [PDict [("b", PInt 2)]])])].

End Toy.

(* ================================================================== *)
(** ** Properties *)
(* ================================================================== *)

(** *** Strings and statement texts *)

Module StringFacts.

Lemma append_assoc (a b c : string) : (a ++ b) ++ c = a ++ b ++ c.
Proof.
  induction a as [|x a IH]; simpl; [reflexivity | now rewrite IH].
Qed.

Lemma append_empty (a : string) : a ++ "" = a.
Proof.
  induction a as [|x a IH]; simpl; [reflexivity | now rewrite IH].
Qed.

Lemma no_percent_app (a b : string) :
  no_percent (a ++ b) = (no_percent a && no_percent b)%bool.
Proof.
  induction a as [|x a IH]; simpl; [reflexivity|].
  rewrite IH. now rewrite andb_assoc.
Qed.

Lemma no_percent_join (sep : string) (parts : list string) :
  no_percent sep = true -> forallb no_percent parts = true ->
  no_percent (join sep parts) = true.
Proof.
  intros Hsep. induction parts as [|p rest IH]; simpl; [reflexivity|].
  intros H. apply andb_true_iff in H as [Hp Hrest].
  destruct rest as [|q rest']; [assumption|].
  rewrite !no_percent_app, Hp, Hsep. simpl. now apply IH.
Qed.

(** A name without [%] in front of a text adds no conversion to it. *)
Lemma count_skip_clean (a b : string) :
  no_percent a = true ->
  count_placeholders (a ++ b) = count_placeholders b.
Proof.
  induction a as [|x a IH]; simpl; [reflexivity|].
  intros H. apply andb_true_iff in H as [Hx Ha].
  rewrite <- (IH Ha).
  destruct (a ++ b) as [|y rest]; [|].
  - (* the whole rest is empty: so is [b] *)
    reflexivity.
  - apply negb_true_iff in Hx. now rewrite Hx.
Qed.

Lemma count_conversion (b : string) :
  count_placeholders ("%s" ++ b) = S (count_placeholders b).
Proof. reflexivity. Qed.

Lemma count_comma_conversion (b : string) :
  count_placeholders (",%s" ++ b) = S (count_placeholders b).
Proof. reflexivity. Qed.

Lemma count_repeat (k : nat) (b : string) :
  count_placeholders (repeat_str ",%s" k ++ b) = k + count_placeholders b.
Proof.
  induction k as [|k IH]; [reflexivity|].
  cbn [repeat_str]. rewrite append_assoc, count_comma_conversion, IH.
  reflexivity.
Qed.

(** A conversion somewhere in a text is counted, whatever stands before
    it. *)
Lemma count_conversion_inside (a b : string) :
  1 <= count_placeholders (a ++ "%s" ++ b).
Proof.
  induction a as [|x a IH].
  - change ("" ++ "%s" ++ b) with ("%s" ++ b).
    rewrite count_conversion. lia.
  - change (String x a ++ "%s" ++ b) with (String x (a ++ "%s" ++ b)).
    cbn [count_placeholders].
    destruct (a ++ "%s" ++ b) as [|y rest] eqn:E.
    + destruct a; discriminate E.
    + destruct (Ascii.eqb x "%" && Ascii.eqb y "s")%bool; [lia | exact IH].
Qed.

End StringFacts.

(** *** The monad and the traces *)

Module MonadFacts.
Section MonadFacts.
Context {DB : Type}.

Lemma bind_ok {A B} (m : @M DB A) (k : A -> @M DB B) w a w1 :
  m w = (Ok a, w1) -> bind m k w = k a w1.
Proof. intros H. unfold bind. now rewrite H. Qed.

Lemma bind_raise {A B} (m : @M DB A) (k : A -> @M DB B) w e w1 :
  m w = (Raise e, w1) -> bind m k w = (Raise e, w1).
Proof. intros H. unfold bind. now rewrite H. Qed.

Lemma for_each_app {A} (xs ys : list A) (body : A -> @M DB unit) w :
  for_each (xs ++ ys) body w
  = bind (for_each xs body) (fun _ => for_each ys body) w.
Proof.
  revert w. induction xs as [|x xs IH]; intros w; cbn [for_each app].
  - reflexivity.
  - unfold bind in *. destruct (body x w) as [[[]|e] w1].
    + apply IH.
    + reflexivity.
Qed.

Lemma executed_app (a b : list event) :
  executed (a ++ b) = (executed a ++ executed b)%list.
Proof. apply flat_map_app. Qed.

Lemma logged_app (a b : list event) : logged (a ++ b) = (logged a ++ logged b)%list.
Proof. apply flat_map_app. Qed.

Lemma invoked_app (a b : list event) :
  invoked (a ++ b) = (invoked a ++ invoked b)%list.
Proof. apply flat_map_app. Qed.

Lemma tempfiles_app (a b : list event) :
  tempfiles (a ++ b) = (tempfiles a ++ tempfiles b)%list.
Proof. apply flat_map_app. Qed.

Lemma prompts_app (a b : list event) :
  prompts (a ++ b) = (prompts a ++ prompts b)%list.
Proof. apply flat_map_app. Qed.

End MonadFacts.
End MonadFacts.

(** *** The insert statement *)

Module InsertProps.
Import Insert StringFacts.

Lemma placeholder_list_count (n : nat) (b : string) :
  count_placeholders (placeholder_list n ++ b)
  = Nat.max 1 n + count_placeholders b.
Proof.
  unfold placeholder_list, str_mul.
  rewrite append_assoc, count_conversion, count_repeat. lia.
Qed.

Lemma empty_row_query (t : string) :
  insert_query t [] = ("INSERT INTO " ++ t ++ " () VALUES (") ++ "%s" ++ ")".
Proof.
  unfold insert_query. cbn. do 12 f_equal.
  now rewrite append_assoc.
Qed.

Lemma combine_keys_values (r : list (string * pyval)) :
  combine (keys r) (values r) = r.
Proof.
  induction r as [|[k v] r IH]; simpl; [reflexivity | now rewrite IH].
Qed.

(** C10.  The values handed over with a row's statement are the row's
    values in the order of the column list, as many as the columns; the
    placeholder list written after [VALUES] has one [%s] per field of a
    row with fields and still one [%s] for a row without fields; when
    neither the table name nor a column name contains a [%], these are
    all the [%s] of the statement: as many as the values for a row with
    fields, one against no value for a row without; and the driver
    refuses to format the statement of an empty row, whatever the table
    name and the server, so that such a row is never inserted. *)
Theorem insert_statement_placeholders (t : string)
    (r : list (string * pyval)) :
  combine (keys r) (insert_args r) = r
  /\ length (insert_args r) = length (keys r)
  /\ count_placeholders (placeholder_list (length r)) = Nat.max 1 (length r)
  /\ (no_percent t = true -> forallb no_percent (keys r) = true ->
      count_placeholders (insert_query t r) = Nat.max 1 (length r)
      /\ (r <> [] ->
          count_placeholders (insert_query t r) = length (insert_args r)))
  /\ (r = [] ->
      forall (DB : Type) (srv : Server DB) (c : conn) (ic : bool)
             (w : World DB),
        insert_args r = []
        /\ Legacy.install_row srv c ic (PStr t) (PDict r) w
           = (Raise (TypeError "format string and arguments do not match"),
              w)).
Proof.
  split; [apply combine_keys_values|].
  split; [unfold insert_args, keys, values; now rewrite !length_map|].
  split.
  { rewrite <- (append_empty (placeholder_list (length r))).
    rewrite placeholder_list_count. simpl. lia. }
  split.
  - intros Ht Hk.
    assert (Hcount : count_placeholders (insert_query t r)
                     = Nat.max 1 (length r)).
    { unfold insert_query.
      rewrite (count_skip_clean "INSERT INTO ") by reflexivity.
      rewrite (count_skip_clean t) by assumption.
      rewrite (count_skip_clean " (") by reflexivity.
      rewrite (count_skip_clean (join "," (keys r)))
        by (apply no_percent_join; [reflexivity | assumption]).
      rewrite (count_skip_clean ") VALUES (") by reflexivity.
      rewrite placeholder_list_count. simpl. lia. }
    split; [exact Hcount|].
    intros Hne. rewrite Hcount. unfold insert_args, values.
    rewrite length_map. destruct r; [congruence | simpl; lia].
  - intros -> DB srv c ic w. split; [reflexivity|].
    unfold Legacy.install_row, closing_cursor, lift, bind, try_except_else,
      cursor_execute, insert_args.
    cbn [py_str_operand py_items values map length].
    pose proof (count_conversion_inside
                  ("INSERT INTO " ++ t ++ " () VALUES (") ")") as H.
    rewrite <- empty_row_query in H.
    destruct (count_placeholders (insert_query t [])) as [|n]; [lia|].
    reflexivity.
Qed.

(** The statement of the row [{a: 1, b: 2}] of table [t]. *)
Lemma insert_statement_placeholders_witness :
  count_placeholders (insert_query "t" [("a", PInt 1); ("b", PInt 2)]) = 2
  /\ insert_args [("a", PInt 1); ("b", PInt 2)] = [PInt 1; PInt 2].
Proof.
  split; [|reflexivity].
  exact (proj1 (proj1 (proj2 (proj2 (proj2
           (insert_statement_placeholders "t"
              [("a", PInt 1); ("b", PInt 2)]))))
           eq_refl eq_refl)).
Defined.

End InsertProps.

(** *** MySQLPlugin/__init__.py: the version inspector *)

Module InspectorProps.
Import Toy.
Section Inspector.
Context {DB : Type}.
Variable srv : Server DB.

(** The result of [getSchemaVersion] once the session is there, read off
    the outcome of the metadata query. *)
Lemma getSchemaVersion_result (tbl : string) (w : World DB) db w1 :
  Pkg.getMysqlConnection srv w = (Ok db, w1) ->
  fst (Pkg.getSchemaVersion srv tbl w)
  = match fst (cursor_execute srv db (Pkg.select_version tbl)
                              [PStr "version"] w1) with
    | Ok [] | Ok ([] :: _) =>
        Raise (CommandError "Could not read current database version")
    | Ok (r :: _) =>
        match lookup "value" r with
        | Some v => Ok (Some v)
        | None => Raise (KeyError (PStr "value"))
        end
    | Raise (ProgrammingError code) =>
        if (code =? 1146)%Z then Ok None else Raise (ProgrammingError code)
    | Raise e => Raise e
    end.
Proof.
  intros Hconn.
  unfold Pkg.getSchemaVersion, closing, closing_cursor, try_except_else.
  rewrite Hconn.
  destruct (cursor_execute srv db (Pkg.select_version tbl) [PStr "version"] w1)
    as [[rows|e] w2]; cbn [fst].
  - destruct rows as [|[|kv r] rest]; cbn [fetchone hd_error];
      try reflexivity.
    destruct (lookup "value" (kv :: r)); reflexivity.
  - destruct e; try reflexivity.
    destruct (code =? 1146)%Z; reflexivity.
Qed.

Lemma getSchemaVersion_no_session (tbl : string) (w : World DB) e w1 :
  Pkg.getMysqlConnection srv w = (Raise e, w1) ->
  Pkg.getSchemaVersion srv tbl w = (Raise e, w1).
Proof.
  intros Hconn. unfold Pkg.getSchemaVersion, closing. now rewrite Hconn.
Qed.

(** C4.  With the session open, [getSchemaVersion] answers [None]
    exactly when the metadata query fails with the engine's code 1146
    (table does not exist); it answers the [value] field of the first row
    when the query returns one; it fails with the command error "Could
    not read current database version" when the query returns no row; and
    any other failure of the query is the failure of [getSchemaVersion]. *)
Theorem getSchemaVersion_outcomes (tbl : string) (w : World DB) db w1 :
  Pkg.getMysqlConnection srv w = (Ok db, w1) ->
  let query := fst (cursor_execute srv db (Pkg.select_version tbl)
                                   [PStr "version"] w1) in
  let answer := fst (Pkg.getSchemaVersion srv tbl w) in
  (answer = Ok None <-> query = Raise (ProgrammingError 1146))
  /\ (forall r rest v,
        query = Ok (r :: rest) -> lookup "value" r = Some v ->
        answer = Ok (Some v))
  /\ (query = Ok [] ->
      answer = Raise (CommandError "Could not read current database version"))
  /\ (forall e,
        query = Raise e -> e <> ProgrammingError 1146 -> answer = Raise e).
Proof.
  intros Hconn query answer.
  assert (Hr := getSchemaVersion_result tbl w db w1 Hconn).
  fold query answer in Hr.
  repeat split.
  - intros Hnone. rewrite Hr in Hnone.
    destruct query as [[|[|kv r] rest]|e]; try discriminate.
    + destruct (lookup "value" (kv :: r)); discriminate.
    + destruct e; try discriminate.
      destruct (Z.eqb_spec code 1146); [now subst | discriminate].
  - intros Hq. now rewrite Hr, Hq.
  - intros r rest v Hq Hv. rewrite Hr, Hq.
    destruct r as [|kv r]; [discriminate | now rewrite Hv].
  - intros Hq. now rewrite Hr, Hq.
  - intros e Hq Hne. rewrite Hr, Hq.
    destruct e; try reflexivity.
    destruct (Z.eqb_spec code 1146); [now subst | reflexivity].
Qed.

End Inspector.

(** On the toy server: no metadata table gives [None], the version row
    gives its value, an empty metadata table gives the command error. *)
Lemma getSchemaVersion_outcomes_witness :
  fst (Pkg.getSchemaVersion server "metadata" (world empty [])) = Ok None
  /\ fst (Pkg.getSchemaVersion server "metadata" (world (installed "2") []))
     = Ok (Some "2")
  /\ fst (Pkg.getSchemaVersion server "metadata"
            (world (mkData (Some []) []) []))
     = Raise (CommandError "Could not read current database version").
Proof.
  split; [|split].
  - apply (proj1 (getSchemaVersion_outcomes server "metadata"
                    (world empty []) 0 _ eq_refl)).
    reflexivity.
  - apply (proj1 (proj2 (getSchemaVersion_outcomes server "metadata"
                           (world (installed "2") []) 0 _ eq_refl))
             (version_row "2") [] "2"); reflexivity.
  - apply (proj1 (proj2 (proj2 (getSchemaVersion_outcomes server "metadata"
                                  (world (mkData (Some []) []) []) 0 _
                                  eq_refl)))).
    reflexivity.
Defined.

End InspectorProps.


(** *** MySQLPlugin/__init__.py: the migration commands *)

Module MigrationProps.
Import MonadFacts StringFacts Toy.
Section Migration.
Context {DB : Type}.
Variable srv : Server DB.
Variable pkg : SchemaPackage DB.

Lemma remove_first_head (c : conn) (l : list conn) :
  remove_first c (c :: l) = l.
Proof. simpl. now rewrite Nat.eqb_refl. Qed.

Ltac trace_simpl :=
  simpl;
  rewrite ?logged_app, ?invoked_app, ?executed_app, ?prompts_app,
    ?tempfiles_app;
  simpl; rewrite ?app_nil_r.

(** **** Sessions *)

Lemma getMysqlConnection_ok (w : World DB) c w1 :
  Pkg.getMysqlConnection srv w = (Ok c, w1) ->
  c = next_conn w
  /\ next_conn w1 = S (next_conn w)
  /\ open_conns w1 = c :: open_conns w
  /\ stdin w1 = stdin w
  /\ next_tmp w1 = next_tmp w
  /\ trace w1 = (trace w ++ [EExecute c Pkg.session_settings []])%list
  /\ exists rows,
       srv_exec srv (engine w) Pkg.session_settings [] = inr (rows, engine w1).
Proof.
  unfold Pkg.getMysqlConnection, bind, connect, closing_cursor,
    cursor_execute, ret.
  simpl.
  destruct (srv_login srv (engine w)); [discriminate|]. simpl.
  destruct (srv_exec srv (engine w) Pkg.session_settings [])
    as [e|[rows d]] eqn:E.
  - discriminate.
  - intros H. injection H as <- <-. simpl. repeat split. now exists rows.
Qed.

Lemma getMysqlConnection_raise (w : World DB) e w1 :
  Pkg.getMysqlConnection srv w = (Raise e, w1) ->
  engine w1 = engine w
  /\ stdin w1 = stdin w
  /\ next_tmp w1 = next_tmp w
  /\ logged (trace w1) = logged (trace w)
  /\ invoked (trace w1) = invoked (trace w)
  /\ (accepts srv Pkg.session_settings [] -> w1 = w).
Proof.
  unfold Pkg.getMysqlConnection, bind, connect, closing_cursor,
    cursor_execute, ret.
  simpl.
  destruct (srv_login srv (engine w)) as [e0|].
  - intros H. injection H as <- <-. repeat split.
  - simpl.
    destruct (srv_exec srv (engine w) Pkg.session_settings [])
      as [e0|[rows d]] eqn:E.
    + intros H. injection H as <- <-. trace_simpl. repeat split.
      intros Hacc. destruct (Hacc (engine w)) as (rows & d & Hex).
      congruence.
    + discriminate.
Qed.

(** **** The version inspection leaves the operator, the log and the
    modules alone; it leaves the sessions as they were when the server
    accepts the session settings, and the data when its two statements
    only read. *)
Lemma getSchemaVersion_world (tbl : string) (w : World DB) r w' :
  Pkg.getSchemaVersion srv tbl w = (r, w') ->
  stdin w' = stdin w
  /\ next_tmp w' = next_tmp w
  /\ logged (trace w') = logged (trace w)
  /\ invoked (trace w') = invoked (trace w)
  /\ (accepts srv Pkg.session_settings [] -> open_conns w' = open_conns w)
  /\ (reads_only srv Pkg.session_settings [] ->
      reads_only srv (Pkg.select_version tbl) [PStr "version"] ->
      engine w' = engine w).
Proof.
  unfold Pkg.getSchemaVersion, closing.
  destruct (Pkg.getMysqlConnection srv w) as [[c|e] w1] eqn:Hconn.
  - apply getMysqlConnection_ok in Hconn
      as (Hc & Hn & Ho & Hs & Ht & Htr & rows0 & Hset).
    unfold closing_cursor, try_except_else, cursor_execute.
    assert (Hfin : forall (res : result (option string)) (w2 : World DB),
              stdin w2 = stdin w1 -> next_tmp w2 = next_tmp w1 ->
              open_conns w2 = open_conns w1 ->
              logged (trace w2) = logged (trace w1) ->
              invoked (trace w2) = invoked (trace w1) ->
              (reads_only srv (Pkg.select_version tbl) [PStr "version"] ->
               engine w2 = engine w1) ->
              (res, close c w2) = (r, w') ->
              stdin w' = stdin w
              /\ next_tmp w' = next_tmp w
              /\ logged (trace w') = logged (trace w)
              /\ invoked (trace w') = invoked (trace w)
              /\ (accepts srv Pkg.session_settings [] ->
                  open_conns w' = open_conns w)
              /\ (reads_only srv Pkg.session_settings [] ->
                  reads_only srv (Pkg.select_version tbl) [PStr "version"] ->
                  engine w' = engine w)).
    { intros res w2 H1 H2 H3 H4 H5 H6 H. injection H as <- <-. simpl.
      rewrite H1, H2, H3, H4, H5, Hs, Ht, Ho, Htr. trace_simpl.
      rewrite Nat.eqb_refl. repeat split.
      intros Hro Hro'. rewrite (H6 Hro').
      exact (Hro _ _ _ Hset). }
    destruct (negb (Nat.eqb (count_placeholders (Pkg.select_version tbl))
                            (length [PStr "version"]))).
    + simpl. apply Hfin; reflexivity.
    + simpl.
      destruct (srv_exec srv (engine w1) (Pkg.select_version tbl)
                         [PStr "version"]) as [e|[rows d]] eqn:E.
      * destruct e; simpl; try (apply Hfin; trace_simpl; reflexivity).
        destruct (code =? 1146)%Z; simpl; apply Hfin; trace_simpl;
          reflexivity.
      * destruct rows as [|[|kv r0] rest]; cbn [fetchone hd_error];
          [| |destruct (lookup "value" (kv :: r0))]; simpl;
          apply Hfin; trace_simpl; try reflexivity;
          intros Hro'; exact (Hro' _ _ _ E).
  - intros H. injection H as <- <-.
    apply getMysqlConnection_raise in Hconn
      as (He & Hs & Ht & Hl & Hi & Hacc).
    repeat split; try assumption.
    + intros A. now rewrite (Hacc A).
    + intros _ _. assumption.
Qed.

(** The answer of the inspection depends on the data alone. *)
Lemma getSchemaVersion_data_only (tbl : string) (w w2 : World DB) :
  engine w = engine w2 ->
  fst (Pkg.getSchemaVersion srv tbl w) = fst (Pkg.getSchemaVersion srv tbl w2).
Proof.
  intros He.
  unfold Pkg.getSchemaVersion, closing, Pkg.getMysqlConnection, bind, connect,
    closing_cursor, try_except_else, cursor_execute, ret.
  remember (count_placeholders (Pkg.select_version tbl)) as n.
  simpl. rewrite <- He.
  destruct (srv_login srv (engine w)); [reflexivity|]. simpl.
  destruct (srv_exec srv (engine w) Pkg.session_settings [])
    as [e|[rows d]]; [reflexivity|]. simpl.
  destruct (negb (Nat.eqb n 1)); [reflexivity|]. simpl.
  destruct (srv_exec srv d (Pkg.select_version tbl) [PStr "version"])
    as [e|[rows' d']].
  - destruct e; try reflexivity. simpl.
    destruct (code =? 1146)%Z; reflexivity.
  - destruct rows' as [|[|kv r0] rest]; cbn [fetchone hd_error];
      try reflexivity.
    destruct (lookup "value" (kv :: r0)); reflexivity.
Qed.

(** **** The confirmation gate *)

Lemma ask_again_answer (junk : list string) :
  forall (fuel : nat) (cfm answer : string) (rest : list string)
         (w : World DB),
    forallb (fun l => negb (Pkg.is_y_or_n l)) (cfm :: junk) = true ->
    Pkg.is_y_or_n answer = true ->
    stdin w = (junk ++ answer :: rest)%list ->
    length junk < fuel ->
    exists w',
      Pkg.ask_again fuel cfm w = (Ok answer, w')
      /\ stdin w' = rest
      /\ engine w' = engine w
      /\ next_conn w' = next_conn w
      /\ open_conns w' = open_conns w
      /\ next_tmp w' = next_tmp w
      /\ executed (trace w') = executed (trace w)
      /\ logged (trace w') = logged (trace w)
      /\ invoked (trace w') = invoked (trace w).
Proof.
  induction junk as [|j junk IH]; intros fuel cfm answer rest w Hjunk Hans Hin Hfuel.
  - destruct fuel as [|fuel]; [simpl in Hfuel; lia|].
    simpl in Hjunk. rewrite andb_true_r in Hjunk.
    apply negb_true_iff in Hjunk.
    cbn [Pkg.ask_again]. rewrite Hjunk.
    unfold bind, raw_input. simpl. simpl in Hin. rewrite Hin.
    eexists. split.
    + destruct fuel; cbn [Pkg.ask_again]; rewrite Hans; reflexivity.
    + trace_simpl. repeat split.
  - destruct fuel as [|fuel]; [simpl in Hfuel; lia|].
    cbn [forallb] in Hjunk. apply andb_true_iff in Hjunk as [Hc Hrest].
    apply negb_true_iff in Hc.
    cbn [Pkg.ask_again]. rewrite Hc.
    unfold bind at 1. unfold raw_input. simpl. simpl in Hin. rewrite Hin.
    destruct (IH fuel j answer rest
                (set_stdin (junk ++ answer :: rest)%list
                   (add_event (EPrompt "Please type y or n: ") w)))
      as (w' & Hrun & Hs & He & Hn & Ho & Ht & Hx & Hl & Hi);
      [exact Hrest | exact Hans | reflexivity | simpl in Hfuel; lia |].
    exists w'. split; [exact Hrun|].
    revert Hx Hl Hi. trace_simpl. intros Hx Hl Hi.
    repeat split; assumption.
Qed.

Lemma askYesOrNoQuestion_answer (question : string) (w : World DB)
    junk answer rest :
  Pkg.answers (stdin w) junk answer rest ->
  exists w',
    Pkg.askYesOrNoQuestion question w = (Ok answer, w')
    /\ stdin w' = rest
    /\ engine w' = engine w
    /\ next_conn w' = next_conn w
    /\ open_conns w' = open_conns w
    /\ next_tmp w' = next_tmp w
    /\ executed (trace w') = executed (trace w)
    /\ logged (trace w') = logged (trace w)
    /\ invoked (trace w') = invoked (trace w).
Proof.
  intros (Hin & Hjunk & Hans).
  unfold Pkg.askYesOrNoQuestion, bind at 1. unfold raw_input. simpl.
  rewrite Hin.
  destruct junk as [|j junk]; simpl.
  - eexists. split.
    + destruct (length rest); cbn [Pkg.ask_again]; rewrite Hans; reflexivity.
    + trace_simpl. repeat split.
  - destruct (ask_again_answer junk (S (length (junk ++ answer :: rest))) j
                answer rest
                (set_stdin (junk ++ answer :: rest)%list
                   (add_event (EPrompt (question ++ " (y/n): ")) w)))
      as (w' & Hrun & Hs & He & Hn & Ho & Ht & Hx & Hl & Hi);
      [exact Hjunk | exact Hans | reflexivity
      | rewrite length_app; simpl; lia |].
    exists w'. split; [exact Hrun|].
    revert Hx Hl Hi. trace_simpl. intros Hx Hl Hi.
    repeat split; assumption.
Qed.

(** **** Modules that lack the capability *)

Lemma mentions_middle (a word b : string) : mentions (a ++ word ++ b) word.
Proof. now exists a, b. Qed.

Lemma mentions_later (a b word : string) :
  mentions b word -> mentions (a ++ b) word.
Proof.
  intros (x & y & ->). exists (a ++ x), y. now rewrite append_assoc.
Qed.

Lemma not_same_target (t : option string) (cur : string) :
  t <> Some cur ->
  match t with
  | Some t0 => (cur =? t0)%string
  | None => false
  end = false.
Proof.
  intros Hne. destruct t as [t0|]; [|reflexivity].
  apply String.eqb_neq. congruence.
Qed.

Lemma upgrade_unsupported (t : option string) (w w1 : World DB)
    (cur version : string) (m : VersionModule DB) :
  Pkg.getSchemaVersion srv "metadata" w = (Ok (Some cur), w1) ->
  t <> Some cur ->
  Pkg.target_of pkg t version ->
  lookup (Pkg.module_name pkg version) (importable pkg) = Some m ->
  mod_upgrade m = None ->
  Pkg.upgrade srv pkg t w
  = (Raise (CommandError
              ("Version " ++ version ++ " does not support "
               ++ "the upgrade operation (hint: overlay and trim "
               ++ "may be supported).")),
     add_event (ELog "Current schema version = %s" [PStr cur]) w1).
Proof.
  intros Hinsp Hne Hver Hmod Hcap.
  unfold Pkg.upgrade. rewrite (bind_ok _ _ _ _ _ Hinsp).
  rewrite (not_same_target t cur Hne).
  unfold Pkg.module_name in Hmod.
  destruct t as [t0|]; cbn [Pkg.target_of] in Hver.
  - subst t0. unfold bind, logger_info, emit, import_module, ret.
    cbv beta iota zeta. rewrite Hmod. cbv beta iota zeta. rewrite Hcap. reflexivity.
  - destruct Hver as (older & Hver).
    unfold bind, logger_info, emit, last_version, import_module.
    cbv beta iota zeta.
    rewrite Hver, rev_app_distr. cbn [rev app]. unfold ret.
    cbv beta iota zeta. rewrite Hmod. cbv beta iota zeta. rewrite Hcap. reflexivity.
Qed.

Lemma overlay_unsupported (t : option string) (w w1 : World DB)
    (cur version : string) (m : VersionModule DB) :
  Pkg.getSchemaVersion srv "metadata" w = (Ok (Some cur), w1) ->
  t <> Some cur ->
  Pkg.target_of pkg t version ->
  lookup (Pkg.module_name pkg version) (importable pkg) = Some m ->
  mod_overlay m = None ->
  Pkg.overlay srv pkg t w
  = (Raise (CommandError
              ("Version " ++ version
               ++ " does support the overlay operation.")),
     add_event (ELog "Current schema version = %s" [PStr cur]) w1).
Proof.
  intros Hinsp Hne Hver Hmod Hcap.
  unfold Pkg.overlay. rewrite (bind_ok _ _ _ _ _ Hinsp).
  rewrite (not_same_target t cur Hne).
  unfold Pkg.module_name in Hmod.
  destruct t as [t0|]; cbn [Pkg.target_of] in Hver.
  - subst t0. unfold bind, logger_info, emit, import_module, ret.
    cbv beta iota zeta. rewrite Hmod. cbv beta iota zeta. rewrite Hcap. reflexivity.
  - destruct Hver as (older & Hver).
    unfold bind, logger_info, emit, last_version, import_module.
    cbv beta iota zeta.
    rewrite Hver, rev_app_distr. cbn [rev app]. unfold ret.
    cbv beta iota zeta. rewrite Hmod. cbv beta iota zeta. rewrite Hcap. reflexivity.
Qed.

(** The part of [trim] before the module is looked for. *)
Lemma trim_reference (r t : option string) (w w1 : World DB)
    (version : string) (k : option string -> @M DB unit) :
  Pkg.resolves srv pkg (Pkg.Trim r t) w version w1 ->
  bind match r with
       | None => Pkg.getSchemaVersion srv "metadata"
       | Some v => ret (Some v)
       end k w
  = k (Some version) w1.
Proof.
  destruct r as [v|]; cbn [Pkg.resolves].
  - intros [-> ->]. reflexivity.
  - intros Hinsp. now rewrite (bind_ok _ _ _ _ _ Hinsp).
Qed.

Lemma trim_unsupported (r t : option string) (w w1 : World DB)
    (version : string) (m : VersionModule DB) :
  Pkg.resolves srv pkg (Pkg.Trim r t) w version w1 ->
  lookup (Pkg.module_name pkg version) (importable pkg) = Some m ->
  mod_trim m = None ->
  Pkg.trim srv pkg r t w
  = (Raise (CommandError ("Version " ++ version
                          ++ " does not support the trim operation.")),
     w1).
Proof.
  intros Hres Hmod Hcap.
  unfold Pkg.trim. rewrite (trim_reference r t w w1 version _ Hres).
  unfold Pkg.module_name in Hmod.
  unfold bind, import_module. cbv beta iota zeta.
  rewrite Hmod. unfold ret. cbv beta iota zeta. rewrite Hcap. reflexivity.
Qed.

(** C5.  When the module a command resolves does not have the procedure
    the command is about, the command fails with a command error whose
    message names the version and the capability; the handle counter, the
    open sessions, the data, the statements sent and the procedures
    called are those the version inspection left: no session is opened
    for a migration. *)
Theorem unsupported_capability (c : Pkg.command) (w w1 : World DB)
    (version : string) (m : VersionModule DB) :
  Pkg.resolves srv pkg c w version w1 ->
  lookup (Pkg.module_name pkg version) (importable pkg) = Some m ->
  Pkg.offers m (Pkg.capability_of c) = false ->
  exists msg w',
    Pkg.run srv pkg c w = (Raise (CommandError msg), w')
    /\ mentions msg version
    /\ mentions msg (Pkg.capability_word (Pkg.capability_of c))
    /\ next_conn w' = next_conn w1
    /\ open_conns w' = open_conns w1
    /\ engine w' = engine w1
    /\ executed (trace w') = executed (trace w1)
    /\ invoked (trace w') = invoked (trace w1).
Proof.
  intros Hres Hmod Hcap.
  destruct c as [t|t|r t]; cbn [Pkg.capability_of Pkg.offers] in Hcap;
    cbn [Pkg.run Pkg.capability_of Pkg.capability_word].
  - destruct (mod_upgrade m) eqn:Hm; [discriminate|].
    destruct Hres as (cur & Hinsp & Hne & Hver).
    do 2 eexists. split.
    + exact (upgrade_unsupported t w w1 cur version m Hinsp Hne Hver Hmod Hm).
    + split; [apply (mentions_middle "Version ")|].
      split.
      { apply (mentions_later "Version "), mentions_later.
        now exists " does not support the ",
          " operation (hint: overlay and trim may be supported).". }
      trace_simpl. repeat split.
  - destruct (mod_overlay m) eqn:Hm; [discriminate|].
    destruct Hres as (cur & Hinsp & Hne & Hver).
    do 2 eexists. split.
    + exact (overlay_unsupported t w w1 cur version m Hinsp Hne Hver Hmod Hm).
    + split; [apply (mentions_middle "Version ")|].
      split.
      { apply (mentions_later "Version "), mentions_later.
        now exists " does support the ", " operation.". }
      trace_simpl. repeat split.
  - destruct (mod_trim m) eqn:Hm; [discriminate|].
    do 2 eexists. split.
    + exact (trim_unsupported r t w w1 version m Hres Hmod Hm).
    + split; [apply (mentions_middle "Version ")|].
      split.
      { apply (mentions_later "Version "), mentions_later.
        now exists " does not support the ", " operation.". }
      repeat split.
Qed.


(** **** Trim and its confirmation gate *)

Lemma resolves_trim_world (r t : option string) (w w1 : World DB)
    (version : string) :
  Pkg.resolves srv pkg (Pkg.Trim r t) w version w1 ->
  stdin w1 = stdin w
  /\ logged (trace w1) = logged (trace w)
  /\ invoked (trace w1) = invoked (trace w)
  /\ (reads_only srv Pkg.session_settings [] ->
      reads_only srv (Pkg.select_version "metadata") [PStr "version"] ->
      engine w1 = engine w).
Proof.
  destruct r as [v|]; cbn [Pkg.resolves].
  - intros [_ ->]. repeat split.
  - intros Hinsp.
    destruct (getSchemaVersion_world "metadata" w _ _ Hinsp)
      as (Hs & _ & Hl & Hi & _ & He).
    repeat split; assumption.
Qed.

(** [trim] up to the operator's answer. *)
Lemma trim_gate (r t : option string) (w w1 : World DB)
    (version trimVersion : string) (m : VersionModule DB) (p : procedure DB)
    junk answer rest :
  Pkg.resolves srv pkg (Pkg.Trim r t) w version w1 ->
  lookup (Pkg.module_name pkg version) (importable pkg) = Some m ->
  mod_trim m = Some p ->
  Pkg.trim_version t m = Some trimVersion ->
  Pkg.answers (stdin w) junk answer rest ->
  exists w2,
    Pkg.trim srv pkg r t w
    = (if (answer =? "y")%string
       then closing (Pkg.unbound "getConnection" eq_refl)
                    (fun db => invoke (Pkg.module_name pkg version) CapTrim p
                                      db trimVersion)
       else logger_info "Trim not performed (whew!)" []) w2
    /\ stdin w2 = rest
    /\ engine w2 = engine w1
    /\ next_conn w2 = next_conn w1
    /\ open_conns w2 = open_conns w1
    /\ next_tmp w2 = next_tmp w1
    /\ executed (trace w2) = executed (trace w1)
    /\ logged (trace w2) = logged (trace w1)
    /\ invoked (trace w2) = invoked (trace w1).
Proof.
  intros Hres Hmod Hcap Htv Hans.
  destruct (resolves_trim_world r t w w1 version Hres) as (Hs & _).
  rewrite <- Hs in Hans.
  destruct (askYesOrNoQuestion_answer Pkg.trim_question w1 junk answer rest
              Hans) as (w2 & Hask & Hrest).
  exists w2. split; [|exact Hrest].
  unfold Pkg.trim. rewrite (trim_reference r t w w1 version _ Hres).
  unfold Pkg.module_name in *.
  unfold bind at 1. unfold import_module. rewrite Hmod.
  unfold ret at 1. cbv beta iota zeta. rewrite Hcap.
  unfold Pkg.trim_version in Htv.
  destruct t as [v|].
  - injection Htv as ->. unfold bind at 1, ret at 1. cbv beta iota.
    now rewrite (bind_ok _ _ _ _ _ Hask).
  - rewrite Htv. unfold bind at 1, ret at 1. cbv beta iota.
    now rewrite (bind_ok _ _ _ _ _ Hask).
Qed.


(** When the answer is [y], [trim] asks for [getConnection] and stops
    there: no session is opened and no procedure is called. *)
Lemma trim_confirmed (r t : option string) (w w1 : World DB)
    (version trimVersion : string) (m : VersionModule DB) (p : procedure DB)
    junk rest :
  Pkg.resolves srv pkg (Pkg.Trim r t) w version w1 ->
  lookup (Pkg.module_name pkg version) (importable pkg) = Some m ->
  mod_trim m = Some p ->
  Pkg.trim_version t m = Some trimVersion ->
  Pkg.answers (stdin w) junk "y" rest ->
  exists w',
    Pkg.trim srv pkg r t w = (Raise (NameError "getConnection"), w')
    /\ next_conn w' = next_conn w1
    /\ invoked (trace w') = invoked (trace w1).
Proof.
  intros Hres Hmod Hcap Htv Hans.
  destruct (trim_gate r t w w1 version trimVersion m p junk "y" rest
              Hres Hmod Hcap Htv Hans)
    as (w2 & Hrun & _ & _ & Hn & _ & _ & _ & _ & Hi).
  exists w2. split; [exact Hrun|]. now split.
Qed.


(** **** Sessions are closed *)

Lemma keeps_ret {A} (a : A) : keeps_conns (@ret DB A a).
Proof. intros w. reflexivity. Qed.

Lemma keeps_raise {A} (e : exn) : keeps_conns (@raise DB A e).
Proof. intros w. reflexivity. Qed.

Lemma keeps_lift {A} (r : result A) : keeps_conns (@lift DB A r).
Proof. intros w. reflexivity. Qed.

Lemma keeps_logger_info (fmt : string) (args : list pyval) :
  keeps_conns (@logger_info DB fmt args).
Proof. intros w. reflexivity. Qed.

Lemma keeps_raw_input (prompt : string) : keeps_conns (@raw_input DB prompt).
Proof.
  intros w. unfold raw_input. simpl. destruct (stdin w); reflexivity.
Qed.

Lemma keeps_bind {A B} (m : @M DB A) (k : A -> @M DB B) :
  keeps_conns m -> (forall a, keeps_conns (k a)) -> keeps_conns (bind m k).
Proof.
  intros Hm Hk w. unfold bind. specialize (Hm w).
  destruct (m w) as [[a|e] w1]; cbn [snd] in *.
  - now rewrite (Hk a w1).
  - exact Hm.
Qed.

Lemma keeps_invoke (name : string) (cap : capability) (p : procedure DB)
    (db : conn) (arg : string) :
  keeps_conns (invoke name cap p db arg).
Proof.
  intros w. unfold invoke. simpl.
  destruct (p db arg (engine w)) as [r d]. reflexivity.
Qed.

Lemma keeps_import_module (name : string) : keeps_conns (import_module pkg name).
Proof.
  intros w. unfold import_module.
  destruct (lookup name (importable pkg)); reflexivity.
Qed.

Lemma keeps_last_version : keeps_conns (last_version pkg).
Proof.
  intros w. unfold last_version. destruct (rev (versions pkg)); reflexivity.
Qed.

Lemma keeps_ask_again (fuel : nat) :
  forall cfm, keeps_conns (@Pkg.ask_again DB fuel cfm).
Proof.
  induction fuel as [|fuel IH]; intros cfm; cbn [Pkg.ask_again];
    destruct (Pkg.is_y_or_n cfm);
    auto using keeps_ret, keeps_raw_input, keeps_bind.
Qed.

Lemma keeps_askYesOrNoQuestion (question : string) :
  keeps_conns (@Pkg.askYesOrNoQuestion DB question).
Proof.
  intros w. unfold Pkg.askYesOrNoQuestion.
  apply (keeps_bind _ _ (keeps_raw_input _) (keeps_ask_again _)).
Qed.

(** The scoped session: what [with closing(getMysqlConnection(...))]
    opens, it closes, however its block ends. *)
Lemma keeps_closing_session {A} (body : conn -> @M DB A) :
  accepts srv Pkg.session_settings [] ->
  (forall db, keeps_conns (body db)) ->
  keeps_conns (closing (Pkg.getMysqlConnection srv) body).
Proof.
  intros Hacc Hbody w. unfold closing.
  destruct (Pkg.getMysqlConnection srv w) as [[c|e] w1] eqn:Hconn.
  - apply getMysqlConnection_ok in Hconn as (_ & _ & Ho & _).
    specialize (Hbody c w1).
    destruct (body c w1) as [r w2]. cbn [snd] in *.
    unfold close. cbn [open_conns]. rewrite Hbody, Ho.
    apply remove_first_head.
  - apply getMysqlConnection_raise in Hconn as (_ & _ & _ & _ & _ & Hw).
    cbn [snd]. now rewrite (Hw Hacc).
Qed.

Lemma keeps_closing_unbound {A} (name : string)
    (H : Pkg.is_bound name = false) (body : conn -> @M DB A) :
  keeps_conns (closing (Pkg.unbound name H) body).
Proof. intros w. reflexivity. Qed.

Lemma keeps_getSchemaVersion (tbl : string) :
  accepts srv Pkg.session_settings [] ->
  keeps_conns (Pkg.getSchemaVersion srv tbl).
Proof.
  intros Hacc w.
  destruct (Pkg.getSchemaVersion srv tbl w) as [r w'] eqn:H.
  now destruct (getSchemaVersion_world tbl w r w' H) as (_ & _ & _ & _ & Ho & _);
    apply Ho.
Qed.

Create HintDb conns.
#[local] Hint Resolve keeps_ret keeps_raise keeps_lift keeps_logger_info
  keeps_raw_input keeps_invoke keeps_import_module keeps_last_version
  keeps_askYesOrNoQuestion keeps_closing_unbound keeps_getSchemaVersion
  : conns.

Ltac keeps :=
  repeat first
    [ progress auto with conns
    | apply keeps_closing_session; [assumption | intros ?]
    | apply keeps_bind; [|intros ?]
    | match goal with
      | |- keeps_conns (match ?x with _ => _ end) => destruct x
      | |- keeps_conns (if ?x then _ else _) => destruct x
      end ].

Lemma keeps_upgrade (t : option string) :
  accepts srv Pkg.session_settings [] -> keeps_conns (Pkg.upgrade srv pkg t).
Proof. intros Hacc. unfold Pkg.upgrade. keeps. Qed.

Lemma keeps_overlay (t : option string) :
  accepts srv Pkg.session_settings [] -> keeps_conns (Pkg.overlay srv pkg t).
Proof. intros Hacc. unfold Pkg.overlay. keeps. Qed.

Lemma keeps_trim (r t : option string) :
  accepts srv Pkg.session_settings [] -> keeps_conns (Pkg.trim srv pkg r t).
Proof. intros Hacc. unfold Pkg.trim. keeps. Qed.



(** **** Dispatch *)

(** Upgrade, once the target's module has the procedure and the session
    is there: the procedure is called with that session and the installed
    version as [fromVersion]; its outcome is the command's, and the
    session is closed. *)
Lemma upgrade_dispatch (t : option string) (w w1 : World DB)
    (cur version : string) (m : VersionModule DB) (p : procedure DB)
    (db : conn) (w3 : World DB) :
  Pkg.getSchemaVersion srv "metadata" w = (Ok (Some cur), w1) ->
  t <> Some cur ->
  Pkg.target_of pkg t version ->
  lookup (Pkg.module_name pkg version) (importable pkg) = Some m ->
  mod_upgrade m = Some p ->
  Pkg.getMysqlConnection srv
    (add_event (ELog "Current schema version = %s" [PStr cur]) w1)
  = (Ok db, w3) ->
  Pkg.upgrade srv pkg t w
  = (match fst (p db cur (engine w3)) with
     | None => Ok tt
     | Some e => Raise e
     end,
     close db
       (set_engine (snd (p db cur (engine w3)))
          (add_event (EInvoke (Pkg.module_name pkg version) CapUpgrade db cur)
                     w3))).
Proof.
  intros Hinsp Hne Hver Hmod Hcap Hconn.
  unfold Pkg.upgrade. rewrite (bind_ok _ _ _ _ _ Hinsp).
  rewrite (not_same_target t cur Hne).
  unfold Pkg.module_name in *.
  assert (Hend : closing (Pkg.getMysqlConnection srv)
                   (fun db0 => invoke (pkg_name pkg ++ ".v" ++ version)
                                      CapUpgrade p db0 cur)
                   (add_event (ELog "Current schema version = %s" [PStr cur])
                              w1)
                 = (match fst (p db cur (engine w3)) with
                    | None => Ok tt
                    | Some e => Raise e
                    end,
                    close db
                      (set_engine (snd (p db cur (engine w3)))
                         (add_event (EInvoke (pkg_name pkg ++ ".v" ++ version)
                                             CapUpgrade db cur) w3)))).
  { unfold closing. rewrite Hconn. unfold invoke. simpl.
    destruct (p db cur (engine w3)) as [r d]. reflexivity. }
  destruct t as [t0|]; cbn [Pkg.target_of] in Hver.
  - subst t0. unfold bind, logger_info, emit, import_module, ret.
    cbv beta iota zeta. rewrite Hmod. cbv beta iota zeta. rewrite Hcap.
    exact Hend.
  - destruct Hver as (older & Hver).
    unfold bind, logger_info, emit, last_version, import_module.
    cbv beta iota zeta.
    rewrite Hver, rev_app_distr. cbn [rev app]. unfold ret.
    cbv beta iota zeta. rewrite Hmod. cbv beta iota zeta. rewrite Hcap.
    exact Hend.
Qed.

End Migration.

(** **** On the toy server *)

Lemma toy_accepts_settings : accepts server Pkg.session_settings [].
Proof. intros data. now exists [], data. Qed.

Lemma toy_settings_read_only : reads_only server Pkg.session_settings [].
Proof. intros data rows data' H. cbn in H. now injection H as _ <-. Qed.

Lemma toy_select_read_only :
  reads_only server (Pkg.select_version "metadata") [PStr "version"].
Proof.
  intros data rows data' H. cbn in H.
  destruct (metadata data); [now injection H as _ <- | discriminate].
Qed.

(** Upgrade to version 1, whose module has no [upgrade], from version 2. *)
Lemma unsupported_capability_witness :
  exists msg w',
    Pkg.run server (package ["1"; "2"]) (Pkg.Upgrade (Some "1"))
            (world (installed "2") [])
    = (Raise (CommandError msg), w')
    /\ mentions msg "1"
    /\ mentions msg "upgrade"
    /\ next_conn w' = 1.
Proof.
  destruct (unsupported_capability server (package ["1"; "2"])
              (Pkg.Upgrade (Some "1")) (world (installed "2") [])
              (snd (Pkg.getSchemaVersion server "metadata"
                      (world (installed "2") [])))
              "1" (mkModule None None None None))
    as (msg & w' & Hrun & Hv & Hc & Hn & _).
  - exists "2". split; [reflexivity|]. split; [discriminate | reflexivity].
  - reflexivity.
  - reflexivity.
  - exists msg, w'. repeat split; assumption.
Defined.



(** C2 on the code.  Version 2 is installed and is the last of
    [versions]; [upgrade] and [overlay] without a target do not fail:
    the comparison with the installed version comes before the default
    is taken, and the procedures of version 2 are called with
    [fromVersion] 2. *)
Theorem upgrade_without_target_at_latest_dispatches :
  let w := world (installed "2") [] in
  let pkg := package ["1"; "2"] in
  fst (Pkg.getSchemaVersion server "metadata" w) = Ok (Some "2")
  /\ fst (last_version pkg w) = Ok "2"
  /\ fst (Pkg.upgrade server pkg None w) = Ok tt
  /\ invoked (trace (snd (Pkg.upgrade server pkg None w)))
     = [("schema.v2", CapUpgrade, 1, "2")]
  /\ fst (Pkg.overlay server pkg None w) = Ok tt
  /\ invoked (trace (snd (Pkg.overlay server pkg None w)))
     = [("schema.v2", CapOverlay, 1, "2")]
  /\ fst (Pkg.upgrade server pkg (Some "2") w)
     = Raise (CommandError "Schema version 2 is already installed").
Proof. repeat split. Qed.

(** C1 on the code.  Version 2 is installed, its module has [trim] and
    [previousVersion], and the operator answers [y]: [trim] raises the
    name error for [getConnection], which neither file binds; no session
    is opened and the procedure is not called. *)
Theorem trim_confirmed_raises_name_error :
  let w := world (installed "2") ["y"] in
  let pkg := package ["1"; "2"] in
  Pkg.is_bound "getConnection" = false
  /\ Legacy.is_bound "getConnection" = false
  /\ fst (Pkg.trim server pkg (Some "2") None w)
     = Raise (NameError "getConnection")
  /\ next_conn (snd (Pkg.trim server pkg (Some "2") None w)) = 0
  /\ invoked (trace (snd (Pkg.trim server pkg (Some "2") None w))) = []
  /\ fst (Legacy.trim pkg (Some "2") None w)
     = Raise (NameError "getConnection")
  /\ invoked (trace (snd (Legacy.trim pkg (Some "2") None w))) = [].
Proof. repeat split. Qed.

End MigrationProps.

(** *** MySQLPlugin.py: the fixture loader *)

Module FixtureProps.
Import MonadFacts StringFacts Toy Insert.
Section Fixture.
Context {DB : Type}.
Variable srv : Server DB.

Ltac trace_simpl :=
  simpl;
  rewrite ?logged_app, ?invoked_app, ?executed_app, ?prompts_app,
    ?tempfiles_app;
  simpl; rewrite ?app_nil_r.

Lemma beside_refl (w : World DB) : Legacy.beside_the_data w w.
Proof. repeat split. Qed.

Lemma beside_trans (w1 w2 w3 : World DB) :
  Legacy.beside_the_data w1 w2 -> Legacy.beside_the_data w2 w3 ->
  Legacy.beside_the_data w1 w3.
Proof.
  intros (A1 & A2 & A3 & A4 & A5 & A6 & A7) (B1 & B2 & B3 & B4 & B5 & B6 & B7).
  repeat split; congruence.
Qed.

Lemma conflict_records_app (a b : list (string * list pyval)) :
  Legacy.conflict_records (a ++ b)
  = Legacy.conflict_records a + Legacy.conflict_records b.
Proof.
  unfold Legacy.conflict_records. now rewrite filter_app, length_app.
Qed.

(** **** One row *)

Lemma install_row_sent (c : conn) (ic : bool) (t : string)
    (r : Legacy.fields) (w : World DB) :
  Legacy.sendable (Legacy.statement_of t r) = true ->
  Legacy.install_row srv c ic (PStr t) (PDict r) w
  = let sent := add_event (EExecute c (insert_query t r) (insert_args r)) w in
    match srv_exec srv (engine w) (insert_query t r) (insert_args r) with
    | inr (_, data) => (Ok tt, set_engine data sent)
    | inl (IntegrityError code) =>
        if ic
        then (Ok tt,
              add_event (ELog "Ignoring conflict in table %s" [PStr t]) sent)
        else (Raise (IntegrityError code), sent)
    | inl e => (Raise e, sent)
    end.
Proof.
  unfold Legacy.sendable, Legacy.statement_of. cbn [fst snd]. intros Hs.
  unfold Legacy.install_row, lift, bind, closing_cursor, try_except_else,
    cursor_execute.
  cbn [py_str_operand py_items]. rewrite Hs. cbn [negb].
  change (engine (add_event (EExecute c (insert_query t r) (insert_args r)) w))
    with (engine w).
  destruct (srv_exec srv (engine w) (insert_query t r) (insert_args r))
    as [e|[rows data]]; [|reflexivity].
  destruct e; try reflexivity. destruct ic; reflexivity.
Qed.

(** **** The rows of one table *)

Lemma rows_settle (c : conn) (ic : bool) (t : string)
    (rs : list Legacy.fields) :
  forall (w : World DB) (data' : DB),
    Legacy.settle srv ic (map (Legacy.statement_of t) rs) (engine w)
    = Some data' ->
    exists w',
      for_each (map PDict rs) (Legacy.install_row srv c ic (PStr t)) w
      = (Ok tt, w')
      /\ engine w' = data'
      /\ executed (trace w')
         = (executed (trace w)
            ++ map (Legacy.via c) (map (Legacy.statement_of t) rs))%list
      /\ Legacy.conflict_records (logged (trace w'))
         = Legacy.conflict_records (logged (trace w))
           + length (Legacy.conflicts srv (map (Legacy.statement_of t) rs)
                                      (engine w))
      /\ Legacy.beside_the_data w w'.
Proof.
  induction rs as [|r rs IH]; intros w data' Hsettle.
  - injection Hsettle as <-. exists w. cbn.
    rewrite app_nil_r, Nat.add_0_r. repeat split.
  - cbn [map Legacy.settle Legacy.conflicts] in *.
    destruct (Legacy.sendable (Legacy.statement_of t r)) eqn:Hs;
      [|discriminate].
    cbn [for_each]. unfold bind at 1.
    rewrite (install_row_sent c ic t r w Hs). cbv zeta.
    cbn [Legacy.statement_of fst snd] in *.
    destruct (srv_exec srv (engine w) (insert_query t r) (insert_args r))
      as [e|[rows data]].
    + destruct e; try discriminate. destruct ic; [|discriminate].
      destruct (IH (add_event (ELog "Ignoring conflict in table %s" [PStr t])
                      (add_event (EExecute c (insert_query t r)
                                           (insert_args r)) w))
                   data' Hsettle)
        as (w' & Hrun & He & Hx & Hl & Hb).
      exists w'. split; [exact Hrun|]. split; [exact He|].
      revert Hx Hl Hb. unfold Legacy.beside_the_data. trace_simpl.
      rewrite conflict_records_app. cbn.
      intros Hx Hl Hb. rewrite Hx, Hl, <- app_assoc. cbn.
      repeat split; try apply Hb. lia.
    + destruct (IH (set_engine data
                      (add_event (EExecute c (insert_query t r)
                                           (insert_args r)) w))
                   data' Hsettle)
        as (w' & Hrun & He & Hx & Hl & Hb).
      exists w'. split; [exact Hrun|]. split; [exact He|].
      revert Hx Hl Hb. unfold Legacy.beside_the_data. trace_simpl.
      intros Hx Hl Hb. rewrite Hx, Hl, <- app_assoc. cbn.
      repeat split; apply Hb.
Qed.


Lemma settle_app (ic : bool) (a b : list Legacy.statement) :
  forall data,
    Legacy.settle srv ic (a ++ b) data
    = match Legacy.settle srv ic a data with
      | Some data1 => Legacy.settle srv ic b data1
      | None => None
      end.
Proof.
  induction a as [|s a IH]; intros data; cbn [app Legacy.settle];
    [reflexivity|].
  destruct (Legacy.sendable s); [|reflexivity].
  destruct (srv_exec srv data (fst s) (snd s)) as [e|[rows d]];
    [|apply IH].
  destruct e; try reflexivity. destruct ic; [apply IH | reflexivity].
Qed.

Lemma conflicts_app (ic : bool) (a b : list Legacy.statement) :
  forall data data1,
    Legacy.settle srv ic a data = Some data1 ->
    Legacy.conflicts srv (a ++ b) data
    = (Legacy.conflicts srv a data ++ Legacy.conflicts srv b data1)%list.
Proof.
  induction a as [|s a IH]; intros data data1;
    cbn [app Legacy.settle Legacy.conflicts].
  - now intros [= ->].
  - destruct (Legacy.sendable s); [|discriminate].
    destruct (srv_exec srv data (fst s) (snd s)) as [e|[rows d]];
      [|apply IH].
    destruct e; try discriminate. destruct ic; [|discriminate].
    intros H. cbn [app]. f_equal. now apply IH.
Qed.

(** **** One table *)

Lemma rows_of_spec (d : list (string * pyval)) (t : string) (v : pyval) :
  lookup t d = Some v -> Legacy.is_rows v = true ->
  v = PList (map PDict (Legacy.rows_of d t)).
Proof.
  intros Hl Hv. unfold Legacy.rows_of. rewrite Hl.
  destruct v as [| | | |rows|]; try discriminate.
  f_equal. cbn [Legacy.is_rows] in Hv. clear Hl.
  induction rows as [|r rows IH]; [reflexivity|].
  cbn [forallb] in Hv. apply andb_true_iff in Hv as [Hr Hrows].
  destruct r; try discriminate. cbn. f_equal. now apply IH.
Qed.

Lemma table_settle (c : conn) (ic : bool) (d : list (string * pyval))
    (t : string) (v : pyval) (w : World DB) (data' : DB) :
  lookup t d = Some v -> Legacy.is_rows v = true ->
  Legacy.settle srv ic (Legacy.table_statements d t) (engine w) = Some data' ->
  exists w',
    Legacy.install_table srv c (PDict d) ic (PStr t) w = (Ok tt, w')
    /\ engine w' = data'
    /\ executed (trace w')
       = (executed (trace w)
          ++ map (Legacy.via c) (Legacy.table_statements d t))%list
    /\ Legacy.conflict_records (logged (trace w'))
       = Legacy.conflict_records (logged (trace w))
         + length (Legacy.conflicts srv (Legacy.table_statements d t)
                                    (engine w))
    /\ Legacy.beside_the_data w w'.
Proof.
  intros Hl Hv Hsettle.
  destruct (rows_settle c ic t (Legacy.rows_of d t)
              (add_event (ELog "Installing table %s" [PStr t]) w) data'
              Hsettle)
    as (w' & Hrun & He & Hx & Hc & Hb).
  exists w'. split.
  - unfold Legacy.install_table, bind, logger_info, emit, lift.
    cbn [py_getitem]. rewrite Hl.
    rewrite (rows_of_spec d t v Hl Hv). cbn [py_iter]. exact Hrun.
  - split; [exact He|].
    revert Hx Hc Hb. unfold Legacy.beside_the_data. trace_simpl.
    rewrite conflict_records_app. cbn. rewrite Nat.add_0_r.
    intros Hx Hc Hb. repeat split; try assumption; apply Hb.
Qed.

(** **** The tables of a document *)

Lemma names_are_strings (d : list (string * pyval)) (names : list pyval) :
  forallb (Legacy.table_ok d) names = true ->
  names
  = map PStr (flat_map (fun n => match n with PStr t => [t] | _ => [] end)
                       names).
Proof.
  induction names as [|n names IH]; [reflexivity|].
  cbn [forallb]. intros H. apply andb_true_iff in H as [Hn Hrest].
  destruct n; try discriminate. cbn. f_equal. now apply IH.
Qed.

Lemma tables_settle (c : conn) (ic : bool) (d : list (string * pyval))
    (ts : list string) :
  forallb (Legacy.table_ok d) (map PStr ts) = true ->
  forall (w : World DB) (data' : DB),
    Legacy.settle srv ic (flat_map (Legacy.table_statements d) ts) (engine w)
    = Some data' ->
    exists w',
      for_each (map PStr ts) (Legacy.install_table srv c (PDict d) ic) w
      = (Ok tt, w')
      /\ engine w' = data'
      /\ executed (trace w')
         = (executed (trace w)
            ++ map (Legacy.via c)
                   (flat_map (Legacy.table_statements d) ts))%list
      /\ Legacy.conflict_records (logged (trace w'))
         = Legacy.conflict_records (logged (trace w))
           + length (Legacy.conflicts srv
                       (flat_map (Legacy.table_statements d) ts) (engine w))
      /\ Legacy.beside_the_data w w'.
Proof.
  induction ts as [|t ts IH]; intros Hok w data' Hsettle.
  - injection Hsettle as <-. exists w. cbn.
    rewrite app_nil_r, Nat.add_0_r. repeat split.
  - cbn [map forallb] in Hok. apply andb_true_iff in Hok as [Ht Hts].
    cbn [Legacy.table_ok] in Ht.
    destruct (lookup t d) as [v|] eqn:Hl; [|discriminate].
    cbn [flat_map] in *. rewrite settle_app in Hsettle.
    destruct (Legacy.settle srv ic (Legacy.table_statements d t) (engine w))
      as [data1|] eqn:H1; [|discriminate].
    destruct (table_settle c ic d t v w data1 Hl Ht H1)
      as (w1 & Hrun1 & He1 & Hx1 & Hc1 & Hb1).
    rewrite <- He1 in Hsettle.
    destruct (IH Hts w1 data' Hsettle) as (w' & Hrun & He & Hx & Hc & Hb).
    exists w'. split.
    + cbn [map for_each]. now rewrite (bind_ok _ _ _ _ _ Hrun1).
    + split; [exact He|].
      split; [rewrite Hx, Hx1, map_app, app_assoc; reflexivity|].
      split; [|exact (beside_trans _ _ _ Hb1 Hb)].
      rewrite Hc, Hc1, (conflicts_app ic _ _ _ _ H1), length_app, He1. lia.
Qed.

(** **** A whole document of one application *)

Lemma well_formed_names (d : list (string * pyval)) (names : list pyval) :
  lookup "tableOrder" d = Some (PList names) ->
  Legacy.well_formed d = true ->
  names = map PStr (Legacy.table_names d)
  /\ forallb (Legacy.table_ok d) (map PStr (Legacy.table_names d)) = true.
Proof.
  intros Hl Hwf. unfold Legacy.well_formed, Legacy.table_names in *.
  rewrite Hl in *.
  pose proof (names_are_strings d names Hwf) as Hn.
  split; [exact Hn|]. now rewrite <- Hn.
Qed.

Lemma fixture_settle (c : conn) (ic : bool) (d : list (string * pyval))
    (w : World DB) (data' : DB) :
  Legacy.well_formed d = true ->
  Legacy.settle srv ic (Legacy.plan d) (engine w) = Some data' ->
  exists w',
    Legacy._installFixture srv c (PDict d) ic w = (Ok tt, w')
    /\ engine w' = data'
    /\ executed (trace w')
       = (executed (trace w) ++ map (Legacy.via c) (Legacy.plan d))%list
    /\ Legacy.conflict_records (logged (trace w'))
       = Legacy.conflict_records (logged (trace w))
         + length (Legacy.conflicts srv (Legacy.plan d) (engine w))
    /\ Legacy.beside_the_data w w'.
Proof.
  intros Hwf Hsettle.
  unfold Legacy._installFixture, lift, bind.
  cbn [py_contains]. unfold has_key.
  destruct (lookup "tableOrder" d) as [order|] eqn:Hl.
  - cbn [negb py_getitem]. rewrite Hl.
    assert (Hlist : exists names, order = PList names).
    { unfold Legacy.well_formed in Hwf. rewrite Hl in Hwf.
      destruct order; try discriminate. now eexists. }
    destruct Hlist as (names & ->).
    destruct (well_formed_names d names Hl Hwf) as (Hn & Hok).
    cbn [py_iter]. rewrite Hn.
    exact (tables_settle c ic d (Legacy.table_names d) Hok w data' Hsettle).
  - cbn [negb]. unfold Legacy.plan, Legacy.table_names in Hsettle |- *.
    rewrite Hl in *. cbn in Hsettle. injection Hsettle as <-.
    exists w. cbn. rewrite app_nil_r, Nat.add_0_r. repeat split.
Qed.


(** **** A conflict that is not ignored *)

Lemma rows_abort (c : conn) (t : string)
    (rows_before : list Legacy.fields) (r : Legacy.fields)
    (rows_after : list Legacy.fields) (w : World DB) (data1 : DB)
    (code : Z) :
  Legacy.settle srv false (map (Legacy.statement_of t) rows_before) (engine w)
  = Some data1 ->
  Legacy.sendable (Legacy.statement_of t r) = true ->
  srv_exec srv data1 (insert_query t r) (insert_args r)
  = inl (IntegrityError code) ->
  exists w',
    for_each (map PDict (rows_before ++ r :: rows_after))
             (Legacy.install_row srv c false (PStr t)) w
    = (Raise (IntegrityError code), w')
    /\ engine w' = data1
    /\ executed (trace w')
       = (executed (trace w)
          ++ map (Legacy.via c)
                 (map (Legacy.statement_of t) rows_before
                  ++ [Legacy.statement_of t r]))%list.
Proof.
  intros Hsettle Hs Hexec.
  destruct (rows_settle c false t rows_before w data1 Hsettle)
    as (w1 & Hrun & He & Hx & _ & _).
  exists (add_event (EExecute c (insert_query t r) (insert_args r)) w1).
  split.
  - rewrite map_app, for_each_app, (bind_ok _ _ _ _ _ Hrun).
    cbn [map for_each]. unfold bind.
    rewrite (install_row_sent c false t r w1 Hs). cbv zeta.
    rewrite He, Hexec. reflexivity.
  - split; [exact He|].
    trace_simpl. rewrite Hx, map_app, app_assoc. reflexivity.
Qed.

Lemma tables_abort (c : conn) (d : list (string * pyval))
    (before : list string) (t : string) (after : list string)
    (rows_before : list Legacy.fields) (r : Legacy.fields)
    (rows_after : list Legacy.fields) (w : World DB) (data1 : DB)
    (code : Z) :
  forallb (Legacy.table_ok d) (map PStr (before ++ t :: after)) = true ->
  Legacy.rows_of d t = (rows_before ++ r :: rows_after)%list ->
  Legacy.settle srv false
    (flat_map (Legacy.table_statements d) before
     ++ map (Legacy.statement_of t) rows_before) (engine w)
  = Some data1 ->
  Legacy.sendable (Legacy.statement_of t r) = true ->
  srv_exec srv data1 (insert_query t r) (insert_args r)
  = inl (IntegrityError code) ->
  exists w',
    for_each (map PStr (before ++ t :: after))
             (Legacy.install_table srv c (PDict d) false) w
    = (Raise (IntegrityError code), w')
    /\ engine w' = data1
    /\ executed (trace w')
       = (executed (trace w)
          ++ map (Legacy.via c)
                 (flat_map (Legacy.table_statements d) before
                  ++ map (Legacy.statement_of t) rows_before
                  ++ [Legacy.statement_of t r]))%list.
Proof.
  intros Hok Hrows Hsettle Hs Hexec.
  rewrite map_app, forallb_app in Hok.
  apply andb_true_iff in Hok as [Hbefore Ht].
  cbn [map forallb Legacy.table_ok] in Ht. apply andb_true_iff in Ht as [Ht _].
  destruct (lookup t d) as [v|] eqn:Hl; [|discriminate].
  rewrite settle_app in Hsettle.
  destruct (Legacy.settle srv false
              (flat_map (Legacy.table_statements d) before) (engine w))
    as [data0|] eqn:H0; [|discriminate].
  destruct (tables_settle c false d before Hbefore w data0 H0)
    as (w0 & Hrun0 & He0 & Hx0 & _ & _).
  rewrite <- He0 in Hsettle.
  destruct (rows_abort c t rows_before r rows_after
              (add_event (ELog "Installing table %s" [PStr t]) w0)
              data1 code Hsettle Hs Hexec)
    as (w' & Hrun & He & Hx).
  exists w'. split.
  - rewrite map_app, for_each_app, (bind_ok _ _ _ _ _ Hrun0).
    cbn [map for_each]. unfold bind at 1.
    assert (Htable : Legacy.install_table srv c (PDict d) false (PStr t) w0
                     = (Raise (IntegrityError code), w')).
    { unfold Legacy.install_table, bind, logger_info, emit, lift.
      cbn [py_getitem]. rewrite Hl.
      rewrite (rows_of_spec d t v Hl Ht), Hrows. cbn [py_iter].
      exact Hrun. }
    now rewrite Htable.
  - split; [exact He|].
    revert Hx. trace_simpl. intros Hx.
    rewrite Hx, Hx0, !map_app, !app_assoc. reflexivity.
Qed.

(** C7.  Loading a well-formed document of one application.  With
    [ignoreConflicts] set, when the server accepts each statement or
    refuses it for an integrity violation, the loader goes through all
    the rows and returns: every statement of the plan has been sent, each
    refusal has given one "Ignoring conflict" record, and the data are
    those the accepted statements made.  With [ignoreConflicts] not set,
    at the first row the server refuses for an integrity violation the
    loader raises that very error: the rows after it in the table (and
    the tables after) are not sent, and the data are those made by the
    rows accepted before. *)
Theorem conflict_handling (c : conn) (d : list (string * pyval))
    (w : World DB) :
  Legacy.well_formed d = true ->
  (forall data',
      Legacy.settle srv true (Legacy.plan d) (engine w) = Some data' ->
      exists w',
        Legacy._installFixture srv c (PDict d) true w = (Ok tt, w')
        /\ engine w' = data'
        /\ executed (trace w')
           = (executed (trace w) ++ map (Legacy.via c) (Legacy.plan d))%list
        /\ Legacy.conflict_records (logged (trace w'))
           = Legacy.conflict_records (logged (trace w))
             + length (Legacy.conflicts srv (Legacy.plan d) (engine w)))
  /\ (forall before t after rows_before r rows_after data1 code,
        Legacy.table_names d = (before ++ t :: after)%list ->
        Legacy.rows_of d t = (rows_before ++ r :: rows_after)%list ->
        Legacy.settle srv false
          (flat_map (Legacy.table_statements d) before
           ++ map (Legacy.statement_of t) rows_before) (engine w)
        = Some data1 ->
        Legacy.sendable (Legacy.statement_of t r) = true ->
        srv_exec srv data1 (insert_query t r) (insert_args r)
        = inl (IntegrityError code) ->
        exists w',
          Legacy._installFixture srv c (PDict d) false w
          = (Raise (IntegrityError code), w')
          /\ engine w' = data1
          /\ executed (trace w')
             = (executed (trace w)
                ++ map (Legacy.via c)
                       (flat_map (Legacy.table_statements d) before
                        ++ map (Legacy.statement_of t) rows_before
                        ++ [Legacy.statement_of t r]))%list).
Proof.
  intros Hwf. split.
  - intros data' Hsettle.
    destruct (fixture_settle c true d w data' Hwf Hsettle)
      as (w' & Hrun & He & Hx & Hc & _).
    exists w'. repeat split; assumption.
  - intros before t after rows_before r rows_after data1 code
           Hnames Hrows Hsettle Hs Hexec.
    destruct (lookup "tableOrder" d) as [order|] eqn:Hl.
    + assert (Hlist : exists names, order = PList names).
      { unfold Legacy.well_formed in Hwf. rewrite Hl in Hwf.
        destruct order; try discriminate. now eexists. }
      destruct Hlist as (names & ->).
      destruct (well_formed_names d names Hl Hwf) as (Hn & Hok).
      rewrite Hnames in Hn, Hok.
      unfold Legacy._installFixture, lift, bind.
      cbn [py_contains]. unfold has_key. rewrite Hl.
      cbn [negb py_getitem]. rewrite Hl. cbn [py_iter]. rewrite Hn.
      exact (tables_abort c d before t after rows_before r rows_after w
               data1 code Hok Hrows Hsettle Hs Hexec).
    + unfold Legacy.table_names in Hnames. rewrite Hl in Hnames.
      destruct before; discriminate.
Qed.

(** C3, as the code has it.  A document without a [self] key is loaded
    as one application's tables: when it is well formed and the server
    lets every statement through (or refuses some for an integrity
    violation while [ignoreConflicts] is set), the statements sent are
    those of the plan, that is one insert per row, row after row, for
    the tables [tableOrder] names, in that order; and nothing is sent
    for a document without [tableOrder]. *)
Theorem flat_fixture_follows_table_order (c : conn)
    (d : list (string * pyval)) (ic : bool) (w : World DB) (data' : DB) :
  has_key "self" d = false ->
  Legacy.well_formed d = true ->
  Legacy.settle srv ic (Legacy.plan d) (engine w) = Some data' ->
  exists w',
    Legacy.installAFixture srv c (PDict d) ic w = (Ok tt, w')
    /\ engine w' = data'
    /\ executed (trace w')
       = (executed (trace w)
          ++ map (Legacy.via c)
                 (flat_map (fun t => map (Legacy.statement_of t)
                                         (Legacy.rows_of d t))
                           (Legacy.table_names d)))%list
    /\ (lookup "tableOrder" d = None ->
        executed (trace w') = executed (trace w)).
Proof.
  intros Hself Hwf Hsettle.
  destruct (fixture_settle c ic d w data' Hwf Hsettle)
    as (w' & Hrun & He & Hx & _ & _).
  exists w'. split.
  - unfold Legacy.installAFixture, lift, bind. cbn [py_contains].
    rewrite Hself. exact Hrun.
  - split; [exact He|]. split; [exact Hx|].
    intros Hnone. rewrite Hx. unfold Legacy.plan, Legacy.table_names.
    rewrite Hnone. cbn. now rewrite app_nil_r.
Qed.


(** **** Documents for several applications *)

Lemma has_key_app {V : Type} (k : string) (a b : list (string * V)) :
  has_key k (a ++ b) = (has_key k a || has_key k b)%bool.
Proof.
  unfold has_key. induction a as [|[k' v] a IH]; [reflexivity|].
  cbn [app lookup]. destruct (k =? k')%string; [reflexivity | exact IH].
Qed.

Lemma has_key_cons_false {V : Type} (k k' : string) (v : V)
    (rest : list (string * V)) :
  has_key k ((k', v) :: rest) = false ->
  (k' =? k)%string = false /\ has_key k rest = false.
Proof.
  unfold has_key. cbn [lookup]. rewrite (String.eqb_sym k' k).
  destruct (k =? k')%string; [discriminate | now split].
Qed.

Lemma foreign_app (before after : list (string * pyval)) (fx : pyval) :
  has_key "self" before = false -> has_key "self" after = false ->
  Legacy.foreign (before ++ ("self", fx) :: after) = (before ++ after)%list.
Proof.
  intros Hb Ha. unfold Legacy.foreign. rewrite filter_app. cbn.
  assert (Hall : forall es : list (string * pyval),
             has_key "self" es = false ->
             filter (fun e => negb (fst e =? "self")%string) es = es).
  { induction es as [|[k v] es IH]; [reflexivity|].
    intros H. apply has_key_cons_false in H as [Hk Hes].
    cbn. rewrite Hk. cbn. f_equal. now apply IH. }
  now rewrite (Hall before Hb), (Hall after Ha).
Qed.

Lemma handoff_files_app (a b : list (string * pyval)) :
  forall n,
    Legacy.handoff_files n (a ++ b)
    = (Legacy.handoff_files n a ++ Legacy.handoff_files (n + length a) b)%list.
Proof.
  induction a as [|[k v] a IH]; intros n; cbn.
  - now rewrite Nat.add_0_r.
  - f_equal. rewrite IH. do 2 f_equal. lia.
Qed.

Lemma handoff_prompts_app (a b : list (string * pyval)) :
  forall n,
    Legacy.handoff_prompts n (a ++ b)
    = (Legacy.handoff_prompts n a
       ++ Legacy.handoff_prompts (n + length a) b)%list.
Proof.
  induction a as [|[k v] a IH]; intros n; cbn.
  - now rewrite Nat.add_0_r.
  - f_equal. rewrite IH. do 2 f_equal. lia.
Qed.

(** An entry of another application is written to a file and the
    operator is asked; whatever the operator's input, no statement is
    sent and the data stay. *)
Lemma foreign_entry_sends_nothing (c : conn) (ic : bool) (appName : string)
    (fx : pyval) (w : World DB) :
  (appName =? "self")%string = false ->
  executed (trace (snd (Legacy.install_entry srv c ic (appName, fx) w)))
  = executed (trace w)
  /\ engine (snd (Legacy.install_entry srv c ic (appName, fx) w)) = engine w.
Proof.
  intros Hk. unfold Legacy.install_entry. rewrite Hk.
  unfold bind, Legacy.named_temporary_file, Legacy.json_dump, emit, raw_input.
  simpl. destruct (stdin w); trace_simpl; now split.
Qed.

Lemma foreign_entry_handed_off (c : conn) (ic : bool) (appName : string)
    (fx : pyval) (w : World DB) (line : string) (rest : list string) :
  (appName =? "self")%string = false ->
  stdin w = line :: rest ->
  exists w',
    Legacy.install_entry srv c ic (appName, fx) w = (Ok tt, w')
    /\ engine w' = engine w
    /\ stdin w' = rest
    /\ next_tmp w' = S (next_tmp w)
    /\ executed (trace w') = executed (trace w)
    /\ tempfiles (trace w')
       = (tempfiles (trace w)
          ++ [(Legacy.temp_name (appName ++ "-") ".json" (next_tmp w), fx)])%list
    /\ prompts (trace w')
       = (prompts (trace w)
          ++ [Legacy.load_request
                (Legacy.temp_name (appName ++ "-") ".json" (next_tmp w))
                appName])%list.
Proof.
  intros Hk Hin. unfold Legacy.install_entry. rewrite Hk.
  unfold bind, Legacy.named_temporary_file, Legacy.json_dump, emit, raw_input.
  simpl. rewrite Hin. eexists. split; [reflexivity|].
  trace_simpl. repeat split.
Qed.

Lemma foreign_entries_send_nothing (c : conn) (ic : bool)
    (es : list (string * pyval)) :
  has_key "self" es = false ->
  forall w : World DB,
    executed (trace (snd (for_each es (Legacy.install_entry srv c ic) w)))
    = executed (trace w)
    /\ engine (snd (for_each es (Legacy.install_entry srv c ic) w)) = engine w.
Proof.
  induction es as [|[k v] es IH]; intros Hes w; [now split|].
  apply has_key_cons_false in Hes as [Hk Hes].
  cbn [for_each]. unfold bind.
  destruct (foreign_entry_sends_nothing c ic k v w Hk) as [Hx He].
  destruct (Legacy.install_entry srv c ic (k, v) w) as [[[]|e] w1];
    cbn [snd] in *.
  - destruct (IH Hes w1) as [Hx1 He1]. split; congruence.
  - now split.
Qed.

Lemma foreign_entries_handed_off (c : conn) (ic : bool)
    (es : list (string * pyval)) :
  has_key "self" es = false ->
  forall w : World DB,
    length es <= length (stdin w) ->
    exists w',
      for_each es (Legacy.install_entry srv c ic) w = (Ok tt, w')
      /\ engine w' = engine w
      /\ stdin w' = skipn (length es) (stdin w)
      /\ next_tmp w' = next_tmp w + length es
      /\ executed (trace w') = executed (trace w)
      /\ tempfiles (trace w')
         = (tempfiles (trace w) ++ Legacy.handoff_files (next_tmp w) es)%list
      /\ prompts (trace w')
         = (prompts (trace w) ++ Legacy.handoff_prompts (next_tmp w) es)%list.
Proof.
  induction es as [|[k v] es IH]; intros Hes w Hlen.
  - exists w. cbn. rewrite !app_nil_r, Nat.add_0_r. repeat split.
  - apply has_key_cons_false in Hes as [Hk Hes].
    destruct (stdin w) as [|line rest] eqn:Hin; [cbn in Hlen; lia|].
    destruct (foreign_entry_handed_off c ic k v w line rest Hk Hin)
      as (w1 & Hrun1 & He1 & Hs1 & Hn1 & Hx1 & Hf1 & Hp1).
    destruct (IH Hes w1) as (w' & Hrun & He & Hs & Hn & Hx & Hf & Hp).
    { rewrite Hs1. cbn in Hlen. lia. }
    exists w'. split.
    + cbn [for_each]. now rewrite (bind_ok _ _ _ _ _ Hrun1).
    + rewrite Hn1 in Hn, Hf, Hp.
      rewrite He, He1, Hs, Hs1, Hn, Hx, Hx1, Hf, Hf1, Hp, Hp1.
      cbn [length skipn Legacy.handoff_files Legacy.handoff_prompts].
      rewrite <- !app_assoc. cbn [app].
      repeat split. lia.
Qed.


End Fixture.

(** **** On the toy server *)

(** The document [{"t": [{"a":1,"b":2},{"a":1,"b":2}], "tableOrder":
    ["t"]}] on a server where the rows of [t] are unique: with conflicts
    ignored the load ends with one row stored, otherwise the second row
    raises the integrity error, the first row staying. *)
Lemma conflict_handling_witness :
  (exists w',
      Legacy._installFixture server 0 (PDict twice_the_same_row) true
                             (world empty [])
      = (Ok tt, w')
      /\ stored (engine w')
         = [("INSERT INTO t (a,b) VALUES (%s,%s)", [PInt 1; PInt 2])]
      /\ Legacy.conflict_records (logged (trace w')) = 1)
  /\ (exists w',
        Legacy._installFixture server 0 (PDict twice_the_same_row) false
                               (world empty [])
        = (Raise (IntegrityError 1062), w')
        /\ stored (engine w')
           = [("INSERT INTO t (a,b) VALUES (%s,%s)", [PInt 1; PInt 2])]).
Proof.
  destruct (conflict_handling server 0 twice_the_same_row (world empty [])
              eq_refl) as [Hignore Habort].
  split.
  - destruct (Hignore _ eq_refl) as (w' & Hrun & He & _ & Hc).
    exists w'. split; [exact Hrun|]. split; [now rewrite He | exact Hc].
  - destruct (Habort [] "t" [] [[("a", PInt 1); ("b", PInt 2)]]
                     [("a", PInt 1); ("b", PInt 2)] [] _ 1062%Z
                     eq_refl eq_refl eq_refl eq_refl eq_refl)
      as (w' & Hrun & He & _).
    exists w'. split; [exact Hrun | now rewrite He].
Defined.

(** Two tables, loaded in [tableOrder] order. *)
Lemma flat_fixture_follows_table_order_witness :
  exists w',
    Legacy.installAFixture server 0 (PDict two_tables) false (world empty [])
    = (Ok tt, w')
    /\ executed (trace w')
       = [(0, "INSERT INTO t (a,b) VALUES (%s,%s)", [PInt 1; PInt 2]);
          (0, "INSERT INTO t (a,b) VALUES (%s,%s)", [PInt 3; PInt 4]);
          (0, "INSERT INTO u (x) VALUES (%s)", [PInt 7])].
Proof.
  destruct (flat_fixture_follows_table_order server 0 two_tables false
              (world empty []) _ eq_refl eq_refl eq_refl)
    as (w' & Hrun & _ & Hx & _).
  exists w'. split; [exact Hrun | exact Hx].
Defined.

(** C3 as stated fails: the document [{"t": [{"a": 1}]}] has no [self]
    key and a row in table [t], and loading it sends nothing. *)
Lemma rows_without_table_order_are_not_inserted :
  ~ (forall (d : list (string * pyval)) (t : string) (rows : list pyval)
            (r : Legacy.fields),
        has_key "self" d = false ->
        lookup t d = Some (PList rows) ->
        In (PDict r) rows ->
        In (0, insert_query t r, insert_args r)
           (executed
              (trace (snd (Legacy.installAFixture server 0 (PDict d) false
                                                  (world empty [])))))).
Proof.
  intros H.
  exact (H [("t", PList [PDict [("a", PInt 1)]])] "t"
           [PDict [("a", PInt 1)]] [("a", PInt 1)]
           eq_refl eq_refl (or_introl eq_refl)).
Qed.



(** The document of the specification's example,
    [{"self": {"t": [{"a":1}]}, "otherApp": {"u": [{"b":2}]}}]: nothing
    is sent for [u]; nothing is sent for [t] either, its entry having no
    [tableOrder]. *)
Example multi_app_example :
  let d := [("self", PDict [("t", PList [PDict [("a", PInt 1)]])]);
            ("otherApp", PDict [("u", PList [PDict [("b", PInt 2)]])])] in
  let out := Legacy.installAFixture server 0 (PDict d) false
                                    (world empty [""]) in
  fst out = Ok tt
  /\ executed (trace (snd out)) = []
  /\ tempfiles (trace (snd out))
     = [("otherApp-0.json", PDict [("u", PList [PDict [("b", PInt 2)]])])].
Proof. repeat split. Qed.

(** [importData] of the package has the same loop, but keeps its session
    under the name [db] and asks for [database] at the first row: the
    load stops there, before any statement for a row. *)
Example importData_asks_for_database :
  let tables := PList [PDict [("name", PStr "t");
                              ("rows", PList [one_row])]] in
  let out := Pkg.importData server tables true (world empty []) in
  fst out = Raise (NameError "database")
  /\ executed (trace (snd out)) = [(0, Pkg.session_settings, [])].
Proof. repeat split. Qed.

End FixtureProps.

(** *** MySQLPlugin/Util.py *)

Module UtilProps.
Import Insert StringFacts Util.

Lemma plain_no_percent (s : string) : plain s = true -> no_percent s = true.
Proof.
  induction s as [|a s IH]; [reflexivity|]. cbn.
  intros H. apply andb_true_iff in H as [H Hs].
  apply andb_true_iff in H as [Ha _]. now rewrite Ha, IH.
Qed.

Lemma names_skip_clean (a b : string) :
  no_percent a = true -> names_from Outside (a ++ b) = names_from Outside b.
Proof.
  induction a as [|x a IH]; [reflexivity|]. cbn.
  intros H. apply andb_true_iff in H as [Hx Ha].
  apply negb_true_iff in Hx. rewrite Hx. now apply IH.
Qed.

Lemma names_inside (k : string) :
  forall (acc rest : string),
    plain k = true ->
    names_from (Inside acc) (k ++ ")" ++ rest)
    = (acc ++ k) :: names_from Outside rest.
Proof.
  induction k as [|x k IH]; intros acc rest Hk.
  - cbn. now rewrite append_empty.
  - cbn in Hk. apply andb_true_iff in Hk as [H Hk].
    apply andb_true_iff in H as [_ Hx]. apply negb_true_iff in Hx.
    change (String x k ++ ")" ++ rest) with (String x (k ++ ")" ++ rest)).
    cbn [names_from]. rewrite Hx. rewrite (IH _ _ Hk).
    now rewrite append_assoc.
Qed.

Lemma names_placeholder (k rest : string) :
  plain k = true ->
  names_from Outside ("%(" ++ k ++ ")" ++ rest)
  = k :: names_from Outside rest.
Proof.
  intros Hk.
  change ("%(" ++ k ++ ")" ++ rest)
    with (String "%" (String "(" (k ++ ")" ++ rest))).
  cbn [names_from Ascii.eqb Bool.eqb andb].
  now rewrite (names_inside k "" rest Hk).
Qed.

(** The placeholders of [sep.join] over [%(k)s]-shaped pieces. *)
Lemma names_joined (keys : list string) (tail : string) :
  keys <> [] -> forallb plain keys = true ->
  names_from Outside ("%(" ++ join ")s,%(" keys ++ ")s" ++ tail)
  = (keys ++ names_from Outside tail)%list.
Proof.
  induction keys as [|k keys IH]; [congruence|]. intros _ Hk.
  cbn [forallb] in Hk. apply andb_true_iff in Hk as [Hk Hkeys].
  destruct keys as [|k2 keys].
  - cbn [join]. change (")s" ++ tail) with (")" ++ "s" ++ tail).
    rewrite (names_placeholder k _ Hk). reflexivity.
  - change (join ")s,%(" (k :: k2 :: keys))
      with (k ++ ")s,%(" ++ join ")s,%(" (k2 :: keys)).
    rewrite !append_assoc.
    change (")s,%(" ++ join ")s,%(" (k2 :: keys) ++ ")s" ++ tail)
      with (")" ++ "s," ++ "%(" ++ join ")s,%(" (k2 :: keys) ++ ")s" ++ tail).
    rewrite (names_placeholder k _ Hk).
    rewrite (names_skip_clean "s,") by reflexivity.
    rewrite IH; [reflexivity | discriminate | exact Hkeys].
Qed.

Lemma plain_join (sep : string) (keys : list string) :
  no_percent sep = true -> forallb plain keys = true ->
  no_percent (join sep keys) = true.
Proof.
  intros Hsep Hk. apply no_percent_join; [exact Hsep|].
  induction keys as [|k keys IH]; [reflexivity|].
  cbn [forallb] in *. apply andb_true_iff in Hk as [Hk Hkeys].
  now rewrite (plain_no_percent k Hk), IH.
Qed.




Lemma names_condition (k rest : string) :
  plain k = true ->
  names_from Outside ((k ++ " = %(" ++ k ++ ")s ") ++ rest)
  = k :: names_from Outside rest.
Proof.
  intros Hk. rewrite append_assoc.
  rewrite (names_skip_clean k) by (now apply plain_no_percent).
  change ((" = %(" ++ k ++ ")s ") ++ rest)
    with (" = " ++ ("%(" ++ k ++ ")s ") ++ rest).
  rewrite (names_skip_clean " = ") by reflexivity.
  change (("%(" ++ k ++ ")s ") ++ rest)
    with (String "%" (String "(" ((k ++ ")s ") ++ rest))).
  rewrite (append_assoc k).
  change (String "%" (String "(" (k ++ ")s " ++ rest)))
    with ("%(" ++ k ++ ")" ++ "s " ++ rest).
  rewrite (names_placeholder k _ Hk).
  now rewrite (names_skip_clean "s ") by reflexivity.
Qed.



Lemma join_repeat (n : nat) :
  join "," (repeat "%s" (S n)) = "%s" ++ repeat_str ",%s" n.
Proof.
  induction n as [|n IH]; [reflexivity|].
  change (join "," (repeat "%s" (S (S n))))
    with ("%s" ++ "," ++ join "," (repeat "%s" (S n))).
  rewrite IH. reflexivity.
Qed.

(** X3.  [makePlaceholderList] writes exactly one [%s] per element of
    its argument, none for an empty one; for a row with fields, the
    placeholder list the loaders build inline is this very text. *)
Theorem makePlaceholderList_count {A : Type} (sourceList : list A) :
  count_placeholders (makePlaceholderList sourceList) = length sourceList
  /\ (sourceList <> [] ->
      placeholder_list (length sourceList) = makePlaceholderList sourceList).
Proof.
  unfold makePlaceholderList.
  destruct sourceList as [|x l]; [split; [reflexivity | congruence]|].
  cbn [length]. rewrite join_repeat. split.
  - rewrite <- (append_empty ("%s" ++ repeat_str ",%s" (length l))).
    rewrite append_assoc, count_conversion, count_repeat. simpl. lia.
  - intros _. unfold placeholder_list, str_mul. do 2 f_equal. lia.
Qed.

Lemma makePlaceholderList_count_witness :
  placeholder_list 3 = makePlaceholderList [1; 2; 3]
  /\ makePlaceholderList [1; 2; 3] = "%s,%s,%s".
Proof.
  split; [|reflexivity].
  apply (proj2 (makePlaceholderList_count [1; 2; 3])). discriminate.
Defined.

End UtilProps.

(** *** MySQLPlugin/__init__.py: more on the commands *)

Module CommandProps.
Import MonadFacts StringFacts Toy.
Section Commands.
Context {DB : Type}.
Variable srv : Server DB.
Variable pkg : SchemaPackage DB.

Ltac trace_simpl :=
  simpl;
  rewrite ?logged_app, ?invoked_app, ?executed_app, ?prompts_app,
    ?tempfiles_app;
  simpl; rewrite ?app_nil_r.

(** **** The question *)

Lemma ask_again_prompts (junk : list string) :
  forall (fuel : nat) (cfm answer : string) (rest : list string)
         (w : World DB),
    forallb (fun l => negb (Pkg.is_y_or_n l)) (cfm :: junk) = true ->
    Pkg.is_y_or_n answer = true ->
    stdin w = (junk ++ answer :: rest)%list ->
    length junk < fuel ->
    exists w',
      Pkg.ask_again fuel cfm w = (Ok answer, w')
      /\ stdin w' = rest
      /\ prompts (trace w')
         = (prompts (trace w) ++ repeat "Please type y or n: " (S (length junk)))%list.
Proof.
  induction junk as [|j junk IH];
    intros fuel cfm answer rest w Hjunk Hans Hin Hfuel.
  - destruct fuel as [|fuel]; [simpl in Hfuel; lia|].
    simpl in Hjunk. rewrite andb_true_r in Hjunk.
    apply negb_true_iff in Hjunk.
    cbn [Pkg.ask_again]. rewrite Hjunk.
    unfold bind, raw_input. simpl. simpl in Hin. rewrite Hin.
    eexists. split.
    + destruct fuel; cbn [Pkg.ask_again]; rewrite Hans; reflexivity.
    + trace_simpl. now split.
  - destruct fuel as [|fuel]; [simpl in Hfuel; lia|].
    cbn [forallb] in Hjunk. apply andb_true_iff in Hjunk as [Hc Hrest].
    apply negb_true_iff in Hc.
    cbn [Pkg.ask_again]. rewrite Hc.
    unfold bind at 1. unfold raw_input. simpl. simpl in Hin. rewrite Hin.
    destruct (IH fuel j answer rest
                (set_stdin (junk ++ answer :: rest)%list
                   (add_event (EPrompt "Please type y or n: ") w)))
      as (w' & Hrun & Hs & Hp);
      [exact Hrest | exact Hans | reflexivity | simpl in Hfuel; lia |].
    exists w'. split; [exact Hrun|]. split; [exact Hs|].
    revert Hp. trace_simpl. intros ->. now rewrite <- app_assoc.
Qed.

Lemma ask_again_exhausted (lines : list string) :
  forall (fuel : nat) (cfm : string) (w : World DB),
    forallb (fun l => negb (Pkg.is_y_or_n l)) (cfm :: lines) = true ->
    stdin w = lines ->
    length lines <= fuel ->
    exists w',
      Pkg.ask_again fuel cfm w = (Raise EOFError, w')
      /\ stdin w' = []
      /\ prompts (trace w')
         = (prompts (trace w) ++ repeat "Please type y or n: " (S (length lines)))%list.
Proof.
  induction lines as [|l lines IH]; intros fuel cfm w Hall Hin Hfuel.
  - simpl in Hall. rewrite andb_true_r in Hall. apply negb_true_iff in Hall.
    destruct fuel; cbn [Pkg.ask_again]; rewrite Hall;
      unfold bind, raw_input; simpl; rewrite Hin;
      (eexists; split; [reflexivity|]; trace_simpl; now split).
  - destruct fuel as [|fuel]; [simpl in Hfuel; lia|].
    cbn [forallb] in Hall. apply andb_true_iff in Hall as [Hc Hrest].
    apply negb_true_iff in Hc.
    cbn [Pkg.ask_again]. rewrite Hc.
    unfold bind at 1. unfold raw_input. simpl. rewrite Hin.
    destruct (IH fuel l (set_stdin lines (add_event (EPrompt "Please type y or n: ") w)))
      as (w' & Hrun & Hs & Hp);
      [exact Hrest | reflexivity | simpl in Hfuel; lia |].
    exists w'. split; [exact Hrun|]. split; [exact Hs|].
    revert Hp. trace_simpl. intros ->. now rewrite <- app_assoc.
Qed.

(** Either a line of the input is [y] or [n], and then there is a first
    one, or none is. *)
Lemma first_answer (lines : list string) :
  (exists junk answer rest, Pkg.answers lines junk answer rest)
  \/ forallb (fun l => negb (Pkg.is_y_or_n l)) lines = true.
Proof.
  induction lines as [|l lines IH]; [now right|].
  destruct (Pkg.is_y_or_n l) eqn:Hl.
  - left. exists [], l, lines. repeat split. exact Hl.
  - destruct IH as [(junk & a & rest & Hin & Hjunk & Ha)|Hnone].
    + left. exists (l :: junk), a, rest. repeat split.
      * cbn. now rewrite Hin.
      * cbn. now rewrite Hl, Hjunk.
      * exact Ha.
    + right. cbn. now rewrite Hl, Hnone.
Qed.

Lemma ask_answered (question : string) (w : World DB) junk answer rest :
  Pkg.answers (stdin w) junk answer rest ->
  exists w',
    Pkg.askYesOrNoQuestion question w = (Ok answer, w')
    /\ stdin w' = rest
    /\ prompts (trace w')
       = (prompts (trace w)
          ++ (question ++ " (y/n): ")%string
             :: repeat "Please type y or n: " (length junk))%list.
Proof.
  intros (Hin & Hjunk & Ha).
  unfold Pkg.askYesOrNoQuestion, bind at 1. unfold raw_input. simpl.
  rewrite Hin.
  destruct junk as [|j junk]; simpl.
  - rewrite Ha. eexists. split; [reflexivity|]. trace_simpl. now split.
  - destruct (ask_again_prompts junk (S (length (junk ++ answer :: rest))) j
                answer rest
                (set_stdin (junk ++ answer :: rest)%list
                   (add_event (EPrompt (question ++ " (y/n): ")) w)))
      as (w' & Hrun & Hs & Hp);
      [exact Hjunk | exact Ha | reflexivity
      | rewrite length_app; simpl; lia |].
    exists w'. split; [exact Hrun|]. split; [exact Hs|].
    revert Hp. trace_simpl. intros ->. now rewrite <- app_assoc.
Qed.

Lemma ask_unanswered (question : string) (w : World DB) :
  forallb (fun l => negb (Pkg.is_y_or_n l)) (stdin w) = true ->
  exists w',
    Pkg.askYesOrNoQuestion question w = (Raise EOFError, w')
    /\ stdin w' = []
    /\ prompts (trace w')
       = (prompts (trace w)
          ++ (question ++ " (y/n): ")%string
             :: repeat "Please type y or n: " (length (stdin w)))%list.
Proof.
  intros Hnone.
  unfold Pkg.askYesOrNoQuestion, bind at 1. unfold raw_input. simpl.
  destruct (stdin w) as [|l lines] eqn:Hin.
  - eexists. split; [reflexivity|]. trace_simpl. now split.
  - destruct (ask_again_exhausted lines (S (length lines)) l
                (set_stdin lines
                   (add_event (EPrompt (question ++ " (y/n): ")) w)))
      as (w' & Hrun & Hs & Hp);
      [exact Hnone | reflexivity | lia |].
    exists w'. split; [exact Hrun|]. split; [exact Hs|].
    revert Hp. trace_simpl. intros ->. now rewrite <- app_assoc.
Qed.



(** **** Commands that stop before the module *)

(** X5.  A command that has to read the installed version and finds no
    schema installed fails with a command error saying so; the world is
    the one the version inspection left: no module is looked for and no
    session is opened for a migration. *)
Theorem no_schema_installed (c : Pkg.command) (w w1 : World DB) :
  Pkg.inspects c = true ->
  Pkg.getSchemaVersion srv "metadata" w = (Ok None, w1) ->
  exists msg,
    Pkg.run srv pkg c w = (Raise (CommandError msg), w1)
    /\ mentions msg "there is no schema currently installed".
Proof.
  intros Hc Hinsp.
  destruct c as [t|t|[r|] t]; try discriminate; cbn [Pkg.run].
  - unfold Pkg.upgrade. rewrite (bind_ok _ _ _ _ _ Hinsp).
    eexists. split; [reflexivity|].
    now exists "It seems ",
      (". You can install a schema with the " ++ dq ++ "install" ++ dq
       ++ " command.").
  - unfold Pkg.overlay. rewrite (bind_ok _ _ _ _ _ Hinsp).
    eexists. split; [reflexivity|].
    now exists "It seems ",
      (". You can install a schema with the " ++ dq ++ "install" ++ dq
       ++ " command.").
  - unfold Pkg.trim. rewrite (bind_ok _ _ _ _ _ Hinsp).
    eexists. split; [reflexivity|]. now exists "It seems ", ".".
Qed.

(** X6.  Upgrade and overlay asked for the very version that is
    installed fail with the command error "Schema version ... is already
    installed", in the world the version inspection left. *)
Theorem already_installed (c : Pkg.command) (w w1 : World DB) (v : string) :
  Pkg.asked_target c = Some v ->
  Pkg.getSchemaVersion srv "metadata" w = (Ok (Some v), w1) ->
  Pkg.run srv pkg c w
  = (Raise (CommandError ("Schema version " ++ v ++ " is already installed")),
     w1).
Proof.
  intros Hc Hinsp.
  destruct c as [t|t|r t]; cbn [Pkg.asked_target] in Hc; try discriminate;
    subst t; cbn [Pkg.run].
  - unfold Pkg.upgrade. rewrite (bind_ok _ _ _ _ _ Hinsp).
    now rewrite String.eqb_refl.
  - unfold Pkg.overlay. rewrite (bind_ok _ _ _ _ _ Hinsp).
    now rewrite String.eqb_refl.
Qed.

Lemma upgrade_unknown (t : option string) (w w1 : World DB)
    (cur version : string) :
  Pkg.getSchemaVersion srv "metadata" w = (Ok (Some cur), w1) ->
  t <> Some cur ->
  Pkg.target_of pkg t version ->
  lookup (Pkg.module_name pkg version) (importable pkg) = None ->
  Pkg.upgrade srv pkg t w
  = (Raise (ImportError (Pkg.module_name pkg version)),
     add_event (ELog "Current schema version = %s" [PStr cur]) w1).
Proof.
  intros Hinsp Hne Hver Hmod.
  unfold Pkg.upgrade. rewrite (bind_ok _ _ _ _ _ Hinsp).
  rewrite (MigrationProps.not_same_target t cur Hne).
  unfold Pkg.module_name in *.
  destruct t as [t0|]; cbn [Pkg.target_of] in Hver.
  - subst t0. unfold bind, logger_info, emit, import_module, ret.
    cbv beta iota zeta. now rewrite Hmod.
  - destruct Hver as (older & Hver).
    unfold bind, logger_info, emit, last_version, import_module.
    cbv beta iota zeta.
    rewrite Hver, rev_app_distr. cbn [rev app]. unfold ret.
    cbv beta iota zeta. now rewrite Hmod.
Qed.

Lemma overlay_unknown (t : option string) (w w1 : World DB)
    (cur version : string) :
  Pkg.getSchemaVersion srv "metadata" w = (Ok (Some cur), w1) ->
  t <> Some cur ->
  Pkg.target_of pkg t version ->
  lookup (Pkg.module_name pkg version) (importable pkg) = None ->
  Pkg.overlay srv pkg t w
  = (Raise (ImportError (Pkg.module_name pkg version)),
     add_event (ELog "Current schema version = %s" [PStr cur]) w1).
Proof.
  intros Hinsp Hne Hver Hmod.
  unfold Pkg.overlay. rewrite (bind_ok _ _ _ _ _ Hinsp).
  rewrite (MigrationProps.not_same_target t cur Hne).
  unfold Pkg.module_name in *.
  destruct t as [t0|]; cbn [Pkg.target_of] in Hver.
  - subst t0. unfold bind, logger_info, emit, import_module, ret.
    cbv beta iota zeta. now rewrite Hmod.
  - destruct Hver as (older & Hver).
    unfold bind, logger_info, emit, last_version, import_module.
    cbv beta iota zeta.
    rewrite Hver, rev_app_distr. cbn [rev app]. unfold ret.
    cbv beta iota zeta. now rewrite Hmod.
Qed.

(** X7.  When the package has no module for the version a command
    resolves, the command fails with the import error for that module's
    name; sessions, data, statements sent and procedures called are
    those the version inspection left. *)
Theorem unknown_version (c : Pkg.command) (w w1 : World DB)
    (version : string) :
  Pkg.resolves srv pkg c w version w1 ->
  lookup (Pkg.module_name pkg version) (importable pkg) = None ->
  exists w',
    Pkg.run srv pkg c w
    = (Raise (ImportError (Pkg.module_name pkg version)), w')
    /\ next_conn w' = next_conn w1
    /\ open_conns w' = open_conns w1
    /\ engine w' = engine w1
    /\ executed (trace w') = executed (trace w1)
    /\ invoked (trace w') = invoked (trace w1).
Proof.
  intros Hres Hmod.
  destruct c as [t|t|r t]; cbn [Pkg.run].
  - destruct Hres as (cur & Hinsp & Hne & Hver).
    eexists. split;
      [exact (upgrade_unknown t w w1 cur version Hinsp Hne Hver Hmod)|].
    trace_simpl. repeat split.
  - destruct Hres as (cur & Hinsp & Hne & Hver).
    eexists. split;
      [exact (overlay_unknown t w w1 cur version Hinsp Hne Hver Hmod)|].
    trace_simpl. repeat split.
  - exists w1. split; [|repeat split].
    unfold Pkg.trim.
    rewrite (MigrationProps.trim_reference srv pkg r t w w1 version _ Hres).
    unfold Pkg.module_name in Hmod.
    unfold bind, import_module. cbv beta iota zeta. now rewrite Hmod.
Qed.

(** **** Dispatch *)

Lemma overlay_dispatch (t : option string) (w w1 : World DB)
    (cur version : string) (m : VersionModule DB) (p : procedure DB)
    (db : conn) (w3 : World DB) :
  Pkg.getSchemaVersion srv "metadata" w = (Ok (Some cur), w1) ->
  t <> Some cur ->
  Pkg.target_of pkg t version ->
  lookup (Pkg.module_name pkg version) (importable pkg) = Some m ->
  mod_overlay m = Some p ->
  Pkg.getMysqlConnection srv
    (add_event (ELog "Current schema version = %s" [PStr cur]) w1)
  = (Ok db, w3) ->
  Pkg.overlay srv pkg t w
  = (match fst (p db cur (engine w3)) with
     | None => Ok tt
     | Some e => Raise e
     end,
     close db
       (set_engine (snd (p db cur (engine w3)))
          (add_event (EInvoke (Pkg.module_name pkg version) CapOverlay db cur)
                     w3))).
Proof.
  intros Hinsp Hne Hver Hmod Hcap Hconn.
  unfold Pkg.overlay. rewrite (bind_ok _ _ _ _ _ Hinsp).
  rewrite (MigrationProps.not_same_target t cur Hne).
  unfold Pkg.module_name in *.
  assert (Hend : closing (Pkg.getMysqlConnection srv)
                   (fun db0 => invoke (pkg_name pkg ++ ".v" ++ version)
                                      CapOverlay p db0 cur)
                   (add_event (ELog "Current schema version = %s" [PStr cur])
                              w1)
                 = (match fst (p db cur (engine w3)) with
                    | None => Ok tt
                    | Some e => Raise e
                    end,
                    close db
                      (set_engine (snd (p db cur (engine w3)))
                         (add_event (EInvoke (pkg_name pkg ++ ".v" ++ version)
                                             CapOverlay db cur) w3)))).
  { unfold closing. rewrite Hconn. unfold invoke. simpl.
    destruct (p db cur (engine w3)) as [r d]. reflexivity. }
  destruct t as [t0|]; cbn [Pkg.target_of] in Hver.
  - subst t0. unfold bind, logger_info, emit, import_module, ret.
    cbv beta iota zeta. rewrite Hmod. cbv beta iota zeta. rewrite Hcap.
    exact Hend.
  - destruct Hver as (older & Hver).
    unfold bind, logger_info, emit, last_version, import_module.
    cbv beta iota zeta.
    rewrite Hver, rev_app_distr. cbn [rev app]. unfold ret.
    cbv beta iota zeta. rewrite Hmod. cbv beta iota zeta. rewrite Hcap.
    exact Hend.
Qed.

(** X8.  Upgrade and overlay, once the target's module has the procedure
    and the session for the migration is there: the procedure is called
    once, with that session and the installed version as [fromVersion];
    what it raises the command raises, the data are those it leaves, and
    the session is closed, the open sessions being those the version
    inspection left. *)
Theorem migration_dispatch (c : Pkg.command) (w w1 : World DB)
    (cur version : string) (m : VersionModule DB) (p : procedure DB)
    (db : conn) (w3 : World DB) :
  Pkg.capability_of c <> CapTrim ->
  Pkg.getSchemaVersion srv "metadata" w = (Ok (Some cur), w1) ->
  Pkg.asked_target c <> Some cur ->
  Pkg.target_of pkg (Pkg.asked_target c) version ->
  lookup (Pkg.module_name pkg version) (importable pkg) = Some m ->
  Pkg.procedure_of m (Pkg.capability_of c) = Some p ->
  Pkg.getMysqlConnection srv
    (add_event (ELog "Current schema version = %s" [PStr cur]) w1)
  = (Ok db, w3) ->
  let out := Pkg.run srv pkg c w in
  fst out = match fst (p db cur (engine w3)) with
            | None => Ok tt
            | Some e => Raise e
            end
  /\ engine (snd out) = snd (p db cur (engine w3))
  /\ invoked (trace (snd out))
     = (invoked (trace w1)
        ++ [(Pkg.module_name pkg version, Pkg.capability_of c, db, cur)])%list
  /\ open_conns (snd out) = open_conns w1.
Proof.
  intros Hc Hinsp Hne Hver Hmod Hcap Hconn.
  destruct (MigrationProps.getMysqlConnection_ok srv _ _ _ Hconn)
    as (_ & _ & Ho & _ & _ & Htr & _).
  assert (Hopen : remove_first db (open_conns w3) = open_conns w1).
  { rewrite Ho. cbn [open_conns add_event].
    apply MigrationProps.remove_first_head. }
  assert (Hinv : invoked (trace w3) = invoked (trace w1)).
  { rewrite Htr. trace_simpl. reflexivity. }
  destruct c as [t|t|r t]; [| |now elim Hc];
    cbn [Pkg.run Pkg.capability_of Pkg.asked_target Pkg.procedure_of] in *.
  - rewrite (MigrationProps.upgrade_dispatch srv pkg t w w1 cur version m p db
               w3 Hinsp Hne Hver Hmod Hcap Hconn).
    cbn [fst snd]. split; [reflexivity|]. split; [reflexivity|].
    split; [|exact Hopen]. trace_simpl. now rewrite Hinv.
  - rewrite (overlay_dispatch t w w1 cur version m p db w3
               Hinsp Hne Hver Hmod Hcap Hconn).
    cbn [fst snd]. split; [reflexivity|]. split; [reflexivity|].
    split; [|exact Hopen]. trace_simpl. now rewrite Hinv.
Qed.

(** **** The connection provider *)

(** X9.  [getMysqlConnection]: when the server refuses the login,
    nothing changes; otherwise a session with a handle never used before
    is opened and the session setting is the first statement sent
    through it.  When the server accepts the setting, that session is
    returned, open; when it refuses it, the refusal is raised and the
    session stays open, nothing closing it. *)
Theorem getMysqlConnection_outcomes (w : World DB) :
  let out := Pkg.getMysqlConnection srv w in
  match srv_login srv (engine w) with
  | Some e => out = (Raise e, w)
  | None =>
      open_conns (snd out) = next_conn w :: open_conns w
      /\ next_conn (snd out) = S (next_conn w)
      /\ executed (trace (snd out))
         = (executed (trace w)
            ++ [(next_conn w, Pkg.session_settings, [])])%list
      /\ match srv_exec srv (engine w) Pkg.session_settings [] with
         | inr (_, data) =>
             fst out = Ok (next_conn w) /\ engine (snd out) = data
         | inl e => fst out = Raise e /\ engine (snd out) = engine w
         end
  end.
Proof.
  unfold Pkg.getMysqlConnection, bind, connect, closing_cursor,
    cursor_execute, ret.
  simpl.
  destruct (srv_login srv (engine w)) as [e|]; [reflexivity|]. simpl.
  destruct (srv_exec srv (engine w) Pkg.session_settings [])
    as [e|[rows data]]; trace_simpl; repeat split.
Qed.

End Commands.

(** **** On the toy server *)

(** Upgrade on a server without metadata table. *)
Lemma no_schema_installed_witness :
  exists msg w1,
    Pkg.run server (package ["1"; "2"]) (Pkg.Upgrade None) (world empty [])
    = (Raise (CommandError msg), w1)
    /\ next_conn w1 = 1
    /\ invoked (trace w1) = [].
Proof.
  destruct (no_schema_installed server (package ["1"; "2"]) (Pkg.Upgrade None)
              (world empty [])
              (snd (Pkg.getSchemaVersion server "metadata" (world empty [])))
              eq_refl eq_refl) as (msg & Hrun & _).
  exists msg. eexists. split; [exact Hrun|]. now split.
Defined.

(** Overlay to version 2 when version 2 is installed. *)
Lemma already_installed_witness :
  fst (Pkg.run server (package ["1"; "2"]) (Pkg.Overlay (Some "2"))
               (world (installed "2") []))
  = Raise (CommandError "Schema version 2 is already installed").
Proof.
  now rewrite (already_installed server (package ["1"; "2"])
                 (Pkg.Overlay (Some "2")) (world (installed "2") [])
                 (snd (Pkg.getSchemaVersion server "metadata"
                         (world (installed "2") [])))
                 "2" eq_refl eq_refl).
Defined.

(** Trim with reference to version 9, for which there is no module. *)
Lemma unknown_version_witness :
  exists w',
    Pkg.run server (package ["1"; "2"]) (Pkg.Trim (Some "9") None)
            (world (installed "2") ["y"])
    = (Raise (ImportError "schema.v9"), w')
    /\ next_conn w' = 0.
Proof.
  destruct (unknown_version server (package ["1"; "2"])
              (Pkg.Trim (Some "9") None) (world (installed "2") ["y"])
              (world (installed "2") ["y"]) "9" (conj eq_refl eq_refl)
              eq_refl) as (w' & Hrun & Hn & _).
  exists w'. now split.
Defined.

(** Upgrade from version 1 without a target: version 2 is the last, its
    procedure is called with [fromVersion] 1 and sets the version row. *)
Lemma migration_dispatch_witness :
  let out := Pkg.run server (package ["1"; "2"]) (Pkg.Upgrade None)
                     (world (installed "1") []) in
  fst out = Ok tt
  /\ engine (snd out) = installed "2"
  /\ invoked (trace (snd out)) = [("schema.v2", CapUpgrade, 1, "1")]
  /\ open_conns (snd out) = [].
Proof.
  refine (migration_dispatch server (package ["1"; "2"]) (Pkg.Upgrade None)
            (world (installed "1") [])
            (snd (Pkg.getSchemaVersion server "metadata"
                    (world (installed "1") [])))
            "1" "2"
            (mkModule (Some (set_version "2")) (Some (set_version "2"))
                      (Some drop_rows) (Some "1"))
            (set_version "2") 1 _ _ eq_refl _ _ eq_refl eq_refl eq_refl).
  - discriminate.
  - discriminate.
  - now exists ["1"].
Defined.

End CommandProps.

(** *** The loaders: what they leave alone, where they stop *)

Module LoaderProps.
Import MonadFacts StringFacts Toy Insert.
Section Loader.
Context {DB : Type}.
Variable srv : Server DB.

Ltac trace_simpl :=
  simpl;
  rewrite ?logged_app, ?invoked_app, ?executed_app, ?prompts_app,
    ?tempfiles_app;
  simpl; rewrite ?app_nil_r.

(** **** Beside the data *)

Lemma beside_ret {A} (a : A) : Legacy.stays_beside (@ret DB A a).
Proof. intros w. repeat split. Qed.

Lemma beside_raise {A} (e : exn) : Legacy.stays_beside (@raise DB A e).
Proof. intros w. repeat split. Qed.

Lemma beside_lift {A} (r : result A) : Legacy.stays_beside (@lift DB A r).
Proof. intros w. repeat split. Qed.

Lemma beside_logger_info (fmt : string) (args : list pyval) :
  Legacy.stays_beside (@logger_info DB fmt args).
Proof. intros w. unfold Legacy.beside_the_data. trace_simpl. repeat split. Qed.

Lemma beside_bind {A B} (m : @M DB A) (k : A -> @M DB B) :
  Legacy.stays_beside m -> (forall a, Legacy.stays_beside (k a)) ->
  Legacy.stays_beside (bind m k).
Proof.
  intros Hm Hk w. unfold bind. specialize (Hm w).
  destruct (m w) as [[a|e] w1]; cbn [snd] in *.
  - exact (FixtureProps.beside_trans _ _ _ Hm (Hk a w1)).
  - exact Hm.
Qed.

Lemma beside_for_each {A} (xs : list A) (body : A -> @M DB unit) :
  (forall x, Legacy.stays_beside (body x)) ->
  Legacy.stays_beside (for_each xs body).
Proof.
  intros Hbody. induction xs as [|x xs IH]; cbn [for_each].
  - apply beside_ret.
  - apply beside_bind; [apply Hbody | intros _; exact IH].
Qed.

Lemma beside_cursor_execute (c : conn) (q : string) (args : list pyval) :
  Legacy.stays_beside (cursor_execute srv c q args).
Proof.
  intros w. unfold cursor_execute.
  destruct (negb (count_placeholders q =? length args)%nat);
    [repeat split|].
  simpl. destruct (srv_exec srv (engine w) q args) as [e|[rows data]];
    unfold Legacy.beside_the_data; trace_simpl; repeat split.
Qed.

Lemma beside_try {A B} (m : @M DB A) (h : exn -> option (@M DB B))
    (k : A -> @M DB B) :
  Legacy.stays_beside m ->
  (forall e handler, h e = Some handler -> Legacy.stays_beside handler) ->
  (forall a, Legacy.stays_beside (k a)) ->
  Legacy.stays_beside (try_except_else m h k).
Proof.
  intros Hm Hh Hk w. unfold try_except_else. specialize (Hm w).
  destruct (m w) as [[a|e] w1]; cbn [snd] in *.
  - exact (FixtureProps.beside_trans _ _ _ Hm (Hk a w1)).
  - destruct (h e) as [handler|] eqn:He; [|exact Hm].
    exact (FixtureProps.beside_trans _ _ _ Hm (Hh e handler He w1)).
Qed.

Lemma beside_install_row (c : conn) (ic : bool) (tableName row : pyval) :
  Legacy.stays_beside (Legacy.install_row srv c ic tableName row).
Proof.
  unfold Legacy.install_row, closing_cursor.
  apply beside_bind; [apply beside_lift | intros t].
  apply beside_bind; [apply beside_lift | intros fields].
  apply beside_try.
  - apply beside_cursor_execute.
  - intros e handler He. destruct e; try discriminate.
    injection He as <-. destruct ic;
      [apply beside_logger_info | apply beside_raise].
  - intros _. apply beside_ret.
Qed.

Lemma beside_install_table (c : conn) (fixture : pyval) (ic : bool)
    (tableName : pyval) :
  Legacy.stays_beside (Legacy.install_table srv c fixture ic tableName).
Proof.
  unfold Legacy.install_table.
  apply beside_bind; [apply beside_logger_info | intros _].
  apply beside_bind; [apply beside_lift | intros rows].
  apply beside_bind; [apply beside_lift | intros rows'].
  apply beside_for_each. intros row. apply beside_install_row.
Qed.

Lemma beside_installFixture (c : conn) (fixture : pyval) (ic : bool) :
  Legacy.stays_beside (Legacy._installFixture srv c fixture ic).
Proof.
  unfold Legacy._installFixture.
  apply beside_bind; [apply beside_lift | intros has_order].
  destruct (negb has_order); [apply beside_ret|].
  apply beside_bind; [apply beside_lift | intros order].
  apply beside_bind; [apply beside_lift | intros names].
  apply beside_for_each. intros t. apply beside_install_table.
Qed.

(** X10.  Whatever the document, the server and the outcome, loading one
    application's tables opens and closes no session, reads nothing from
    the operator, writes no temporary file and calls no procedure of a
    version module: it acts on the data and the log only. *)
Theorem loader_acts_on_data_only (c : conn) (fixture : pyval) (ic : bool)
    (w : World DB) :
  let w' := snd (Legacy._installFixture srv c fixture ic w) in
  next_conn w' = next_conn w
  /\ open_conns w' = open_conns w
  /\ stdin w' = stdin w
  /\ next_tmp w' = next_tmp w
  /\ tempfiles (trace w') = tempfiles (trace w)
  /\ prompts (trace w') = prompts (trace w)
  /\ invoked (trace w') = invoked (trace w).
Proof.
  exact (beside_installFixture c fixture ic w).
Qed.

(** **** What sends nothing *)

Lemma sends_ret {A} (a : A) : sends_nothing (@ret DB A a).
Proof. intros w. now split. Qed.

Lemma sends_raise {A} (e : exn) : sends_nothing (@raise DB A e).
Proof. intros w. now split. Qed.

Lemma sends_lift {A} (r : result A) : sends_nothing (@lift DB A r).
Proof. intros w. now split. Qed.

Lemma sends_logger_info (fmt : string) (args : list pyval) :
  sends_nothing (@logger_info DB fmt args).
Proof. intros w. trace_simpl. now split. Qed.

Lemma sends_bind {A B} (m : @M DB A) (k : A -> @M DB B) :
  sends_nothing m -> (forall a, sends_nothing (k a)) ->
  sends_nothing (bind m k).
Proof.
  intros Hm Hk w. unfold bind. destruct (Hm w) as [Hx He].
  destruct (m w) as [[a|e] w1]; cbn [snd] in *.
  - destruct (Hk a w1) as [Hx1 He1]. split; congruence.
  - now split.
Qed.

Lemma sends_for_each {A} (xs : list A) (body : A -> @M DB unit) :
  (forall x, sends_nothing (body x)) -> sends_nothing (for_each xs body).
Proof.
  intros Hbody. induction xs as [|x xs IH]; cbn [for_each].
  - apply sends_ret.
  - apply sends_bind; [apply Hbody | intros _; exact IH].
Qed.

Lemma sends_after_unbound {A B} (name : string)
    (H : Pkg.is_bound name = false) (k : A -> @M DB B) :
  sends_nothing (bind (Pkg.unbound name H) k).
Proof. intros w. now split. Qed.

(** X11.  [importData] of the package never sends a statement for a row:
    whatever the document and the server, the statements sent and the
    data at its end are those [getMysqlConnection] left -- and the
    session that one opened is still open, [importData] closing
    nothing. *)
Theorem importData_never_inserts (tables : pyval) (ic : bool) (w : World DB) :
  let opened := snd (Pkg.getMysqlConnection srv w) in
  let w' := snd (Pkg.importData srv tables ic w) in
  executed (trace w') = executed (trace opened)
  /\ engine w' = engine opened
  /\ open_conns w' = open_conns opened.
Proof.
  cbv zeta. unfold Pkg.importData.
  destruct (Pkg.getMysqlConnection srv w) as [[db|e] w1] eqn:Hconn;
    cbn [snd];
    [rewrite (bind_ok _ _ _ _ _ Hconn)
    |rewrite (bind_raise _ _ _ _ _ Hconn); now repeat split].
  set (rest := bind (lift (py_iter tables)) _).
  assert (Hsend : sends_nothing rest).
  { subst rest.
    apply sends_bind; [apply sends_lift | intros ts].
    apply sends_for_each. intros table.
    apply sends_bind; [apply sends_lift | intros name].
    apply sends_bind; [apply sends_logger_info | intros _].
    apply sends_bind; [apply sends_lift | intros rows].
    apply sends_bind; [apply sends_lift | intros rows'].
    apply sends_for_each. intros row.
    apply sends_bind; [apply sends_lift | intros name1].
    apply sends_bind; [apply sends_lift | intros name2].
    apply sends_bind; [apply sends_lift | intros fields].
    apply sends_after_unbound. }
  assert (Hkeep : keeps_conns rest).
  { subst rest.
    apply MigrationProps.keeps_bind;
      [apply MigrationProps.keeps_lift | intros ts].
    induction ts as [|table ts IH]; cbn [for_each];
      [apply MigrationProps.keeps_ret|].
    apply MigrationProps.keeps_bind; [|intros _; exact IH].
    apply MigrationProps.keeps_bind;
      [apply MigrationProps.keeps_lift | intros name].
    apply MigrationProps.keeps_bind;
      [apply MigrationProps.keeps_logger_info | intros _].
    apply MigrationProps.keeps_bind;
      [apply MigrationProps.keeps_lift | intros rows].
    apply MigrationProps.keeps_bind;
      [apply MigrationProps.keeps_lift | intros rows'].
    induction rows' as [|row rows' IHr]; cbn [for_each];
      [apply MigrationProps.keeps_ret|].
    apply MigrationProps.keeps_bind; [|intros _; exact IHr].
    apply MigrationProps.keeps_bind;
      [apply MigrationProps.keeps_lift | intros name1].
    apply MigrationProps.keeps_bind;
      [apply MigrationProps.keeps_lift | intros name2].
    apply MigrationProps.keeps_bind;
      [apply MigrationProps.keeps_lift | intros fields].
    intros w0. reflexivity. }
  destruct (Hsend w1) as [Hx He]. split; [exact Hx|]. split; [exact He|].
  apply Hkeep.
Qed.


(** **** Merging a fixture *)

Lemma keeps_install_entry (c : conn) (ic : bool) (entry : string * pyval) :
  keeps_conns (Legacy.install_entry srv c ic entry).
Proof.
  destruct entry as [appName fx]. unfold Legacy.install_entry.
  destruct (appName =? "self")%string.
  - intros w. apply (beside_installFixture c fx ic w).
  - apply MigrationProps.keeps_bind; [intros w; reflexivity | intros f].
    apply MigrationProps.keeps_bind; [intros w; reflexivity | intros _].
    apply MigrationProps.keeps_bind;
      [apply MigrationProps.keeps_raw_input | intros _].
    apply MigrationProps.keeps_ret.
Qed.

Lemma keeps_installAFixture (c : conn) (fixture : pyval) (ic : bool) :
  keeps_conns (Legacy.installAFixture srv c fixture ic).
Proof.
  unfold Legacy.installAFixture.
  apply MigrationProps.keeps_bind;
    [apply MigrationProps.keeps_lift | intros has_self].
  destruct (negb has_self).
  - intros w. apply (beside_installFixture c fixture ic w).
  - apply MigrationProps.keeps_bind;
      [apply MigrationProps.keeps_lift | intros items].
    induction items as [|entry items IH]; cbn [for_each];
      [apply MigrationProps.keeps_ret|].
    apply MigrationProps.keeps_bind;
      [apply keeps_install_entry | intros _; exact IH].
Qed.

(** X12.  [mergeFixture], once its session is there: however the load
    ends, the session is still open -- nothing closes it; and for a
    well-formed document without a [self] key whose statements the
    server lets through, the load returns, the statements sent being the
    session setting and then the plan of the document, all through that
    session. *)
Theorem mergeFixture_session (fixture : pyval) (ic : bool) (w : World DB)
    (db : conn) (w1 : World DB) :
  Legacy.getMysqlConnection srv w = (Ok db, w1) ->
  let out := Legacy.mergeFixture srv fixture ic w in
  open_conns (snd out) = db :: open_conns w
  /\ (forall d data',
        fixture = PDict d ->
        has_key "self" d = false ->
        Legacy.well_formed d = true ->
        Legacy.settle srv ic (Legacy.plan d) (engine w1) = Some data' ->
        fst out = Ok tt
        /\ engine (snd out) = data'
        /\ executed (trace (snd out))
           = (executed (trace w)
              ++ (db, "SET wait_timeout=31536000", [])
                 :: map (Legacy.via db) (Legacy.plan d))%list).
Proof.
  intros Hconn. cbv zeta. unfold Legacy.mergeFixture.
  rewrite (bind_ok _ _ _ _ _ Hconn).
  destruct (MigrationProps.getMysqlConnection_ok srv w db w1 Hconn)
    as (_ & _ & Ho & _ & _ & Htr & _).
  split.
  - rewrite (keeps_installAFixture db fixture ic w1). exact Ho.
  - intros d data' -> Hself Hwf Hsettle.
    destruct (FixtureProps.fixture_settle srv db ic d w1 data' Hwf Hsettle)
      as (w' & Hrun & He & Hx & _ & _).
    assert (Hload : Legacy.installAFixture srv db (PDict d) ic w1 = (Ok tt, w')).
    { unfold Legacy.installAFixture, lift, bind. cbn [py_contains].
      rewrite Hself. exact Hrun. }
    rewrite Hload. cbn [fst snd]. split; [reflexivity|]. split; [exact He|].
    rewrite Hx, Htr. trace_simpl. now rewrite <- app_assoc.
Qed.

(** **** Where a load stops *)

(** X13.  A table that [tableOrder] names and the document does not
    hold stops the load with the key error for its name: the tables
    named before it have been loaded, the loader has announced the
    missing one, and nothing is sent for it or for the tables after. *)
Theorem missing_table_stops_load (c : conn) (d : list (string * pyval))
    (ic : bool) (before : list string) (t : string) (after : list string)
    (w : World DB) (data1 : DB) :
  lookup "tableOrder" d = Some (PList (map PStr (before ++ t :: after))) ->
  forallb (Legacy.table_ok d) (map PStr before) = true ->
  lookup t d = None ->
  Legacy.settle srv ic (flat_map (Legacy.table_statements d) before) (engine w)
  = Some data1 ->
  exists w',
    Legacy._installFixture srv c (PDict d) ic w
    = (Raise (KeyError (PStr t)), w')
    /\ engine w' = data1
    /\ executed (trace w')
       = (executed (trace w)
          ++ map (Legacy.via c)
                 (flat_map (Legacy.table_statements d) before))%list
    /\ In ("Installing table %s", [PStr t]) (logged (trace w')).
Proof.
  intros Horder Hok Hmiss Hsettle.
  destruct (FixtureProps.tables_settle srv c ic d before Hok w data1 Hsettle)
    as (w1 & Hrun & He & Hx & _ & _).
  exists (add_event (ELog "Installing table %s" [PStr t]) w1).
  split.
  - unfold Legacy._installFixture, lift, bind at 1.
    cbn [py_contains]. unfold has_key. rewrite Horder. cbn [negb].
    unfold bind at 1. cbn [py_getitem]. rewrite Horder.
    unfold bind at 1. cbn [py_iter].
    rewrite map_app, for_each_app, (bind_ok _ _ _ _ _ Hrun).
    cbn [map for_each]. unfold bind at 1.
    assert (Htable : Legacy.install_table srv c (PDict d) ic (PStr t) w1
                     = (Raise (KeyError (PStr t)),
                        add_event (ELog "Installing table %s" [PStr t]) w1)).
    { unfold Legacy.install_table, bind, logger_info, emit, lift.
      cbn [py_getitem]. now rewrite Hmiss. }
    now rewrite Htable.
  - split; [exact He|]. trace_simpl. split; [exact Hx|].
    apply in_or_app. right. now left.
Qed.

(** A refusal that the handler does not swallow: any error but an
    integrity error, and an integrity error when conflicts are not
    ignored. *)
Lemma rows_stop (c : conn) (ic : bool) (t : string)
    (rows_before : list Legacy.fields) (r : Legacy.fields)
    (rows_after : list Legacy.fields) (w : World DB) (data1 : DB)
    (e : exn) :
  Legacy.settle srv ic (map (Legacy.statement_of t) rows_before) (engine w)
  = Some data1 ->
  Legacy.sendable (Legacy.statement_of t r) = true ->
  srv_exec srv data1 (insert_query t r) (insert_args r) = inl e ->
  (forall code, e = IntegrityError code -> ic = false) ->
  exists w',
    for_each (map PDict (rows_before ++ r :: rows_after))
             (Legacy.install_row srv c ic (PStr t)) w
    = (Raise e, w')
    /\ engine w' = data1
    /\ executed (trace w')
       = (executed (trace w)
          ++ map (Legacy.via c)
                 (map (Legacy.statement_of t) rows_before
                  ++ [Legacy.statement_of t r]))%list.
Proof.
  intros Hsettle Hs Hexec Hstop.
  destruct (FixtureProps.rows_settle srv c ic t rows_before w data1 Hsettle)
    as (w1 & Hrun & He & Hx & _ & _).
  exists (add_event (EExecute c (insert_query t r) (insert_args r)) w1).
  split.
  - rewrite map_app, for_each_app, (bind_ok _ _ _ _ _ Hrun).
    cbn [map for_each]. unfold bind.
    rewrite (FixtureProps.install_row_sent srv c ic t r w1 Hs). cbv zeta.
    rewrite He, Hexec.
    destruct e; try reflexivity.
    now rewrite (Hstop code eq_refl).
  - split; [exact He|].
    trace_simpl. rewrite Hx, map_app, app_assoc. reflexivity.
Qed.

(** X14.  [ignoreConflicts] covers integrity errors only: with it set,
    a row that the server refuses with any other error stops the load
    with that error, after the rows before it -- conflicts among them
    skipped -- and before the rows after it. *)
Theorem other_errors_stop_the_load (c : conn) (d : list (string * pyval))
    (before : list string) (t : string) (after : list string)
    (rows_before : list Legacy.fields) (r : Legacy.fields)
    (rows_after : list Legacy.fields) (w : World DB) (data1 : DB)
    (e : exn) :
  Legacy.well_formed d = true ->
  Legacy.table_names d = (before ++ t :: after)%list ->
  Legacy.rows_of d t = (rows_before ++ r :: rows_after)%list ->
  Legacy.settle srv true
    (flat_map (Legacy.table_statements d) before
     ++ map (Legacy.statement_of t) rows_before) (engine w)
  = Some data1 ->
  Legacy.sendable (Legacy.statement_of t r) = true ->
  srv_exec srv data1 (insert_query t r) (insert_args r) = inl e ->
  (forall code, e <> IntegrityError code) ->
  exists w',
    Legacy._installFixture srv c (PDict d) true w = (Raise e, w')
    /\ engine w' = data1
    /\ executed (trace w')
       = (executed (trace w)
          ++ map (Legacy.via c)
                 (flat_map (Legacy.table_statements d) before
                  ++ map (Legacy.statement_of t) rows_before
                  ++ [Legacy.statement_of t r]))%list.
Proof.
  intros Hwf Hnames Hrows Hsettle Hs Hexec Hother.
  destruct (lookup "tableOrder" d) as [order|] eqn:Hl.
  2:{ unfold Legacy.table_names in Hnames. rewrite Hl in Hnames.
      destruct before; discriminate. }
  assert (Hlist : exists names, order = PList names).
  { unfold Legacy.well_formed in Hwf. rewrite Hl in Hwf.
    destruct order; try discriminate. now eexists. }
  destruct Hlist as (names & ->).
  destruct (FixtureProps.well_formed_names d names Hl Hwf) as (Hn & Hok).
  rewrite Hnames in Hn, Hok.
  rewrite map_app, forallb_app in Hok.
  apply andb_true_iff in Hok as [Hbefore Ht].
  cbn [map forallb Legacy.table_ok] in Ht.
  apply andb_true_iff in Ht as [Ht _].
  destruct (lookup t d) as [v|] eqn:Hlt; [|discriminate].
  rewrite FixtureProps.settle_app in Hsettle.
  destruct (Legacy.settle srv true
              (flat_map (Legacy.table_statements d) before) (engine w))
    as [data0|] eqn:H0; [|discriminate].
  destruct (FixtureProps.tables_settle srv c true d before Hbefore w data0 H0)
    as (w0 & Hrun0 & He0 & Hx0 & _ & _).
  rewrite <- He0 in Hsettle.
  destruct (rows_stop c true t rows_before r rows_after
              (add_event (ELog "Installing table %s" [PStr t]) w0)
              data1 e Hsettle Hs Hexec)
    as (w' & Hrun & He & Hx).
  { intros code ->. now elim (Hother code). }
  exists w'. split.
  - unfold Legacy._installFixture, lift, bind at 1.
    cbn [py_contains]. unfold has_key. rewrite Hl. cbn [negb].
    unfold bind at 1. cbn [py_getitem]. rewrite Hl.
    unfold bind at 1. cbn [py_iter]. rewrite Hn.
    rewrite map_app, for_each_app, (bind_ok _ _ _ _ _ Hrun0).
    cbn [map for_each]. unfold bind at 1.
    assert (Htable : Legacy.install_table srv c (PDict d) true (PStr t) w0
                     = (Raise e, w')).
    { unfold Legacy.install_table, bind, logger_info, emit, lift.
      cbn [py_getitem]. rewrite Hlt.
      rewrite (FixtureProps.rows_of_spec d t v Hlt Ht), Hrows.
      cbn [py_iter]. exact Hrun. }
    now rewrite Htable.
  - split; [exact He|].
    revert Hx. trace_simpl. intros Hx.
    rewrite Hx, Hx0, !map_app, !app_assoc. reflexivity.
Qed.

End Loader.

(** **** On the toy server *)

(** Merging the two-table document: the session is open afterwards and
    the three rows were sent through it after the session setting. *)
Lemma mergeFixture_session_witness :
  let out := Legacy.mergeFixture server (PDict two_tables) false
                                 (world empty []) in
  open_conns (snd out) = [0]
  /\ fst out = Ok tt
  /\ executed (trace (snd out))
     = [(0, "SET wait_timeout=31536000", []);
        (0, "INSERT INTO t (a,b) VALUES (%s,%s)", [PInt 1; PInt 2]);
        (0, "INSERT INTO t (a,b) VALUES (%s,%s)", [PInt 3; PInt 4]);
        (0, "INSERT INTO u (x) VALUES (%s)", [PInt 7])].
Proof.
  destruct (mergeFixture_session server (PDict two_tables) false
              (world empty []) 0 _ eq_refl) as [Hopen Hload].
  destruct (Hload two_tables _ eq_refl eq_refl eq_refl eq_refl)
    as (Hok & _ & Hx).
  split; [exact Hopen|]. split; [exact Hok | exact Hx].
Defined.

(** [tableOrder] names [t] and [v], the document holds [t] only: the row
    of [t] is stored, then the load stops at [v]. *)
Lemma missing_table_stops_load_witness :
  exists w',
    Legacy._installFixture server 0 (PDict missing_table) false
                           (world empty [])
    = (Raise (KeyError (PStr "v")), w')
    /\ executed (trace w')
       = [(0, "INSERT INTO t (a,b) VALUES (%s,%s)", [PInt 1; PInt 2])].
Proof.
  destruct (missing_table_stops_load server 0 missing_table false
              ["t"] "v" [] (world empty []) _
              eq_refl eq_refl eq_refl eq_refl)
    as (w' & Hrun & _ & Hx & _).
  exists w'. split; [exact Hrun | exact Hx].
Defined.

(** Table [u] is locked: with conflicts ignored the load of the two-table
    document still stops at the row of [u], the rows of [t] stored. *)
Lemma other_errors_stop_the_load_witness :
  exists w',
    Legacy._installFixture locked_server 0 (PDict two_tables) true
                           (world empty [])
    = (Raise (OperationalError 1205), w')
    /\ stored (engine w')
       = [("INSERT INTO t (a,b) VALUES (%s,%s)", [PInt 1; PInt 2]);
          ("INSERT INTO t (a,b) VALUES (%s,%s)", [PInt 3; PInt 4])].
Proof.
  destruct (other_errors_stop_the_load locked_server 0 two_tables
              ["t"] "u" [] [] [("x", PInt 7)] [] (world empty []) _
              (OperationalError 1205)
              eq_refl eq_refl eq_refl eq_refl eq_refl eq_refl)
    as (w' & Hrun & He & _).
  { intros code H. discriminate H. }
  exists w'. split; [exact Hrun | now rewrite He].
Defined.

End LoaderProps.

(* ================================================================== *)
(** ** The application plugin's version check *)
(* ================================================================== *)

Module PluginProps.
Import MonadFacts Toy.

Section Plugin.
Context {DB : Type}.
Variable srv : Server DB.
Variable pkg : SchemaPackage DB.

Ltac trace_simpl :=
  simpl;
  rewrite ?logged_app, ?invoked_app, ?executed_app, ?prompts_app,
    ?tempfiles_app;
  simpl; rewrite ?app_nil_r.

(** What the inspectors make of the rows that came back. *)
Lemma rev_last_version (v : string) (rest : list string) :
  rev (versions pkg) = v :: rest -> versions pkg = (rev rest ++ [v])%list.
Proof.
  intros H. rewrite <- (rev_involutive (versions pkg)), H. reflexivity.
Qed.

(** X15.  The inspector of [MySQLPlugin.py] never answers [None]: any
    refusal of its query by the server, the missing table (1146)
    included, reaches an [except] clause that names [pymysql], which the
    file does not import, and comes out as a [NameError]; so does a
    result without a row, through [DatabaseError].  With a row it
    answers the row's [value].  It sends its one query through the
    shared session and opens or closes none. *)
Theorem legacy_inspector_outcomes (db : conn) (w : World DB) :
  let out := Legacy.getCurrDbSchemaVersion srv db w in
  fst out <> Ok None
  /\ open_conns (snd out) = open_conns w
  /\ next_conn (snd out) = next_conn w
  /\ executed (trace (snd out))
     = (executed (trace w)
        ++ [(db, "SELECT * FROM metadata WHERE attribute = %s",
             [PStr "version"])])%list
  /\ match srv_exec srv (engine w)
                    "SELECT * FROM metadata WHERE attribute = %s"
                    [PStr "version"] with
     | inl _ =>
         fst out = Raise (NameError "pymysql") /\ engine (snd out) = engine w
     | inr (rows, data) =>
         engine (snd out) = data
         /\ fst out
            = match rows with
              | [] | [] :: _ => Raise (NameError "DatabaseError")
              | r :: _ =>
                  match lookup "value" r with
                  | Some v => Ok (Some v)
                  | None => Raise (KeyError (PStr "value"))
                  end
              end
     end.
Proof.
  cbv zeta.
  unfold Legacy.getCurrDbSchemaVersion, closing_cursor, try_except_else,
    cursor_execute, Legacy.unbound, raise, fetchone.
  change (count_placeholders "SELECT * FROM metadata WHERE attribute = %s")
    with 1.
  cbn [length Nat.eqb negb]. cbv zeta.
  set (query := "SELECT * FROM metadata WHERE attribute = %s").
  change (engine (add_event (EExecute db query [PStr "version"]) w))
    with (engine w).
  destruct (srv_exec srv (engine w) query [PStr "version"])
    as [e|[rows data]].
  - cbn [fst snd]. trace_simpl. repeat split; discriminate.
  - destruct rows as [|[|cell r] rows]; cbn [hd_error fst snd].
    + trace_simpl. repeat split; discriminate.
    + trace_simpl. repeat split; discriminate.
    + destruct (lookup "value" (cell :: r)); unfold ret; cbn [fst snd];
        trace_simpl; repeat split; discriminate.
Qed.

(** X16.  The check at start-up in [MySQLPlugin.py] passes exactly when
    the inspector answers the last of the package's versions.  When it
    answers another version the check fails, with a [NameError] for
    [SchemaVersionMismatch], which the file does not bind.  Either way
    the check leaves the world as the inspector left it. *)
Theorem legacy_version_check (db : conn) (w : World DB) :
  let seen := Legacy.getCurrDbSchemaVersion srv db w in
  let out := Legacy.checkDbSchemaVersion srv pkg db w in
  (fst out = Ok tt
   <-> exists v older,
         fst seen = Ok (Some v) /\ versions pkg = (older ++ [v])%list)
  /\ (forall v older newest,
        fst seen = Ok (Some v) ->
        versions pkg = (older ++ [newest])%list ->
        v <> newest ->
        fst out = Raise (NameError "SchemaVersionMismatch"))
  /\ snd out = snd seen.
Proof.
  cbv zeta. unfold Legacy.checkDbSchemaVersion, bind.
  destruct (Legacy.getCurrDbSchemaVersion srv db w) as [[seen|e] w1];
    cbn [fst snd].
  2:{ split; [split; [discriminate | intros (v & older & H & _); discriminate]|].
      split; [intros v older newest H; discriminate | reflexivity]. }
  unfold last_version.
  destruct (rev (versions pkg)) as [|newest rest] eqn:Hrev.
  { assert (Hnil : versions pkg = []).
    { rewrite <- (rev_involutive (versions pkg)), Hrev. reflexivity. }
    unfold raise. cbn [fst snd].
    split; [split; [discriminate|]|].
    - intros (v & older & _ & H). rewrite Hnil in H.
      destruct older; discriminate.
    - split; [|reflexivity].
      intros v older n _ H. rewrite Hnil in H. destruct older; discriminate. }
  apply rev_last_version in Hrev.
  unfold ret.
  assert (Hlast : forall older n,
             versions pkg = (older ++ [n])%list -> n = newest).
  { intros older n H. rewrite Hrev in H.
    apply app_inj_tail in H. now destruct H. }
  destruct seen as [v|]; cbv beta iota.
  - destruct (String.eqb v newest) eqn:Heq; cbn [negb];
      unfold Legacy.unbound, raise, ret; cbn [fst snd].
    + apply String.eqb_eq in Heq. subst v.
      split; [split; [intros _; now exists newest, (rev rest) | reflexivity]|].
      split; [|reflexivity].
      intros v older n Hv Hn Hne. injection Hv as <-.
      now rewrite (Hlast _ _ Hn) in Hne.
    + apply String.eqb_neq in Heq.
      split; [split; [discriminate|]|].
      * intros (v' & older & Hv & Hn). injection Hv as <-.
        now rewrite (Hlast _ _ Hn) in Heq.
      * split; reflexivity.
  - unfold Legacy.unbound, raise; cbn [fst snd].
    split; [split; [discriminate|]|].
    + intros (v & older & Hv & _). discriminate.
    + split; [|reflexivity]. intros v older n Hv. discriminate.
Qed.

(** X17.  The inspector of the package ([MySQLPlugin/__init__.py])
    answers [None] exactly when the server reports that the metadata
    table does not exist (1146); every other refusal comes out as it
    is.  A result with a row gives the row's [value], one without a row
    a [NameError] for [DatabaseError].  It sends its one query through
    the shared session and opens or closes none. *)
Theorem plugin_inspector_outcomes (db : conn) (w : World DB) :
  let out := Pkg.getCurrDbSchemaVersion srv db w in
  open_conns (snd out) = open_conns w
  /\ next_conn (snd out) = next_conn w
  /\ executed (trace (snd out))
     = (executed (trace w)
        ++ [(db, "SELECT * FROM metadata WHERE attribute = %s",
             [PStr "version"])])%list
  /\ (fst out = Ok None
      <-> srv_exec srv (engine w)
                   "SELECT * FROM metadata WHERE attribute = %s"
                   [PStr "version"]
          = inl (ProgrammingError 1146))
  /\ match srv_exec srv (engine w)
                    "SELECT * FROM metadata WHERE attribute = %s"
                    [PStr "version"] with
     | inl e =>
         engine (snd out) = engine w
         /\ (e <> ProgrammingError 1146 -> fst out = Raise e)
     | inr (rows, data) =>
         engine (snd out) = data
         /\ fst out
            = match rows with
              | [] | [] :: _ => Raise (NameError "DatabaseError")
              | r :: _ =>
                  match lookup "value" r with
                  | Some v => Ok (Some v)
                  | None => Raise (KeyError (PStr "value"))
                  end
              end
     end.
Proof.
  cbv zeta.
  unfold Pkg.getCurrDbSchemaVersion, closing_cursor, try_except_else,
    cursor_execute, Pkg.unbound, raise, fetchone.
  change (count_placeholders "SELECT * FROM metadata WHERE attribute = %s")
    with 1.
  cbn [length Nat.eqb negb]. cbv zeta.
  set (query := "SELECT * FROM metadata WHERE attribute = %s").
  change (engine (add_event (EExecute db query [PStr "version"]) w))
    with (engine w).
  destruct (srv_exec srv (engine w) query [PStr "version"])
    as [e|[rows data]].
  - destruct e; cbn [fst snd]; trace_simpl;
      try (repeat split; try discriminate; congruence).
    destruct (code =? 1146)%Z eqn:Hc; unfold ret; cbn [fst snd]; trace_simpl.
    + apply Z.eqb_eq in Hc. subst code.
      repeat split; congruence.
    + apply Z.eqb_neq in Hc.
      repeat split; try discriminate; congruence.
  - destruct rows as [|[|cell r] rows]; cbn [hd_error fst snd].
    + trace_simpl. repeat split; discriminate.
    + trace_simpl. repeat split; discriminate.
    + destruct (lookup "value" (cell :: r)); unfold ret; cbn [fst snd];
        trace_simpl; repeat split; discriminate.
Qed.

End Plugin.

(** On a database without the metadata table the two inspectors part. *)
Example inspectors_without_schema :
  fst (Pkg.getCurrDbSchemaVersion server 0 (world empty [])) = Ok None
  /\ fst (Legacy.getCurrDbSchemaVersion server 0 (world empty []))
     = Raise (NameError "pymysql").
Proof. split; reflexivity. Qed.

End PluginProps.

(* ================================================================== *)
(** ** Installing the schema from the shell *)
(* ================================================================== *)

Module CliProps.

Section Cli.
Context {S : Type}.
Variable system : S -> string -> Z * S.
Variable mysql : Cli.MysqlArgs.

(** X18.  [installSchema] of [MySQLPlugin.py] runs at most three
    commands, in this order: drop the database, create it, load the
    schema file.  The drop always runs; each later command runs only
    when the one before it ended with status 0, and a command that ends
    otherwise stops the installation with the error of its stage.  The
    installation returns exactly when all three ended with 0. *)
Theorem installSchema_stages (h : Cli.Host S) :
  let out := Cli.installSchema system mysql h in
  let dropped := system (Cli.machine h) (Cli.drop_command mysql) in
  let created := system (snd dropped) (Cli.create_command mysql) in
  let loaded :=
    system (snd created)
           (Cli.load_command mysql (Cli.schemaFilePath mysql)) in
  if negb (fst dropped =? 0)%Z then
    fst out = Raise (CommandError "Failed to drop previous database")
    /\ Cli.commands (snd out)
       = (Cli.commands h ++ [Cli.drop_command mysql])%list
    /\ Cli.machine (snd out) = snd dropped
  else if negb (fst created =? 0)%Z then
    fst out = Raise (CommandError "Failed to create database")
    /\ Cli.commands (snd out)
       = (Cli.commands h
          ++ [Cli.drop_command mysql; Cli.create_command mysql])%list
    /\ Cli.machine (snd out) = snd created
  else
    fst out
    = (if negb (fst loaded =? 0)%Z
       then Raise (CommandError "Failed to execute SQL from file")
       else Ok tt)
    /\ Cli.commands (snd out)
       = (Cli.commands h
          ++ [Cli.drop_command mysql; Cli.create_command mysql;
              Cli.load_command mysql (Cli.schemaFilePath mysql)])%list
    /\ Cli.machine (snd out) = snd loaded.
Proof.
  cbv zeta.
  unfold Cli.installSchema, Cli.execute, Cli.sh_bind, Cli.os_system,
    Cli.info, Cli.sh_raise.
  destruct (system (Cli.machine h) (Cli.drop_command mysql)) as [rc1 m1].
  cbn [fst snd Cli.machine Cli.commands Cli.records].
  destruct (negb (rc1 =? 0)%Z); cbn [fst snd Cli.machine Cli.commands].
  { repeat split. }
  destruct (system m1 (Cli.create_command mysql)) as [rc2 m2].
  cbn [fst snd Cli.machine Cli.commands Cli.records].
  destruct (negb (rc2 =? 0)%Z); cbn [fst snd Cli.machine Cli.commands].
  { rewrite <- app_assoc. repeat split. }
  destruct (system m2 (Cli.load_command mysql (Cli.schemaFilePath mysql)))
    as [rc3 m3].
  cbn [fst snd Cli.machine Cli.commands Cli.records].
  destruct (negb (rc3 =? 0)%Z); cbn [fst snd Cli.machine Cli.commands];
    rewrite <- !app_assoc; repeat split.
Qed.

End Cli.
End CliProps.
